(** * Terabox downloader bot: admission chain, store, resolver, transfer

    A shallow embedding of the Python sources

      - [bot/database.py]      (module [Database])
      - [bot/decorators.py]    (module [Decorators])
      - [bot/utils/terabox.py] (module [Terabox])
      - [bot/utils/helpers.py] (module [Helpers])
      - [message.py]           (module [Handlers])

    Coroutines are functions in a reader/state/exception monad [M]: the
    reader part [Env] holds the configuration and everything the outside
    world answers (Telegram, HTTP, the clock); the state part [World]
    holds the module-level [_database] dict, the database file, the lock,
    the download directory and a trace of the calls made.  Python
    exceptions are values of [exn]; [try]/[except]/[finally] are
    combinators.  Instants are integers (microseconds since the epoch),
    the resolution of [datetime]. *)

From Stdlib Require Import ZArith String Ascii List Bool Lia DecimalString DecimalZ.
From stdpp Require Import gmap strings pretty list.

Local Open Scope string_scope.
Local Open Scope Z_scope.

(** ** Python exceptions *)

Inductive exn : Type :=
| NameError (name : string)
| UnboundLocalError (name : string)
| TypeError
| ValueError (msg : string)
| JSONDecodeError
| AttributeError
| KeyError
| IndexError
| ZeroDivisionError
| OverflowError
| OSError
| HTTPStatusError (status_code : Z)
| RequestError
| FloodWait (value : Z)
| UserNotParticipant
| RPCError
| RuntimeError.

(** [isinstance(e, C)] for the classes named in [except] clauses.
    [json.JSONDecodeError] derives from [ValueError]; [FloodWait] and
    [UserNotParticipant] derive from [RPCError]; [httpx.HTTPStatusError]
    and [httpx.RequestError] are siblings under [httpx.HTTPError]. *)
Definition is_ValueError (e : exn) : bool :=
  match e with ValueError _ | JSONDecodeError => true | _ => false end.
Definition is_TypeError (e : exn) : bool :=
  match e with TypeError => true | _ => false end.
Definition is_JSONDecodeError (e : exn) : bool :=
  match e with JSONDecodeError => true | _ => false end.
Definition is_OSError (e : exn) : bool :=
  match e with OSError => true | _ => false end.
Definition is_HTTPStatusError (e : exn) : bool :=
  match e with HTTPStatusError _ => true | _ => false end.
Definition is_RequestError (e : exn) : bool :=
  match e with RequestError => true | _ => false end.
Definition is_FloodWait (e : exn) : bool :=
  match e with FloodWait _ => true | _ => false end.
Definition is_UserNotParticipant (e : exn) : bool :=
  match e with UserNotParticipant => true | _ => false end.
Definition is_RPCError (e : exn) : bool :=
  match e with FloodWait _ | UserNotParticipant | RPCError => true | _ => false end.

(** ** Values stored in the timestamp fields of the document

    [PyIsoStr t] is the [str] that [datetime.isoformat()] produces for the
    instant [t]; [PyStr s] is any other [str] (one that
    [datetime.fromisoformat] rejects); [PyDatetime t] is a [datetime]
    object; [PyNone] is [None] / JSON [null]. *)
Inductive pyval : Type :=
| PyNone
| PyStr (s : string)
| PyIsoStr (t : Z)
| PyDatetime (t : Z).

Definition truthy (v : pyval) : bool :=
  match v with
  | PyNone => false
  | PyStr s => negb (String.eqb s "")
  | PyIsoStr _ | PyDatetime _ => true
  end.

(** [datetime.fromisoformat(v).replace(tzinfo=timezone.utc)]: a [str] that
    does not parse raises [ValueError], anything that is not a [str]
    raises [TypeError] ("fromisoformat: argument must be str"). *)
Definition fromisoformat (v : pyval) : exn + Z :=
  match v with
  | PyIsoStr t => inr t
  | PyStr _ => inl (ValueError "Invalid isoformat string")
  | PyDatetime _ | PyNone => inl TypeError
  end.

(** What [json.dump] accepts in such a field. *)
Definition json_serializable (v : pyval) : bool :=
  match v with PyDatetime _ => false | _ => true end.

(** ** The durable document *)

Record TokenEntry : Type := mkTokenEntry {
  te_token : string;     (* token_data['token'] *)
  te_expires : pyval     (* token_data['expires'] *)
}.

Record Db : Type := mkDb {
  users : list Z;                      (* _database['users'] *)
  tokens : gmap string TokenEntry;     (* _database['tokens'] *)
  spam_tracker : gmap string pyval     (* _database['spam_tracker'] *)
}.

Definition empty_db : Db := mkDb [] ∅ ∅.

(** Contents of [DB_FILE]. A [json.dump] that raises half-way leaves a
    truncated prefix of the document, which no longer parses. *)
Inductive DbFile : Type :=
| FileMissing
| FileDoc (d : Db)
| FileCorrupt.

(** ** User-visible texts (the f-strings, with their parameters) *)

Inductive text : Type :=
| TxtAccessDenied
| TxtJoinChannel (channel_name : string) (with_button : bool)
| TxtMustJoinAlert
| TxtSubscriptionError
| TxtTokenRequired
| TxtTokenExpired (ago : Z)
| TxtSpamProtection (wait_seconds : Z)
| TxtInvalidInput
| TxtProcessing
| TxtCouldNotExtract
| TxtContentBlocked
| TxtUnexpectedError (e : exn)
| TxtStartingDownload (filename size_str : string)
| TxtFileTooLargeHeader (size_bytes : Z)
| TxtProgress (status : string) (current total : Z)
| TxtDownloadComplete (filename : string)
| TxtDownloadFailedStatus (status_code : Z)
| TxtDownloadFailedNetwork
| TxtFileTooLarge (e : exn)
| TxtDownloadFailedOther (e : exn)
| TxtUploading (filename : string) (size_bytes : Z)
| TxtFloodWaitPaused (secs : Z)
| TxtUploadFailedAfterFloodWait (e : exn)
| TxtUploadFailedRPC (e : exn)
| TxtUploadFailedOther (e : exn).

(** ** Calls to the messaging transport and the trace *)

Inductive call : Type :=
| ReplyText (t : text)                    (* message.reply_text *)
| EditText (t : text)                     (* status_msg.edit_text *)
| DeleteStatus                            (* status_msg.delete *)
| SendVideo (path filename : string)      (* client.send_video *)
| ForwardTo (chat_id : Z)                 (* uploaded_message.forward *)
| GetChatMember (chat_id user_id : Z)     (* client.get_chat_member *)
| GetChat (chat_id : Z)                   (* client.get_chat *)
| ExportChatInviteLink (chat_id : Z)      (* client.export_chat_invite_link *)
| SendMessage (t : text)                  (* client.send_message *)
| AnswerCallback (t : text).              (* callback_query.answer *)

Inductive logline : Type :=
| LogFsubSkipped
| LogFsubFloodWait (secs : Z)
| LogFsubError (e : exn)
| LogFsubSendFailed
| LogSaveFailed
| LogBadExpiry (user_id : Z)
| LogBadSpamTimestamp (user_id : Z)
| LogUserAdded (user_id : Z)
| LogTokenStored (user_id : Z)
| LogNoLink
| LogPatternLinkInvalid
| LogPatternNoNameSize
| LogJsLinkInvalid
| LogJsMissingFields
| LogJsNoFileList
| LogJsDecodeError
| LogJsError (e : exn)
| LogApiNoDlink
| LogApiErrno
| LogApiRequestError
| LogApiDecodeError
| LogApiError (e : exn)
| LogAllMethodsFailed
| LogPageHttpStatus (status_code : Z)
| LogCookieInvalid
| LogPageNetworkError
| LogResolveUnexpected (e : exn)
| LogHandlerError (e : exn)
| LogAdultBlocked
| LogNoContentLength
| LogDownloadHttpStatus (status_code : Z)
| LogDownloadNetwork
| LogDownloadStopped (e : exn)
| LogDownloadError (e : exn)
| LogRemovedIncomplete
| LogRemoveFailed
| LogUploadFloodWait (secs : Z)
| LogUploadRetryFailed (e : exn)
| LogUploadRPC (e : exn)
| LogUploadError (e : exn)
| LogForwarded
| LogForwardFloodWait (secs : Z)
| LogForwardRetryFailed
| LogForwardFailed.

Inductive event : Type :=
| Tg (c : call) (ok : bool)         (* a transport call and whether it returned *)
| Slept (secs : Z)                  (* asyncio.sleep *)
| Logged (l : logline)
| HttpGet (url : string)
| HttpStream (url : string)
| DbRead (collection key : string)  (* a lookup in _database *)
| DbWrite (collection key : string) (* an assignment into _database *)
| LockAcquired
| LockReleased
| FileDump (ok : bool)              (* open(DB_FILE,'w') + json.dump *)
| FsOpenWrite (path : string)
| FsWrite (path : string) (n : Z)
| FsRemove (path : string) (ok : bool).

(** ** JSON values as [json.loads] returns them (numbers: integers only) *)

#[local] Set Warnings "-register-all".

Inductive json : Type :=
| JNull
| JBool (b : bool)
| JNum (z : Z)
| JStr (s : string)
| JList (l : list json)
| JDict (d : list (string * json)).

(** ** What the outside world answers *)

Record Config : Type := mkConfig {
  ADMIN_IDS : list Z;
  FSUB_ID : Z;
  DUMP_CHAT_ID : Z;
  SPAM_DELAY_SECONDS : Z;
  TOKEN_EXPIRY_HOURS : Z;
  DOWNLOAD_DIR : string;
  ADULT_KEYWORDS_LOWER : list string;
  TERABOX_COOKIE : string
}.

Record ChatInfo : Type := mkChatInfo {
  invite_link : option string;
  username : option string;
  title : string
}.

Inductive http_result : Type :=
| HttpFails (e : exn)                       (* the request itself raises *)
| HttpResponse (status_code : Z) (body : string).

(** The streaming GET of the direct link: status, the [Content-Length]
    header if any, the sizes of the chunks [aiter_bytes] yields and the
    exception, if any, that ends the stream after them. *)
Record Download : Type := mkDownload {
  dl_connect : option exn;
  dl_status : Z;
  dl_content_length : option string;
  dl_chunks : list Z;
  dl_end : option exn
}.

Record Env : Type := mkEnv {
  cfg : Config;
  clock : nat -> Z;                  (* successive readings of the clock *)
  member_status : string;            (* get_chat_member(...).status *)
  chat : ChatInfo;                   (* get_chat(...) *)
  exported_link : string;            (* export_chat_invite_link(...) *)
  http : string -> http_result;      (* client.get(url) *)
  download : string -> Download;     (* dl_client.stream("GET", url) *)
  json_loads : string -> option json;(* json.loads, None = JSONDecodeError *)
  remove_permitted : bool;           (* whether os.remove succeeds *)
  progress_text_raises : Z -> Z -> Z -> option exn
    (* what the float arithmetic and the humanize calls of progress_callback
       raise, given time.time(), current and a non-zero total *)
}.

(** ** Process state *)

Record World : Type := mkWorld {
  w_db : Db;                     (* database._database *)
  w_file : DbFile;               (* contents of DB_FILE *)
  w_lock : bool;                 (* database._db_lock is held *)
  w_reads : nat;                 (* clock readings consumed so far *)
  w_tg : list (option exn);      (* outcomes of the coming transport calls;
                                    None, or exhausted, = the call returns *)
  w_fs : gmap string Z;          (* files on disk: path -> size in bytes *)
  w_last_update : option Z;      (* status_msg.last_update_time *)
  w_trace : list event           (* chronological *)
}.

Definition set_db (d : Db) (w : World) : World :=
  mkWorld d (w_file w) (w_lock w) (w_reads w) (w_tg w) (w_fs w) (w_last_update w) (w_trace w).
Definition set_file (f : DbFile) (w : World) : World :=
  mkWorld (w_db w) f (w_lock w) (w_reads w) (w_tg w) (w_fs w) (w_last_update w) (w_trace w).
Definition set_lock (b : bool) (w : World) : World :=
  mkWorld (w_db w) (w_file w) b (w_reads w) (w_tg w) (w_fs w) (w_last_update w) (w_trace w).
Definition set_reads (n : nat) (w : World) : World :=
  mkWorld (w_db w) (w_file w) (w_lock w) n (w_tg w) (w_fs w) (w_last_update w) (w_trace w).
Definition set_tg (q : list (option exn)) (w : World) : World :=
  mkWorld (w_db w) (w_file w) (w_lock w) (w_reads w) q (w_fs w) (w_last_update w) (w_trace w).
Definition set_fs (fs : gmap string Z) (w : World) : World :=
  mkWorld (w_db w) (w_file w) (w_lock w) (w_reads w) (w_tg w) fs (w_last_update w) (w_trace w).
Definition set_last_update (t : option Z) (w : World) : World :=
  mkWorld (w_db w) (w_file w) (w_lock w) (w_reads w) (w_tg w) (w_fs w) t (w_trace w).
Definition add_event (ev : event) (w : World) : World :=
  mkWorld (w_db w) (w_file w) (w_lock w) (w_reads w) (w_tg w) (w_fs w) (w_last_update w)
          (w_trace w ++ [ev]).

(** ** The monad of coroutines

    [Hang] is a task that never resumes (it waits for a lock that is not
    released); no [except] clause sees it and no [finally] runs. *)

Inductive res (A : Type) : Type :=
| Ret (a : A)
| Exn (e : exn)
| Hang.
Arguments Ret {A} a.
Arguments Exn {A} e.
Arguments Hang {A}.

Definition M (A : Type) : Type := Env -> World -> res A * World.

Definition ret {A} (a : A) : M A := fun _ w => (Ret a, w).
Definition bind {A B} (m : M A) (k : A -> M B) : M B :=
  fun e w =>
    match m e w with
    | (Ret a, w') => k a e w'
    | (Exn x, w') => (Exn x, w')
    | (Hang, w') => (Hang, w')
    end.
Definition raise {A} (x : exn) : M A := fun _ w => (Exn x, w).
Definition hang {A} : M A := fun _ w => (Hang, w).

#[global] Instance M_ret : MRet M := @ret.
#[global] Instance M_bind : MBind M := fun A B k m => bind m k.

(** [try: body except <clauses>]: [handler x] is [Some h] when a clause
    matches [x] (then [h] runs, and what it raises propagates), [None]
    when none does. *)
Definition try_except {A} (body : M A) (handler : exn -> option (M A)) : M A :=
  fun e w =>
    match body e w with
    | (Exn x, w') =>
        match handler x with
        | Some h => h e w'
        | None => (Exn x, w')
        end
    | r => r
    end.

(** [try: body finally: cleanup]. *)
Definition try_finally {A} (body : M A) (cleanup : M unit) : M A :=
  fun e w =>
    match body e w with
    | (Hang, w') => (Hang, w')
    | (r, w') =>
        match cleanup e w' with
        | (Ret _, w'') => (r, w'')
        | (Exn x, w'') => (Exn x, w'')
        | (Hang, w'') => (Hang, w'')
        end
    end.

Definition ask : M Env := fun e w => (Ret e, w).
Definition get : M World := fun _ w => (Ret w, w).
Definition modify (f : World -> World) : M unit := fun _ w => (Ret tt, f w).
Definition emit (ev : event) : M unit := modify (add_event ev).
Definition log (l : logline) : M unit := emit (Logged l).

(** [datetime.now(timezone.utc)] / [time.time()]: the next clock reading. *)
Definition now : M Z :=
  fun e w => (Ret (clock e (w_reads w)), set_reads (S (w_reads w)) w).

(** A call to the messaging transport: it returns, or raises what the
    transport signals. *)
Definition tg_call (c : call) : M unit :=
  fun _ w =>
    match w_tg w with
    | Some x :: q => (Exn x, add_event (Tg c false) (set_tg q w))
    | None :: q => (Ret tt, add_event (Tg c true) (set_tg q w))
    | [] => (Ret tt, add_event (Tg c true) w)
    end.

(** Evaluating a global name of a module: [NameError] unless the module
    binds it. *)
Definition global_name (module_names : list string) (name : string) : M unit :=
  if bool_decide (name ∈ module_names) then ret tt else raise (NameError name).

(** [asyncio.sleep] in a module whose names are [module_names]. *)
Definition asyncio_sleep (module_names : list string) (secs : Z) : M unit :=
  global_name module_names "asyncio";; emit (Slept secs).

(** Running a coroutine to completion. *)
Definition run {A} (m : M A) (e : Env) (w : World) : res A * World := m e w.

(** ** Strings ([str] methods used by the sources; bytes for characters) *)

Module Str.

Definition is_digit (a : ascii) : bool :=
  let n := nat_of_ascii a in (48 <=? n)%nat && (n <=? 57)%nat.
Definition is_upper (a : ascii) : bool :=
  let n := nat_of_ascii a in (65 <=? n)%nat && (n <=? 90)%nat.
Definition is_lower (a : ascii) : bool :=
  let n := nat_of_ascii a in (97 <=? n)%nat && (n <=? 122)%nat.
(** [\s] and [str.strip()]: tab, LF, VT, FF, CR, FS..US and space. *)
Definition is_space (a : ascii) : bool :=
  let n := nat_of_ascii a in
  ((9 <=? n)%nat && (n <=? 13)%nat) || ((28 <=? n)%nat && (n <=? 32)%nat).
Definition to_lower (a : ascii) : ascii :=
  if is_upper a then ascii_of_nat (nat_of_ascii a + 32) else a.
Definition to_upper (a : ascii) : ascii :=
  if is_lower a then ascii_of_nat (nat_of_ascii a - 32) else a.

Fixpoint map_chars (f : ascii -> ascii) (s : string) : string :=
  match s with
  | EmptyString => EmptyString
  | String a s' => String (f a) (map_chars f s')
  end.
(** [str.lower()] and [str.upper()] on the ASCII letters; the bytes of
    other characters are left as they are. *)
Definition lower : string -> string := map_chars to_lower.
Definition upper : string -> string := map_chars to_upper.

(** [needle in hay] *)
Fixpoint contains (needle hay : string) : bool :=
  if String.prefix needle hay then true
  else match hay with
       | EmptyString => false
       | String _ hay' => contains needle hay'
       end.

(** [s.replace(old, new)] for a non-empty [old]; [skip] characters of a
    replaced occurrence are still to be dropped. *)
Fixpoint replace_from (skip : nat) (old new s : string) : string :=
  match s with
  | EmptyString => EmptyString
  | String a s' =>
      match skip with
      | S k => replace_from k old new s'
      | O =>
          if String.prefix old s
          then new +:+ replace_from (String.length old - 1) old new s'
          else String a (replace_from O old new s')
      end
  end.
Definition replace (old new s : string) : string := replace_from O old new s.

Fixpoint lstrip (s : string) : string :=
  match s with
  | String a s' => if is_space a then lstrip s' else s
  | EmptyString => EmptyString
  end.
Fixpoint rstrip (s : string) : string :=
  match s with
  | EmptyString => EmptyString
  | String a s' =>
      match rstrip s' with
      | EmptyString => if is_space a then EmptyString else String a EmptyString
      | r => String a r
      end
  end.
Definition strip (s : string) : string := rstrip (lstrip s).

(** [s.split(sep)[-1]] for a one-character [sep]. *)
Fixpoint last_field (sep : ascii) (acc s : string) : string :=
  match s with
  | EmptyString => acc
  | String a s' =>
      if Ascii.eqb a sep then last_field sep EmptyString s'
      else last_field sep (acc +:+ String a EmptyString) s'
  end.

(** The part of [s] before the first character satisfying [p], and the
    rest from that character on. *)
Fixpoint break (p : ascii -> bool) (s : string) : string * string :=
  match s with
  | EmptyString => (EmptyString, EmptyString)
  | String a s' =>
      if p a then (EmptyString, s)
      else let '(l, r) := break p s' in (String a l, r)
  end.

Definition truthy (s : string) : bool := negb (String.eqb s "").

(** Truth value of an optional [str] ([None] and the empty string are false). *)
Definition opt_truthy (o : option string) : bool :=
  match o with
  | Some s => truthy s
  | None => false
  end.

End Str.

(** ** Regular expressions ([re.search] with backtracking, leftmost match,
    greedy and lazy repetition, capturing groups) *)

Module Re.

Inductive re : Type :=
| Eps
| Cls (p : ascii -> bool)            (* one character satisfying p *)
| Cat (r1 r2 : re)
| Alt (r1 r2 : re)                   (* r1|r2, r1 tried first *)
| Rep (greedy : bool) (r : re)       (* r* and r*? *)
| Grp (n : nat) (r : re).            (* capturing group number n *)

Definition caps : Type := list (nat * list ascii).
Definition answer : Type := (list ascii * caps)%type.

(** [m r s c k]: match [r] at the front of [s] and pass what is left, and
    the groups captured, to the continuation [k]; when [k] fails the next
    alternative is tried. An iteration of a repetition must consume a
    character, so [S (length s)] iterations are enough. *)
Fixpoint m (r : re) (s : list ascii) (c : caps)
    (k : list ascii -> caps -> option answer) {struct r} : option answer :=
  match r with
  | Eps => k s c
  | Cls p =>
      match s with
      | a :: s' => if p a then k s' c else None
      | [] => None
      end
  | Cat r1 r2 => m r1 s c (fun s' c' => m r2 s' c' k)
  | Alt r1 r2 =>
      match m r1 s c k with
      | Some x => Some x
      | None => m r2 s c k
      end
  | Grp n r1 =>
      m r1 s c (fun s' c' =>
        k s' ((n, firstn (length s - length s') s) :: c'))
  | Rep greedy r1 =>
      (fix loop (fuel : nat) (s : list ascii) (c : caps) : option answer :=
         match fuel with
         | O => k s c
         | S fuel' =>
             let more :=
               m r1 s c (fun s' c' =>
                 if (length s' <? length s)%nat then loop fuel' s' c' else None) in
             if greedy
             then match more with Some x => Some x | None => k s c end
             else match k s c with Some x => Some x | None => more end
         end) (S (length s)) s c
  end.

Record match_obj : Type := mkMatch {
  whole : string;                 (* group(0) *)
  groups : list (nat * string)
}.

Definition to_match (s : list ascii) (a : answer) : match_obj :=
  let '(rest, c) := a in
  mkMatch (string_of_list_ascii (firstn (length s - length rest) s))
          (map (fun '(n, x) => (n, string_of_list_ascii x)) c).

Fixpoint search_from (r : re) (s : list ascii) : option match_obj :=
  match m r s [] (fun s' c => Some (s', c)) with
  | Some a => Some (to_match s a)
  | None =>
      match s with
      | [] => None
      | _ :: s' => search_from r s'
      end
  end.

(** [re.search(r, s)] *)
Definition search (r : re) (s : string) : option match_obj :=
  search_from r (list_ascii_of_string s).

(** [mo.group(n)] for a group that took part in the match. *)
Fixpoint group_in (n : nat) (g : list (nat * string)) : option string :=
  match g with
  | [] => None
  | (n', x) :: g' => if (n =? n')%nat then Some x else group_in n g'
  end.
Definition group (n : nat) (mo : match_obj) : string :=
  match group_in n (groups mo) with Some x => x | None => "" end.

(** Building blocks *)
Fixpoint seq (rs : list re) : re :=
  match rs with
  | [] => Eps
  | [r] => r
  | r :: rs' => Cat r (seq rs')
  end.
Definition chr (a : ascii) : re := Cls (Ascii.eqb a).
Definition chri (a : ascii) : re :=
  Cls (fun b => Ascii.eqb (Str.to_lower a) (Str.to_lower b)).
Definition lit (s : string) : re := seq (map chr (list_ascii_of_string s)).
Definition liti (s : string) : re := seq (map chri (list_ascii_of_string s)).
Definition star (r : re) : re := Rep true r.
Definition lazy (r : re) : re := Rep false r.
Definition plus (r : re) : re := Cat r (Rep true r).
Definition opt (r : re) : re := Alt r Eps.
Definition any : re := Cls (fun _ => true).                    (* . with DOTALL *)
Definition digit : re := Cls Str.is_digit.                     (* \d *)
Definition space : re := Cls Str.is_space.                     (* \s *)
(** The double quote (byte 34) and the apostrophe. *)
Definition dquote : ascii := ascii_of_nat 34.
Definition squote : ascii := ascii_of_nat 39.
Definition is_quote (a : ascii) : bool := Ascii.eqb a dquote || Ascii.eqb a squote.
Definition quote : re := Cls is_quote.                         (* either quote *)
Definition not_quote : re := Cls (fun a => negb (is_quote a)). (* anything else *)

End Re.

(** ** bot/database.py *)

Module Database.

(** [str(user_id)], the key under which a caller's entries are stored. *)
Definition str (user_id : Z) : string := pretty user_id.

Record TokenData : Type := mkTokenData {
  td_token : string;   (* token_data['token'] *)
  td_expires : Z       (* token_data['expires'], a datetime *)
}.

(** Whether [json.dump(_database, f, indent=4)] runs to the end: it
    raises [TypeError] at the first value that is not JSON serializable. *)
Definition dumpable (d : Db) : bool :=
  forallb (fun kv => json_serializable (te_expires kv.2)) (map_to_list (tokens d))
  && forallb (fun kv => json_serializable kv.2) (map_to_list (spam_tracker d)).

(** [async with _db_lock:] entry. [asyncio.Lock] is not re-entrant: a task
    that finds it held waits until it is released. *)
Definition acquire_db_lock : M unit :=
  w ← get;
  if w_lock w then hang
  else modify (set_lock true);; emit LockAcquired.

Definition release_db_lock : M unit :=
  modify (set_lock false);; emit LockReleased.

(** The [try] block of [save_db]: [open(DB_FILE, 'w')] truncates the file,
    [json.dump] writes it piece by piece; [except Exception] logs. *)
Definition write_db_file : M unit :=
  w ← get;
  if dumpable (w_db w)
  then modify (set_file (FileDoc (w_db w)));; emit (FileDump true)
  else modify (set_file FileCorrupt);; emit (FileDump false);; log LogSaveFailed.

Definition save_db : M unit :=
  acquire_db_lock;;
  write_db_file;;
  release_db_lock.

Definition add_user (user_id : Z) : M bool :=
  w ← get;
  emit (DbRead "users" "");;
  if bool_decide (user_id ∈ users (w_db w)) then mret false
  else
    modify (fun w => set_db (mkDb (users (w_db w) ++ [user_id])
                                  (tokens (w_db w)) (spam_tracker (w_db w))) w);;
    emit (DbWrite "users" "");;
    save_db;;
    log (LogUserAdded user_id);;
    mret true.

Definition get_all_users : M (list Z) :=
  w ← get;
  emit (DbRead "users" "");;
  mret (users (w_db w)).

Definition store_token (user_id : Z) (token : string) (expires_at : Z) : M unit :=
  modify (fun w => set_db (mkDb (users (w_db w))
                                (<[str user_id := mkTokenEntry token (PyIsoStr expires_at)]>
                                   (tokens (w_db w)))
                                (spam_tracker (w_db w))) w);;
  emit (DbWrite "tokens" (str user_id));;
  save_db;;
  log (LogTokenStored user_id).

(** [token_data] is the dict held in [_database['tokens']], not a copy:
    the assignment [token_data['expires'] = ...] writes the parsed
    [datetime] into the stored entry. *)
Definition get_user_token_data (user_id : Z) : M (option TokenData) :=
  w ← get;
  emit (DbRead "tokens" (str user_id));;
  match tokens (w_db w) !! str user_id with
  | Some token_data =>
      match fromisoformat (te_expires token_data) with
      | inr t =>
          modify (fun w => set_db (mkDb (users (w_db w))
                                        (<[str user_id := mkTokenEntry (te_token token_data)
                                                                        (PyDatetime t)]>
                                           (tokens (w_db w)))
                                        (spam_tracker (w_db w))) w);;
          emit (DbWrite "tokens" (str user_id));;
          mret (Some (mkTokenData (te_token token_data) t))
      | inl _ =>                          (* except (ValueError, TypeError) *)
          log (LogBadExpiry user_id);;
          mret None
      end
  | None => mret None
  end.

(** The part of [update_spam_time] before [await save_db()]. *)
Definition touch_spam_time (user_id : Z) : M unit :=
  now_utc ← now;
  modify (fun w => set_db (mkDb (users (w_db w)) (tokens (w_db w))
                                (<[str user_id := PyIsoStr now_utc]> (spam_tracker (w_db w)))) w);;
  emit (DbWrite "spam_tracker" (str user_id)).

Definition update_spam_time (user_id : Z) : M unit :=
  touch_spam_time user_id;;
  save_db.

Definition get_last_spam_time (user_id : Z) : M (option Z) :=
  w ← get;
  emit (DbRead "spam_tracker" (str user_id));;
  match spam_tracker (w_db w) !! str user_id with
  | Some timestamp_str =>
      if truthy timestamp_str then
        match fromisoformat timestamp_str with
        | inr t => mret (Some t)
        | inl _ =>                        (* except (ValueError, TypeError) *)
            log (LogBadSpamTimestamp user_id);;
            mret None
        end
      else mret None
  | None => mret None
  end.

End Database.

(** ** bot/utils/helpers.py *)

Module Helpers.

(** [progress_callback]. Lines 8-23 compute the figures and build the
    text before the throttle test and outside the [try]: [current * 100 /
    total] raises [ZeroDivisionError] for a zero [total]; for any other
    [total] the division, the float arithmetic of speed and ETA and the
    [humanize] calls raise what the environment says ([OverflowError]
    from [humanize.naturaldelta] for an ETA beyond the range of
    [timedelta], for instance). [start_time], bound by the [partial] of
    the caller to an earlier reading of the same clock, enters nothing
    but these figures, so it is part of that answer. Then at most one
    edit of the status message every three seconds; what the edit raises
    is ignored. *)
Definition progress_callback (current total : Z) (status : string) : M unit :=
  e ← ask;
  t ← now;
  (if total =? 0 then raise ZeroDivisionError else mret tt);;
  match progress_text_raises e t current total with
  | Some x => raise x
  | None => mret tt
  end;;
  w ← get;
  let too_soon :=
    match w_last_update w with
    | Some last => t - last <? 3000000
    | None => false
    end in
  if too_soon then mret tt
  else
    try_except
      (tg_call (EditText (TxtProgress status current total));;
       modify (set_last_update (Some t)))
      (fun _ => Some (mret tt)).

Definition is_adult (e : Env) (text : string) : bool :=
  if negb (Str.truthy text) then false
  else existsb (fun keyword => Str.contains keyword (Str.lower text))
               (ADULT_KEYWORDS_LOWER (cfg e)).

End Helpers.

(** ** bot/decorators.py *)

Module Decorators.

(** The names the module binds: its imports (lines 1-13) and its own
    definitions. Neither [asyncio] nor [humanize] is among them. *)
Definition module_names : list string :=
  [ "time"; "logging"; "wraps"; "datetime"; "timedelta"; "timezone";
    "Client"; "Message"; "CallbackQuery"; "InlineKeyboardButton";
    "InlineKeyboardMarkup"; "UserNotParticipant"; "FloodWait";
    "config"; "database"; "format_time_diff"; "LOGGER";
    "admin_required"; "fsub_required"; "token_required"; "spam_check" ].

(** What a wrapper decides: it awaits the wrapped function ([Allowed], the
    admission of the caller) or returns without calling it ([Denied]). *)
Inductive reason : Type :=
| NotAuthorized
| MembershipRequired
| SubscriptionCheckFailed
| TokenRequired
| TokenExpired
| RateLimited.

Inductive verdict : Type :=
| Allowed
| Denied (r : reason).

(** A wrapper is its gate followed by [return await func(...)] on
    admission and by [return] otherwise. *)
Definition guarded (gate : M verdict) (func : M unit) : M unit :=
  v ← gate;
  match v with
  | Allowed => func
  | Denied _ => mret tt
  end.

Definition is_admin (e : Env) (user_id : Z) : bool :=
  bool_decide (user_id ∈ ADMIN_IDS (cfg e)).

(** *** admin_required *)
Definition admin_gate (user_id : Z) : M verdict :=
  e ← ask;
  if negb (is_admin e user_id) then
    tg_call (ReplyText TxtAccessDenied);;
    mret (Denied NotAuthorized)
  else mret Allowed.

Definition admin_required (user_id : Z) (func : M unit) : M unit :=
  guarded (admin_gate user_id) func.

(** *** fsub_required *)
Inductive update : Type :=
| IsMessage
| IsCallbackQuery.

(** The [try] block inside [except UserNotParticipant:] (lines 45-77). *)
Definition join_prompt (upd : update) (fsub_channel_id : Z) : M verdict :=
  e ← ask;
  tg_call (GetChat fsub_channel_id);;
  let chat := chat e in
  invite_link ←
    (if negb (Str.opt_truthy (invite_link chat)) then
       try_except
         (tg_call (ExportChatInviteLink fsub_channel_id);;
          mret (Some (exported_link e)))
         (fun _ => Some (mret (if Str.opt_truthy (username chat)
                               then option_map (fun u => "https://t.me/" +:+ u) (username chat)
                               else None)))
     else mret (invite_link chat));
  let msg_text := TxtJoinChannel (title chat) (Str.opt_truthy invite_link) in
  match upd with
  | IsMessage => tg_call (ReplyText msg_text)
  | IsCallbackQuery =>
      tg_call (AnswerCallback TxtMustJoinAlert);;
      try_except (tg_call (SendMessage msg_text))
                 (fun _ => Some (log LogFsubSendFailed))
  end;;
  mret (Denied MembershipRequired).

(** [except UserNotParticipant:] with its two inner [except] clauses
    (lines 44-91). *)
Definition not_participant (upd : update) (user_id fsub_channel_id : Z) : M verdict :=
  try_except (join_prompt upd fsub_channel_id)
    (fun x =>
       match x with
       | FloodWait value =>
           Some (log (LogFsubFloodWait value);;
                 asyncio_sleep module_names (value + 1);;
                 mret (Denied MembershipRequired))
       | _ =>
           Some (log (LogFsubError x);;
                 match upd with
                 | IsMessage => tg_call (ReplyText TxtSubscriptionError)
                 | IsCallbackQuery => tg_call (AnswerCallback TxtSubscriptionError)
                 end;;
                 mret (Denied SubscriptionCheckFailed))
       end).

Definition fsub_gate (upd : update) (user_id : Z) : M verdict :=
  e ← ask;
  let fsub_channel_id := FSUB_ID (cfg e) in
  if is_admin e user_id then mret Allowed
  else if fsub_channel_id =? 0 then
    log LogFsubSkipped;;
    mret Allowed
  else
    try_except
      (tg_call (GetChatMember fsub_channel_id user_id);;
       if bool_decide (member_status e ∈ ["member"; "administrator"; "creator"])
       then mret Allowed
       else raise UserNotParticipant)
      (fun x =>
         if is_UserNotParticipant x
         then Some (not_participant upd user_id fsub_channel_id)
         else None).

Definition fsub_required (upd : update) (user_id : Z) (func : M unit) : M unit :=
  guarded (fsub_gate upd user_id) func.

(** *** token_required *)
Definition token_gate (user_id : Z) : M verdict :=
  e ← ask;
  if is_admin e user_id then mret Allowed
  else
    token_data ← Database.get_user_token_data user_id;
    now_utc ← now;
    match token_data with
    | None =>
        tg_call (ReplyText TxtTokenRequired);;
        mret (Denied TokenRequired)
    | Some token_data =>
        let expires_at := Database.td_expires token_data in
        if now_utc >? expires_at then
          (* the f-string evaluates humanize.naturaltime(now_utc - expires_at) *)
          global_name module_names "humanize";;
          tg_call (ReplyText (TxtTokenExpired (now_utc - expires_at)));;
          mret (Denied TokenExpired)
        else mret Allowed
    end.

Definition token_required (user_id : Z) (func : M unit) : M unit :=
  guarded (token_gate user_id) func.

(** *** spam_check *)

(** [timedelta(seconds=config.SPAM_DELAY_SECONDS)] in microseconds. *)
Definition delay (e : Env) : Z := SPAM_DELAY_SECONDS (cfg e) * 1000000.

(** Lines 145-159: [Some wait_seconds] when the caller has to wait.
    [int(wait_time.total_seconds())] truncates the float quotient of the
    microseconds by 10**6; that is the exact quotient as long as the wait
    is below 2**33 seconds, and the exact quotient is what stands here. *)
Definition too_early (e : Env) (last_action_time : option Z) (now_utc : Z) : option Z :=
  match last_action_time with
  | Some t =>
      let time_since_last := now_utc - t in
      if time_since_last <? delay e
      then Some (Z.quot (delay e - time_since_last) 1000000)
      else None
  | None => None
  end.

Definition spam_gate (user_id : Z) : M verdict :=
  e ← ask;
  if is_admin e user_id then mret Allowed
  else
    last_action_time ← Database.get_last_spam_time user_id;
    now_utc ← now;
    match too_early e last_action_time now_utc with
    | Some wait_seconds =>
        tg_call (ReplyText (TxtSpamProtection wait_seconds));;
        mret (Denied RateLimited)
    | None =>
        Database.update_spam_time user_id;;
        mret Allowed
    end.

Definition spam_check (user_id : Z) (func : M unit) : M unit :=
  guarded (spam_gate user_id) func.

End Decorators.

(** ** Python operations on parsed JSON *)

Module Json.

Definition truthy (j : json) : bool :=
  match j with
  | JNull => false
  | JBool b => b
  | JNum z => negb (z =? 0)
  | JStr s => Str.truthy s
  | JList l => match l with [] => false | _ => true end
  | JDict d => match d with [] => false | _ => true end
  end.

(** [json.loads] keeps the last binding of a repeated key. *)
Fixpoint lookup (k : string) (d : list (string * json)) : option json :=
  match d with
  | [] => None
  | (k', v) :: d' =>
      match lookup k d' with
      | Some v' => Some v'
      | None => if String.eqb k k' then Some v else None
      end
  end.

(** [j.get(k, default)]: only a dict has [get]. *)
Definition get (j : json) (k : string) (default : json) : exn + json :=
  match j with
  | JDict d => inr (match lookup k d with Some v => v | None => default end)
  | _ => inl AttributeError
  end.

(** [k in j] for a dict [j]. *)
Definition has_key (k : string) (j : json) : bool :=
  match j with
  | JDict d => match lookup k d with Some _ => true | None => false end
  | _ => false
  end.

(** [j[0]] *)
Definition first (j : json) : exn + json :=
  match j with
  | JList (x :: _) => inr x
  | JList [] => inl IndexError
  | JStr (String a _) => inr (JStr (String a EmptyString))
  | JStr EmptyString => inl IndexError
  | JDict _ => inl KeyError
  | _ => inl TypeError
  end.

(** [j == 0] *)
Definition is_zero (j : json) : bool :=
  match j with
  | JNum z => z =? 0
  | JBool b => negb b
  | _ => false
  end.

(** The digits of a decimal literal: at least one digit, and single
    underscores between digits. [after_digit] tells whether the character
    before was a digit. *)
Fixpoint digits_value (after_digit : bool) (acc : Z) (s : string) : option Z :=
  match s with
  | EmptyString => if after_digit then Some acc else None
  | String a s' =>
      if Str.is_digit a
      then digits_value true (10 * acc + (Z.of_nat (nat_of_ascii a) - 48)) s'
      else if Ascii.eqb a "_"%char && after_digit
      then digits_value false acc s'
      else None
  end.

(** [int(s)] for a [str]: surrounding white space, an optional sign, and
    decimal digits that single underscores may group. The strings are
    byte strings: decimal digits outside ASCII, which [int] accepts as
    well, are not recognised, so a statement that relies on a rejection
    names an ASCII character that no literal contains
    ([not_in_literal]). The message of the [ValueError] is without the
    quoted literal that follows it in Python. *)
Definition int_of_str (s : string) : exn + Z :=
  let bad := inl (ValueError "invalid literal for int() with base 10") in
  let unsigned (d : string) : exn + Z :=
    match digits_value false 0 d with Some z => inr z | None => bad end in
  match Str.strip s with
  | String c d =>
      if Ascii.eqb c "-"%char
      then match unsigned d with inr z => inr (- z) | inl x => inl x end
      else if Ascii.eqb c "+"%char then unsigned d
      else unsigned (String c d)
  | EmptyString => bad
  end.

(** An ASCII character that occurs in no decimal literal, with or without
    white space around it: [int] raises [ValueError] for every string
    that contains one. *)
Definition not_in_literal (a : ascii) : bool :=
  (nat_of_ascii a <? 128)%nat
  && negb (Str.is_digit a || Str.is_space a || Ascii.eqb a "_"%char
           || Ascii.eqb a "+"%char || Ascii.eqb a "-"%char).

(** [int(j)] *)
Definition to_int (j : json) : exn + Z :=
  match j with
  | JNum z => inr z
  | JBool b => inr (if b then 1 else 0)
  | JStr s => int_of_str s
  | _ => inl TypeError
  end.

End Json.

(** A Python expression that evaluates or raises. *)
Definition lift {A} (r : exn + A) : M A :=
  match r with
  | inr a => mret a
  | inl x => raise x
  end.

(** [urllib.parse.urlsplit]: scheme, netloc and path (leading control
    characters are not stripped here). *)
Module Url.

Definition is_scheme_char (a : ascii) : bool :=
  Str.is_lower a || Str.is_upper a || Str.is_digit a
  || Ascii.eqb a "+"%char || Ascii.eqb a "-"%char || Ascii.eqb a "."%char.

Fixpoint all_chars (p : ascii -> bool) (s : string) : bool :=
  match s with
  | EmptyString => true
  | String a s' => p a && all_chars p s'
  end.

Definition is_colon (a : ascii) : bool := Ascii.eqb a ":"%char.
Definition ends_netloc (a : ascii) : bool :=
  Ascii.eqb a "/"%char || Ascii.eqb a "?"%char || Ascii.eqb a "#"%char.
Definition ends_path (a : ascii) : bool :=
  Ascii.eqb a "?"%char || Ascii.eqb a "#"%char.

Record parts : Type := mkParts { scheme : string; netloc : string; path : string }.

(** [uses_params] of urllib.parse. *)
Definition uses_params : list string :=
  [ ""; "ftp"; "hdl"; "prospero"; "http"; "imap"; "https"; "shttp"; "rtsp";
    "rtspu"; "sip"; "sips"; "mms"; "sftp"; "tel" ].

(** [_splitparams(path)[0]]: the path up to the first semicolon of its
    last segment. *)
Fixpoint drop_params (s : string) : string :=
  match s with
  | EmptyString => EmptyString
  | String a s' =>
      if Ascii.eqb a ";"%char && negb (Str.contains "/" s') then EmptyString
      else String a (drop_params s')
  end.

(** [urlparse(url)]: [urlsplit] (scheme, netloc, path; an unbalanced
    bracket in the netloc is an invalid IPv6 URL) and then the parameters
    taken off the path. The checks inside a balanced pair of brackets
    that later versions of urllib add are not modelled. *)
Definition urlparse (url : string) : exn + parts :=
  let '(before, from_colon) := Str.break is_colon url in
  let '(scheme, rest) :=
    match before, from_colon with
    | String a _, String _ after =>
        if (Str.is_lower a || Str.is_upper a) && all_chars is_scheme_char before
        then (Str.lower before, after)
        else (EmptyString, url)
    | _, _ => (EmptyString, url)
    end in
  let '(netloc, rest) :=
    if String.prefix "//" rest
    then Str.break ends_netloc (String.substring 2 (String.length rest - 2) rest)
    else (EmptyString, rest) in
  if xorb (Str.contains "[" netloc) (Str.contains "]" netloc)
  then inl (ValueError "Invalid IPv6 URL")
  else
    let path := fst (Str.break ends_path rest) in
    inr (mkParts scheme netloc
           (if existsb (String.eqb scheme) uses_params then drop_params path else path)).

End Url.

(** ** bot/utils/terabox.py *)

Module Terabox.
Import Re.

(** The names the module binds: its imports (lines 1-8) and its own
    definitions. [math] is not among them. *)
Definition module_names : list string :=
  [ "re"; "httpx"; "logging"; "asyncio"; "urlparse"; "parse_qs"; "Tuple";
    "Optional"; "config"; "LOGGER"; "TERABOX_LINK_REGEX"; "HEADERS";
    "get_terabox_download_link"; "_extract_filename"; "_extract_filesize_str";
    "_format_bytes"; "extract_terabox_link" ].

(** *** The patterns *)

Definition alnum_dash : re :=
  Cls (fun a => Str.is_lower a || Str.is_upper a || Str.is_digit a
                || Ascii.eqb a "_"%char || Ascii.eqb a "-"%char).

Definition TERABOX_LINK_REGEX : re :=
  seq [ lit "http"; opt (lit "s"); lit "://";
        Alt (Cat (opt (lit "1024")) (lit "terabox"))
            (Alt (lit "teraboxlink") (lit "terafileshare"));
        lit ".";
        Alt (lit "com") (lit "app");
        lit "/";
        opt (Grp 1 (lit "s/"));
        Grp 2 (plus alnum_dash) ].

(** A quoted key, a colon, white space around it. *)
Definition key (names : re) : re :=
  seq [ quote; names; quote; star space; lit ":"; star space ].

Definition DLINK_RE : re :=       (* re.IGNORECASE *)
  seq [ key (Alt (liti "dlink") (Alt (liti "download") (liti "download_url")));
        quote;
        Grp 1 (seq [ liti "http"; opt (liti "s"); lit "://"; plus not_quote ]);
        quote ].

Definition INITIAL_STATE_RE : re :=      (* re.DOTALL *)
  seq [ lit "<script>"; lazy any; lit "window.__INITIAL_STATE__";
        star space; lit "="; star space;
        Grp 1 (seq [ lit "{"; lazy any; lit "}" ]);
        opt (lit ";"); lazy any; lit "</script>" ].

Definition FS_ID_RE : re := seq [ key (lit "fs_id"); Grp 1 (plus digit) ].
Definition SHAREID_RE : re := seq [ key (lit "shareid"); Grp 1 (plus digit) ].
Definition UK_RE : re := seq [ key (lit "uk"); Grp 1 (plus digit) ].

Definition SERVER_FILENAME_RE : re :=
  seq [ key (lit "server_filename"); quote; Grp 1 (plus not_quote); quote ].

Definition TITLE_RE : re :=       (* re.IGNORECASE | re.DOTALL *)
  seq [ liti "<title>"; Grp 1 (lazy any); liti "</title>" ].

Definition SIZE_RE : re :=
  seq [ key (lit "size"); opt (chr dquote); Grp 1 (plus digit); opt (chr dquote) ].

Definition HUMAN_SIZE_RE : re :=  (* re.IGNORECASE *)
  Grp 1 (seq [ plus digit; opt (Grp 2 (Cat (lit ".") (plus digit))); star space;
               Alt (liti "GB") (Alt (liti "MB") (liti "KB")) ]).

(** *** _format_bytes *)

Definition size_name : list string :=
  [ "B"; "KB"; "MB"; "GB"; "TB"; "PB"; "EB"; "ZB"; "YB" ].

(** [round(size_bytes / 1024**i, 2)] printed the way [str(float)] does, to
    the precision of integer arithmetic. *)
Definition rounded (size_bytes : Z) (i : Z) : string :=
  let h := (200 * size_bytes + 1024 ^ i) / (2 * 1024 ^ i) in
  pretty (h / 100) +:+ "." +:+
  (if h mod 10 =? 0 then pretty (h mod 100 / 10)
   else pretty (h mod 100 / 10) +:+ pretty (h mod 10)).

Definition _format_bytes (size_bytes : Z) : M string :=
  if size_bytes =? 0 then mret "0 B"
  else
    (* i = int(math.floor(math.log(size_bytes, 1024))) *)
    global_name module_names "math";;
    (if size_bytes <? 0 then raise (ValueError "math domain error") else mret tt);;
    let i := Z.log2 size_bytes / 10 in
    match size_name !! Z.to_nat i with
    | Some unit_name => mret (rounded size_bytes i +:+ " " +:+ unit_name)
    | None => raise IndexError
    end.

(** *** _extract_filename *)

Definition name_from_url (fallback_url : string) : option string :=
  match Url.urlparse fallback_url with
  | inr parsed_url =>
      let name_part := Str.last_field "/"%char "" (Url.path parsed_url) in
      if Str.truthy name_part && (4 <? Z.of_nat (String.length name_part))
      then Some (name_part +:+ ".mp4")
      else None
  | inl _ => None                        (* except Exception: pass *)
  end.

Definition name_from_title (content : string) : option string :=
  match search TITLE_RE content with
  | Some title_match =>
      let title := Str.strip (group 1 title_match) in
      let title := Str.strip (Str.replace "Terabox:" "" (Str.replace "- Terabox" "" title)) in
      if Str.contains "." title && (Z.of_nat (String.length title) <? 150)
      then Some title
      else None
  | None => None
  end.

Definition _extract_filename (content fallback_url : string) : M string :=
  match search SERVER_FILENAME_RE content with
  | Some filename_match => mret (group 1 filename_match)
  | None =>
      match name_from_title content with
      | Some title => mret title
      | None =>
          match name_from_url fallback_url with
          | Some name => mret name
          | None => mret "terabox_video.mp4"
          end
      end
  end.

(** *** _extract_filesize_str *)

Definition human_size (content : string) : string :=
  match search HUMAN_SIZE_RE content with
  | Some size_str_match => Str.upper (group 1 size_str_match)
  | None => "Unknown"
  end.

Definition _extract_filesize_str (content : string) : M string :=
  match search SIZE_RE content with
  | Some size_match =>
      try_except
        (size_bytes ← lift (Json.int_of_str (group 1 size_match));
         _format_bytes size_bytes)
        (fun x => if is_ValueError x then Some (mret (human_size content)) else None)
  | None => mret (human_size content)
  end.

(** *** extract_terabox_link *)
Definition extract_terabox_link (text : string) : option string :=
  match search TERABOX_LINK_REGEX text with
  | Some mo => Some (whole mo)
  | None => None
  end.

(** *** get_terabox_download_link *)

Definition resolved : Type := (json * json * json)%type.
Definition nothing : resolved := (JNull, JNull, JNull).   (* None, None, None *)

(** [client.get(url, ...)] followed by [raise_for_status()]. *)
Definition http_get (url : string) : M string :=
  e ← ask;
  emit (HttpGet url);;
  match http e url with
  | HttpFails x => raise x
  | HttpResponse status_code body =>
      if (200 <=? status_code) && (status_code <=? 299) then mret body
      else raise (HTTPStatusError status_code)
  end.

(** Strategy 1 (lines 70-85); [None]: the search continues. *)
Definition pattern_strategy (content url : string) : M (option resolved) :=
  match search DLINK_RE content with
  | Some direct_link_match =>
      let direct_link := Str.replace "\/" "/" (group 1 direct_link_match) in
      filename ← _extract_filename content url;
      file_size_str ← _extract_filesize_str content;
      if Str.truthy filename && Str.truthy file_size_str then
        valid ← (if Str.contains "http" direct_link
                 then parsed ← lift (Url.urlparse direct_link);
                      mret (Str.contains "." (Url.netloc parsed))
                 else mret false);
        if (valid : bool) then mret (Some (JStr direct_link, JStr filename, JStr file_size_str))
        else log LogPatternLinkInvalid;; mret None
      else log LogPatternNoNameSize;; mret None
  | None => mret None
  end.

(** The [try] block of strategy 2 (lines 93-121). *)
Definition js_object_body (js_data_str : string) : M (option resolved) :=
  e ← ask;
  js_data ← match json_loads e js_data_str with
            | Some j => mret j
            | None => raise JSONDecodeError
            end;
  file_list ← lift (Json.get js_data "list" (JList []));
  file_list ←
    (if negb (Json.truthy file_list) && Json.has_key "shareData" js_data
     then share_data ← lift (Json.get js_data "shareData" (JDict []));
          lift (Json.get share_data "fileList" (JList []))
     else mret file_list);
  match file_list with
  | JList (item :: _) =>
      dlink ← lift (Json.get item "dlink" JNull);
      direct_link ← (if Json.truthy dlink then mret dlink
                     else lift (Json.get item "downloadLink" JNull));
      server_filename ← lift (Json.get item "server_filename" JNull);
      filename ← (if Json.truthy server_filename then mret server_filename
                  else lift (Json.get item "filename" JNull));
      size_bytes ← lift (Json.get item "size" JNull);
      if Json.truthy direct_link && Json.truthy filename && Json.truthy size_bytes then
        direct_link ← match direct_link with
                      | JStr s => mret (Str.replace "\/" "/" s)
                      | _ => raise AttributeError        (* no .replace *)
                      end;
        n ← lift (Json.to_int size_bytes);
        file_size_str ← _format_bytes n;
        if Str.contains "http" direct_link
        then mret (Some (JStr direct_link, filename, JStr file_size_str))
        else log LogJsLinkInvalid;; mret None
      else log LogJsMissingFields;; mret None
  | _ => log LogJsNoFileList;; mret None
  end.

(** Strategy 2 (lines 90-126). *)
Definition js_object_strategy (content : string) : M (option resolved) :=
  match search INITIAL_STATE_RE content with
  | Some js_config_match =>
      try_except (js_object_body (group 1 js_config_match))
        (fun x =>
           if is_JSONDecodeError x then Some (log LogJsDecodeError;; mret None)
           else Some (log (LogJsError x);; mret None))
  | None => mret None
  end.

(** The [try] block of strategy 3 (lines 148-166). *)
Definition api_body (content url api_url : string) : M (option resolved) :=
  e ← ask;
  body ← http_get api_url;
  api_data ← match json_loads e body with
             | Some j => mret j
             | None => raise JSONDecodeError
             end;
  errno ← lift (Json.get api_data "errno" JNull);
  listed ← (if Json.is_zero errno then lift (Json.get api_data "list" JNull)
            else mret JNull);
  if Json.is_zero errno && Json.truthy listed then
    dlink_info ← lift (Json.first listed);
    direct_link ← lift (Json.get dlink_info "dlink" JNull);
    filename ← _extract_filename content url;
    file_size_str ← _extract_filesize_str content;
    if Json.truthy direct_link then
      let filename := if Str.truthy filename then filename else "terabox_video.mp4" in
      let file_size_str := if Str.truthy file_size_str then file_size_str else "Unknown" in
      mret (Some (direct_link, JStr filename, JStr file_size_str))
    else log LogApiNoDlink;; mret None
  else log LogApiErrno;; mret None.

(** Strategy 3 (lines 133-173). [json] is a local name of the function,
    bound by the [import json] of strategy 2 only: where that import did
    not run, evaluating [json.JSONDecodeError] in the second [except]
    clause raises [UnboundLocalError]. *)
Definition api_strategy (json_bound : bool) (content url : string) : M (option resolved) :=
  match search FS_ID_RE content, search SHAREID_RE content, search UK_RE content with
  | Some fs_id_match, Some share_id_match, Some uk_match =>
      let api_url :=
        "https://www.terabox.com/api/download?shareid=" +:+ group 1 share_id_match
        +:+ "&uk=" +:+ group 1 uk_match
        +:+ "&fidlist=[" +:+ group 1 fs_id_match +:+ "]" in
      try_except (api_body content url api_url)
        (fun x =>
           if is_RequestError x then Some (log LogApiRequestError;; mret None)
           else if negb json_bound then Some (raise (UnboundLocalError "json"))
           else if is_JSONDecodeError x then Some (log LogApiDecodeError;; mret None)
           else Some (log (LogApiError x);; mret None))
  | _, _, _ => mret None
  end.

(** The outer [try] block (lines 61-177). *)
Definition strategies (url : string) : M resolved :=
  content ← http_get url;
  r1 ← pattern_strategy content url;
  match r1 with
  | Some r => mret r
  | None =>
      r2 ← js_object_strategy content;
      match r2 with
      | Some r => mret r
      | None =>
          let json_bound :=
            match search INITIAL_STATE_RE content with Some _ => true | None => false end in
          r3 ← api_strategy json_bound content url;
          match r3 with
          | Some r => mret r
          | None => log LogAllMethodsFailed;; mret nothing
          end
      end
  end.

Definition get_terabox_download_link (url : string) : M resolved :=
  try_except (strategies url)
    (fun x =>
       match x with
       | HTTPStatusError status_code =>
           Some (log (LogPageHttpStatus status_code);;
                 (if bool_decide (status_code ∈ [401; 403])
                  then log LogCookieInvalid else mret tt);;
                 mret nothing)
       | RequestError => Some (log LogPageNetworkError;; mret nothing)
       | _ => Some (log (LogResolveUnexpected x);; mret nothing)
       end).

End Terabox.

(** ** message.py *)

Module Handlers.

(** The names the module binds (imports, lines 1-16, and definitions). *)
Definition module_names : list string :=
  [ "os"; "asyncio"; "logging"; "time"; "httpx"; "aiofiles"; "partial";
    "Client"; "filters"; "Message"; "FloodWait"; "RPCError"; "config";
    "database"; "fsub_required"; "token_required"; "spam_check";
    "extract_terabox_link"; "get_terabox_download_link"; "progress_callback";
    "is_adult"; "format_time_diff"; "LOGGER"; "MAX_TG_UPLOAD_SIZE_BYTES";
    "message_handler"; "download_and_upload"; "_format_bytes" ].

Definition MAX_TG_UPLOAD_SIZE_BYTES : Z := 2 * 1024 * 1024 * 1024.

(** The message of the [ValueError] raised at line 122. *)
Definition too_large_message : string :=
  "File exceeds Telegram upload limit (detected during download).".

Definition ends_with_slash (s : string) : bool :=
  match String.length s with
  | O => false
  | S n => String.eqb (String.substring n 1 s) "/"
  end.

(** [os.path.join(a, b)] *)
Definition os_path_join (a b : string) : string :=
  if String.prefix "/" b then b
  else if negb (Str.truthy a) || ends_with_slash a then a +:+ b
  else a +:+ "/" +:+ b.

(** [os.path.join(config.DOWNLOAD_DIR, f"{user_id}_{filename}")] *)
Definition download_path_of (e : Env) (user_id : Z) (filename : string) : string :=
  os_path_join (DOWNLOAD_DIR (cfg e)) (pretty user_id +:+ "_" +:+ filename).

Definition edit_text (t : text) : M unit := tg_call (EditText t).

(** [if os.path.exists(path): try: os.remove(path) except OSError: log] *)
Definition remove_if_exists (path : string) (removed : M unit) : M unit :=
  e ← ask;
  w ← get;
  match w_fs w !! path with
  | Some _ =>
      if remove_permitted e
      then modify (fun w => set_fs (delete path (w_fs w)) w);;
           emit (FsRemove path true);;
           removed
      else emit (FsRemove path false);;
           log LogRemoveFailed
  | None => mret tt
  end.

(** The [async for chunk in response.aiter_bytes(...)] loop (lines 115-122),
    [current] being [current_downloaded] before the chunk. *)
Fixpoint write_chunks (path : string) (file_size_bytes : Z) (chunks : list Z)
    (current : Z) : M Z :=
  match chunks with
  | [] => mret current
  | chunk :: rest =>
      modify (fun w => set_fs (<[path := current + chunk]> (w_fs w)) w);;
      emit (FsWrite path chunk);;
      let current := current + chunk in
      (if file_size_bytes >? 0
       then Helpers.progress_callback current file_size_bytes "Downloading"
       else mret tt);;
      if current >? MAX_TG_UPLOAD_SIZE_BYTES
      then raise (ValueError too_large_message)
      else write_chunks path file_size_bytes rest current
  end.

(** Lines 107-134, from the progress partial to the end of the [try]
    block; returns [current_downloaded]. *)
Definition stream_to_file (d : Download) (path filename : string)
    (file_size_bytes : Z) : M Z :=
  modify (fun w => set_fs (<[path := 0]> (w_fs w)) w);;   (* aiofiles.open(path, 'wb') *)
  emit (FsOpenWrite path);;
  current_downloaded ← write_chunks path file_size_bytes (dl_chunks d) 0;
  match dl_end d with Some x => raise x | None => mret tt end;;
  (if file_size_bytes >? 0
   then Helpers.progress_callback file_size_bytes file_size_bytes "Downloading"
   else _ ← now; edit_text (TxtDownloadComplete filename));;
  mret current_downloaded.

(** The [try] block of the download (lines 88-134): [None] is the
    [return] of line 102, [Some n] the end of the block with
    [file_size_bytes = n] and [downloaded_successfully = True]. *)
Definition download_body (download_url path filename : string) : M (option Z) :=
  e ← ask;
  let d := download e download_url in
  emit (HttpStream download_url);;
  match dl_connect d with Some x => raise x | None => mret tt end;;
  (if (200 <=? dl_status d) && (dl_status d <=? 299) then mret tt
   else raise (HTTPStatusError (dl_status d)));;
  let without_length : M (option Z) :=
    log LogNoContentLength;;
    n ← stream_to_file d path filename 0; mret (Some n) in
  match dl_content_length d with
  | Some content_length_header =>
      if Str.truthy content_length_header then
        file_size_bytes ← lift (Json.int_of_str content_length_header);
        if file_size_bytes >? MAX_TG_UPLOAD_SIZE_BYTES then
          edit_text (TxtFileTooLargeHeader file_size_bytes);;
          mret None
        else n ← stream_to_file d path filename file_size_bytes; mret (Some n)
      else without_length
  | None => without_length
  end.

(** The [except] clauses of the download (lines 136-151); each ends in
    [return]. *)
Definition download_failed (x : exn) : M (option Z) :=
  match x with
  | HTTPStatusError status_code =>
      log (LogDownloadHttpStatus status_code);;
      edit_text (TxtDownloadFailedStatus status_code);;
      mret None
  | RequestError =>
      log LogDownloadNetwork;;
      edit_text TxtDownloadFailedNetwork;;
      mret None
  | _ =>
      if is_ValueError x then
        log (LogDownloadStopped x);;
        edit_text (TxtFileTooLarge x);;
        mret None
      else
        log (LogDownloadError x);;
        edit_text (TxtDownloadFailedOther x);;
        mret None
  end.

(** The whole [try ... except ... finally] of the download (lines 87-159).
    [downloaded_successfully] is [True] in the [finally] block exactly
    when the [try] block reached its end. *)
Definition download_phase (download_url path filename : string) : M (option Z) :=
  fun e w =>
    let '(r, w1) :=
      try_except (download_body download_url path filename)
                 (fun x => Some (download_failed x)) e w in
    let downloaded_successfully :=
      match r with Ret (Some _) => true | _ => false end in
    try_finally (fun _ _ => (r, w1))
      (if negb downloaded_successfully
       then remove_if_exists path (log LogRemovedIncomplete)
       else mret tt) e w1.

(** [uploaded_message = await client.send_video(...)], what stands between
    it and [await status_msg.delete()], and that call, all in one [try]
    block whose clauses are [h]: a clause sees the value [uploaded_message]
    has when the exception is raised, and the result is the value it has
    after the statement ([true]: a message object, [false]: [None]). *)
Definition send_then_delete (path filename : string) (uploaded : bool)
    (between : M unit) (h : bool -> exn -> option (M bool)) : M bool :=
  sent ← try_except (tg_call (SendVideo path filename);; mret None)
                    (fun x => option_map (fun k => b ← k; mret (Some b)) (h uploaded x));
  match sent with
  | None => try_except (between;; tg_call DeleteStatus;; mret true) (h true)
  | Some b => mret b
  end.

(** The retry inside [except FloodWait] (lines 193-201). *)
Definition retry_upload (path filename : string) (uploaded : bool) : M bool :=
  send_then_delete path filename uploaded (mret tt)
    (fun uploaded retry_err =>
       Some (log (LogUploadRetryFailed retry_err);;
             edit_text (TxtUploadFailedAfterFloodWait retry_err);;
             mret uploaded)).

(** The [except] clauses of the upload (lines 188-208). *)
Definition upload_failed (path filename : string) (uploaded : bool) (x : exn)
    : option (M bool) :=
  match x with
  | FloodWait value =>
      Some (log (LogUploadFloodWait value);;
            edit_text (TxtFloodWaitPaused value);;
            asyncio_sleep module_names (value + 2);;
            retry_upload path filename uploaded)
  | _ =>
      if is_RPCError x then
        Some (log (LogUploadRPC x);;
              edit_text (TxtUploadFailedRPC x);;
              mret uploaded)
      else
        Some (log (LogUploadError x);;
              edit_text (TxtUploadFailedOther x);;
              mret uploaded)
  end.

(** Lines 165-208; the result tells whether [uploaded_message] is set. *)
Definition upload_phase (path filename : string) (file_size_bytes : Z) : M bool :=
  edit_text (TxtUploading filename file_size_bytes);;
  _ ← now;                                          (* upload_start_time *)
  send_then_delete path filename false (_ ← now; mret tt) (upload_failed path filename).

(** Lines 210-223. *)
Definition forward_phase (uploaded : bool) : M unit :=
  e ← ask;
  let dump := DUMP_CHAT_ID (cfg e) in
  if uploaded && negb (dump =? 0) then
    try_except (tg_call (ForwardTo dump);; log LogForwarded)
      (fun x =>
         match x with
         | FloodWait value =>
             Some (log (LogForwardFloodWait value);;
                   asyncio_sleep module_names (value + 1);;
                   try_except (tg_call (ForwardTo dump))
                              (fun _ => Some (log LogForwardRetryFailed)))
         | _ => Some (log LogForwardFailed)
         end)
  else mret tt.

(** Lines 80-83. *)
Definition start_download (filename file_size_str : string) : M unit :=
  _ ← now;                                          (* start_time *)
  edit_text (TxtStartingDownload filename file_size_str).

Definition download_and_upload (user_id : Z) (download_url filename file_size_str : string)
    : M unit :=
  e ← ask;
  let download_path := download_path_of e user_id filename in
  start_download filename file_size_str;;
  downloaded ← download_phase download_url download_path filename;
  match downloaded with
  | None => mret tt                                 (* if not downloaded_successfully: return *)
  | Some file_size_bytes =>
      uploaded ← upload_phase download_path filename file_size_bytes;
      forward_phase uploaded;;
      remove_if_exists download_path (mret tt)
  end.

(** A [str] operation on a value of the resolver's tuple: [x] raises when
    the value is not a [str]. *)
Definition as_str (x : exn) (j : json) : M string :=
  match j with
  | JStr s => mret s
  | _ => raise x
  end.

(** The body of [message_handler] (lines 27-75). *)
Definition link_handler (user_id : Z) (text : string) : M unit :=
  match Terabox.extract_terabox_link text with
  | None =>
      log LogNoLink;;
      tg_call (ReplyText TxtInvalidInput)
  | Some terabox_link =>
      tg_call (ReplyText TxtProcessing);;           (* status_msg *)
      try_except
        (e ← ask;
         r ← Terabox.get_terabox_download_link terabox_link;
         let '(direct_link, filename, file_size_str) := r in
         if negb (Json.truthy direct_link) || negb (Json.truthy filename) then
           edit_text TxtCouldNotExtract
         else
           direct_link ← as_str TypeError direct_link;       (* direct_link[:100] *)
           filename ← as_str AttributeError filename;        (* filename.lower() *)
           if Helpers.is_adult e filename then
             log LogAdultBlocked;;
             edit_text TxtContentBlocked
           else
             download_and_upload user_id direct_link filename
               (match file_size_str with JStr s => s | _ => "None" end))
        (fun x => Some (log (LogHandlerError x);;
                        edit_text (TxtUnexpectedError x)))
  end.

(** [message_handler] under its three decorators (lines 23-26). *)
Definition message_handler (user_id : Z) (text : string) : M unit :=
  Decorators.fsub_required Decorators.IsMessage user_id
    (Decorators.token_required user_id
       (Decorators.spam_check user_id
          (link_handler user_id text))).

End Handlers.

(** ** Two throttle checks of one caller as interleaved tasks

    A coroutine runs until it awaits something that suspends it. In
    [spam_check] the read of the mark ([get_last_spam_time], which awaits
    nothing), the comparison and the assignment of the new mark (the part
    of [update_spam_time] before [await save_db()]) form one such run; the
    scheduler may switch tasks before the lock is taken, before the file
    is written, and before the denial is sent. A task is at one of these
    points; a schedule says which task runs next. *)

Module Race.
Import Decorators.

Inductive pc : Type :=
| AtCheck                       (* about to read the mark *)
| AtLock                        (* mark assigned, about to enter save_db *)
| AtDump                        (* holds the lock, about to write the file *)
| AtReply (wait_seconds : Z)    (* refused, about to send the reply *)
| Finished (v : verdict)        (* the gate has returned *)
| Raised (x : exn).

(** Lines 145-163 of decorators.py up to the first suspension. *)
Definition check_segment (user_id : Z) : M (option Z) :=
  e ← ask;
  last_action_time ← Database.get_last_spam_time user_id;
  now_utc ← now;
  match too_early e last_action_time now_utc with
  | Some wait_seconds => mret (Some wait_seconds)
  | None => Database.touch_spam_time user_id;; mret None
  end.

(** What a task does when it is resumed at [p], and where it stops next. *)
Definition segment (user_id : Z) (p : pc) : M pc :=
  match p with
  | AtCheck =>
      r ← check_segment user_id;
      mret (match r with Some wait_seconds => AtReply wait_seconds | None => AtLock end)
  | AtLock => Database.acquire_db_lock;; mret AtDump
  | AtDump => Database.write_db_file;; Database.release_db_lock;; mret (Finished Allowed)
  | AtReply wait_seconds =>
      tg_call (ReplyText (TxtSpamProtection wait_seconds));;
      mret (Finished (Denied RateLimited))
  | Finished _ | Raised _ => mret p
  end.

(** One turn of a task: a task that waits for the lock stays where it is. *)
Definition turn (user_id : Z) (e : Env) (p : pc) (w : World) : pc * World :=
  match segment user_id p e w with
  | (Ret p', w') => (p', w')
  | (Exn x, w') => (Raised x, w')
  | (Hang, _) => (p, w)
  end.

Inductive task : Type := First | Second.

Record state : Type := mkState {
  world : World;
  pc1 : pc;
  pc2 : pc
}.

Definition init (w : World) : state := mkState w AtCheck AtCheck.

Definition step (user_id : Z) (e : Env) (st : state) (t : task) : state :=
  match t with
  | First => let '(p, w) := turn user_id e (pc1 st) (world st) in mkState w p (pc2 st)
  | Second => let '(p, w) := turn user_id e (pc2 st) (world st) in mkState w (pc1 st) p
  end.

Definition exec (user_id : Z) (e : Env) (sched : list task) (st : state) : state :=
  fold_left (step user_id e) sched st.

Definition finished (p : pc) : bool :=
  match p with Finished _ | Raised _ => true | _ => false end.

(** The mark as [get_last_spam_time] reads it. *)
Definition mark (user_id : Z) (w : World) : option Z :=
  match spam_tracker (w_db w) !! Database.str user_id with
  | Some v => if truthy v then match fromisoformat v with inr t => Some t | inl _ => None end
              else None
  | None => None
  end.

Definition pc_of (st : state) (t : task) : pc :=
  match t with First => pc1 st | Second => pc2 st end.

Definition other (t : task) : task :=
  match t with First => Second | Second => First end.

(** The task has passed the check and is on its way to the wrapped
    function. *)
Definition admitted (p : pc) : bool :=
  match p with AtLock | AtDump | Finished Allowed => true | _ => false end.

(** A task that runs alone, from the check to the return of the gate. *)
Definition solo (user_id : Z) : M pc :=
  p1 ← segment user_id AtCheck;
  p2 ← segment user_id p1;
  segment user_id p2.

(** The clock readings the two checks take (at most four, from the
    reading that comes next in [w]) lie within one cooldown window. *)
Definition within_window (e : Env) (w : World) : Prop :=
  forall i j : nat, (i < 4)%nat -> (j < 4)%nat ->
    clock e (w_reads w + j) - clock e (w_reads w + i) < delay e.

(** The caller is outside the window of any earlier admission when the
    first check reads the clock. *)
Definition eligible (user_id : Z) (e : Env) (w : World) : Prop :=
  too_early e (mark user_id w) (clock e (w_reads w)) = None.

(** What holds of every state the two tasks can reach from [w0]: nobody
    has run the check yet, or one task (the winner) is on the admitted path
    with the mark set to the reading it took, and the other has not yet
    run the check or has been refused. *)
Definition refused (p : pc) : Prop :=
  (exists wait_seconds, p = AtReply wait_seconds) \/ p = Finished (Denied RateLimited).

Definition invariant (user_id : Z) (e : Env) (w0 : World) (st : state) : Prop :=
  w_tg (world st) = []
  /\ ((pc1 st = AtCheck /\ pc2 st = AtCheck
       /\ w_reads (world st) = w_reads w0
       /\ mark user_id (world st) = mark user_id w0
       /\ w_lock (world st) = false)
      \/ (exists winner,
            admitted (pc_of st winner) = true
            /\ mark user_id (world st) = Some (clock e (S (w_reads w0)))
            /\ (w_lock (world st) = true <-> pc_of st winner = AtDump)
            /\ ((pc_of st (other winner) = AtCheck
                 /\ w_reads (world st) = S (S (w_reads w0)))
                \/ (refused (pc_of st (other winner))
                    /\ w_reads (world st) = S (S (S (w_reads w0))))))).

(** Turns a task still needs, at most. *)
Definition rank (p : pc) : nat :=
  match p with
  | AtCheck => 3
  | AtLock => 2
  | AtDump | AtReply _ => 1
  | Finished _ | Raised _ => 0
  end.

End Race.

(** ** Lock discipline of the store operations, read off the trace *)

Module Discipline.

Inductive store_op : Type :=
| AddUser (user_id : Z)
| GetAllUsers
| StoreToken (user_id : Z) (token : string) (expires_at : Z)
| GetUserTokenData (user_id : Z)
| UpdateSpamTime (user_id : Z)
| GetLastSpamTime (user_id : Z).

Definition run_op (op : store_op) : M unit :=
  match op with
  | AddUser u => _ ← Database.add_user u; mret tt
  | GetAllUsers => _ ← Database.get_all_users; mret tt
  | StoreToken u t x => Database.store_token u t x
  | GetUserTokenData u => _ ← Database.get_user_token_data u; mret tt
  | UpdateSpamTime u => Database.update_spam_time u
  | GetLastSpamTime u => _ ← Database.get_last_spam_time u; mret tt
  end.

(** Every access to the document or to the file happens while the lock
    is held ([held] tells whether it is at the start of the trace). *)
Fixpoint all_under_lock (held : bool) (tr : list event) : bool :=
  match tr with
  | [] => true
  | LockAcquired :: tr' => all_under_lock true tr'
  | LockReleased :: tr' => all_under_lock false tr'
  | (DbRead _ _ | DbWrite _ _ | FileDump _) :: tr' => held && all_under_lock held tr'
  | _ :: tr' => all_under_lock held tr'
  end.

(** What the code does: the file is written under the lock, the document
    in memory is read and assigned outside it, and the lock is free at
    the end. *)
Fixpoint file_io_under_lock (held : bool) (tr : list event) : bool :=
  match tr with
  | [] => negb held
  | LockAcquired :: tr' => negb held && file_io_under_lock true tr'
  | LockReleased :: tr' => held && file_io_under_lock false tr'
  | (DbRead _ _ | DbWrite _ _) :: tr' => negb held && file_io_under_lock held tr'
  | FileDump _ :: tr' => held && file_io_under_lock held tr'
  | _ :: tr' => file_io_under_lock held tr'
  end.

Definition is_query (op : store_op) : bool :=
  match op with
  | GetAllUsers | GetUserTokenData _ | GetLastSpamTime _ => true
  | _ => false
  end.

Definition takes_lock (tr : list event) : bool :=
  existsb (fun ev => match ev with LockAcquired => true | _ => false end) tr.

(** The events of a mutation that is saved, in the order in which the
    code produces them: the document is read and assigned in memory;
    then [save_db] takes the lock, dumps the document and releases the
    lock; log lines may follow the dump and the release. *)
Inductive phase : Type := Assigning | Assigned | Locked | Dumped | Released.

Fixpoint saved_after_assignment (ph : phase) (tr : list event) : bool :=
  match tr with
  | [] => match ph with Released => true | _ => false end
  | ev :: tr' =>
      match ph, ev with
      | Assigning, DbRead _ _ => saved_after_assignment Assigning tr'
      | Assigning, DbWrite _ _ => saved_after_assignment Assigned tr'
      | Assigned, LockAcquired => saved_after_assignment Locked tr'
      | Locked, FileDump _ => saved_after_assignment Dumped tr'
      | Dumped, Logged _ => saved_after_assignment Dumped tr'
      | Dumped, LockReleased => saved_after_assignment Released tr'
      | Released, Logged _ => saved_after_assignment Released tr'
      | _, _ => false
      end
  end.

(** The operation has assigned in memory first and has then saved: the
    file holds the document as it is after the operation, or is left
    unparsable when that document cannot be dumped. *)
Definition saved (evs : list event) (w' : World) : Prop :=
  saved_after_assignment Assigning evs = true
  /\ w_file w' = (if Database.dumpable (w_db w') then FileDoc (w_db w') else FileCorrupt).

End Discipline.

(** ** Reading the trace *)

(** The texts that reached the caller, oldest first. *)
Fixpoint shown (tr : list event) : list text :=
  match tr with
  | [] => []
  | Tg (ReplyText t) true :: tr' => t :: shown tr'
  | Tg (EditText t) true :: tr' => t :: shown tr'
  | Tg (SendMessage t) true :: tr' => t :: shown tr'
  | Tg (AnswerCallback t) true :: tr' => t :: shown tr'
  | _ :: tr' => shown tr'
  end.

Definition wrote_file (ev : event) : bool :=
  match ev with FsOpenWrite _ | FsWrite _ _ => true | _ => false end.

Definition fetched (ev : event) : bool :=
  match ev with HttpGet _ | HttpStream _ => true | _ => false end.

(** The transport raises nothing in the calls to come. *)
Definition calm (w : World) : Prop := w_tg w = [].

(** ** Sample inputs *)

Definition sample_config : Config :=
  mkConfig [1] (-100123) (-100456) 60 24 "downloads/" ["porn"; "xxx"] "ndus=abc".

(** A caller who is a member, a clock that starts at 1_000_000_000 and
    advances one microsecond per reading, a page and a download. *)
Definition sample_env (page : http_result) (dl : Download) : Env :=
  mkEnv sample_config (fun n => 1000000000 + Z.of_nat n) "member"
        (mkChatInfo None None "Channel") "https://t.me/+abc"
        (fun _ => page) (fun _ => dl) (fun _ => None) true (fun _ _ _ => None).

Definition no_download : Download := mkDownload (Some RequestError) 0 None [] None.

(** Caller 42 holds a token that expires at instant [expires]. *)
Definition db_with_token (expires : Z) : Db :=
  mkDb [42] {[ "42" := mkTokenEntry "7c9e6679" (PyIsoStr expires) ]} ∅.

Definition world_of (d : Db) : World :=
  mkWorld d (FileDoc d) false 0 [] ∅ None [].

(** The transport answers the next calls as scripted. *)
Definition with_script (q : list (option exn)) (w : World) : World := set_tg q w.

(** No network: every request fails. *)
Definition offline_env : Env := sample_env (HttpFails RequestError) no_download.

(** Caller 42 holds a token that is valid for a long time. *)
Definition token_world : World := world_of (db_with_token 2000000000).

(** A share page on which strategy 1 finds the link, a file name in the
    title and a numeric size. *)
Definition page_with_size : string :=
  "<html><title>clip.mp4 - Terabox</title><script>var f = {'dlink': 'https://d.terabox.com/f.mp4', 'size': 1000};</script></html>".

(** The same page without the size field. *)
Definition page_without_size : string :=
  "<html><title>clip.mp4 - Terabox</title><script>var f = {'dlink': 'https://d.terabox.com/f.mp4'};</script></html>".

(** Bytes received once the first [k] chunks have arrived. *)
Definition streamed (chunks : list Z) (k : nat) : Z := foldr Z.add 0 (take k chunks).



(** A download of 1000 bytes in two chunks, no declared length. *)
Definition small_download : Download := mkDownload None 200 None [600; 400] None.

(** The transport accepts the two status updates of the download and
    refuses the "Uploading" one. *)
Definition refuses_uploading_status : World :=
  with_script [None; None; Some RPCError] token_world.

(** The transport accepts the status updates, signals a flood wait on
    [send_video], then refuses the retry and the report of its failure. *)
Definition refuses_retry_report : World :=
  with_script [None; None; None; Some (FloodWait 5); None; Some RPCError; Some RPCError]
    token_world.

(** The run of [download_and_upload] for caller 42 in
    [refuses_uploading_status], phase by phase. *)
Definition small_env : Env := sample_env (HttpFails RequestError) small_download.

Definition after_start : World :=
  snd (Handlers.start_download "clip.mp4" "Unknown" small_env refuses_uploading_status).

Definition after_download : World :=
  snd (Handlers.download_phase "https://d.terabox.com/f.mp4"
         (Handlers.download_path_of small_env 42 "clip.mp4") "clip.mp4"
         small_env after_start).

Definition after_upload : World :=
  snd (Handlers.upload_phase (Handlers.download_path_of small_env 42 "clip.mp4")
         "clip.mp4" 1000 small_env after_download).

(** Two checks of caller 42, interleaved: the first task runs its check,
    the second is refused and answers, the first saves and returns. *)
Definition raced : Race.state :=
  Race.exec 42 offline_env
    [Race.First; Race.Second; Race.Second; Race.First; Race.First; Race.Second]
    (Race.init token_world).

(** Events that show the caller nothing, fetch nothing and write no file. *)
Definition silent (evs : list event) : Prop :=
  shown evs = [] /\ existsb fetched evs = false /\ existsb wrote_file evs = false.

(** ** database.load_db (bot/database.py, lines 12-40)

    [json.load] and the three [setdefault] calls install the document of
    the file; a missing file ([FileNotFoundError]) and a file that does
    not parse ([json.JSONDecodeError], after a best-effort backup copy)
    reset the document and [await save_db()], all inside
    [async with _db_lock:]. The log lines are left out. *)

Module Startup.

Definition load_db : M unit :=
  Database.acquire_db_lock;;
  w ← get;
  match w_file w with
  | FileDoc d => modify (set_db d)
  | FileMissing => modify (set_db empty_db);; Database.save_db
  | FileCorrupt => modify (set_db empty_db);; Database.save_db
  end;;
  Database.release_db_lock.

End Startup.

(** A store whose file is not there yet, as at the first start. *)
Definition first_start : World := mkWorld empty_db FileMissing false 0 [] ∅ None [].

(** The store after caller 42's token has been read once. *)
Definition token_read_world : World :=
  snd (Database.get_user_token_data 42 offline_env token_world).

(** The same service seen by a caller who has not joined the channel. *)
Definition outsider_env : Env :=
  mkEnv sample_config (fun n => 1000000000 + Z.of_nat n) "left"
        (mkChatInfo None None "Channel") "https://t.me/+abc"
        (fun _ => HttpFails RequestError) (fun _ => no_download) (fun _ => None) true
        (fun _ _ _ => None).

(** A store without any token, and one in which caller 42 was admitted by
    the throttle at instant 999_990_000 (ten milliseconds before the
    sample clock starts). *)
Definition bare_world : World := world_of (mkDb [42] ∅ ∅).

Definition marked_world : World :=
  world_of (mkDb [42] ∅ {[ "42" := PyIsoStr 999990000 ]}).

(** A status message that was edited at instant 999_000_000, one second
    before the sample clock starts. *)
Definition recently_edited : World := set_last_update (Some 999000000) token_world.

(** A share page whose title names a file with a blocked keyword, in
    capitals. *)
Definition adult_page : string :=
  "<html><title>XXX clip.mp4 - Terabox</title><script>var f = {'dlink': 'https://d.terabox.com/f.mp4'};</script></html>".

Definition adult_env : Env := sample_env (HttpResponse 200 adult_page) small_download.

Definition after_adult_resolution : World :=
  snd (Terabox.get_terabox_download_link "https://terabox.com/s/1abcDEF_x" adult_env
         (add_event (Tg (ReplyText TxtProcessing) true) token_world)).

(** ** bot/handlers/token.py *)

Module TokenHandler.

(** What [_generate_and_send_token] tells the caller: the token that is
    still active with the whole seconds it has left (lines 45-51), or the
    new token with its validity (lines 60-66). *)
Inductive notice : Type :=
| ActiveToken (token : string) (seconds_left : Z)
| NewToken (token : string) (hours : Z) (expires_at : Z).

(** Lines 35-56, up to the reply. [new_token] is [str(uuid.uuid4())];
    [timedelta(hours=h)] is [h * 3_600_000_000] microseconds. *)
Definition choose_token (new_token : string) (user_id : Z) : M notice :=
  e ← ask;
  let token_expiry_hours := TOKEN_EXPIRY_HOURS (cfg e) in
  now_utc ← now;
  let expires_at := now_utc + token_expiry_hours * 3600000000 in
  existing_token_data ← Database.get_user_token_data user_id;
  let issue : M notice :=
    Database.store_token user_id new_token expires_at;;
    mret (NewToken new_token token_expiry_hours expires_at) in
  match existing_token_data with
  | Some d =>
      if Database.td_expires d >? now_utc
      then mret (ActiveToken (Database.td_token d)
                             (Z.quot (Database.td_expires d - now_utc) 1000000))
      else issue
  | None => issue
  end.

(** [reply_text] is [source_message.reply_text] applied to the text of
    the notice. *)
Definition _generate_and_send_token (new_token : string) (reply_text : notice -> M unit)
    (user_id : Z) : M unit :=
  n ← choose_token new_token user_id;
  reply_text n.

(** [get_token_command] (lines 14-20). *)
Definition get_token_command (new_token : string) (reply_text : notice -> M unit)
    (user_id : Z) : M unit :=
  Decorators.fsub_required Decorators.IsMessage user_id
    (_generate_and_send_token new_token reply_text user_id).

End TokenHandler.

(** ** The language of a pattern

    [matches r l]: the characters [l] are a match of [r] (groups only
    mark a part of the match). *)

Inductive matches : Re.re -> list ascii -> Prop :=
| MEps : matches Re.Eps []
| MCls (p : ascii -> bool) (a : ascii) : p a = true -> matches (Re.Cls p) [a]
| MCat (r1 r2 : Re.re) (l1 l2 : list ascii) :
    matches r1 l1 -> matches r2 l2 -> matches (Re.Cat r1 r2) (l1 ++ l2)
| MAltL (r1 r2 : Re.re) (l : list ascii) : matches r1 l -> matches (Re.Alt r1 r2) l
| MAltR (r1 r2 : Re.re) (l : list ascii) : matches r2 l -> matches (Re.Alt r1 r2) l
| MRepNil (greedy : bool) (r : Re.re) : matches (Re.Rep greedy r) []
| MRepCons (greedy : bool) (r : Re.re) (l1 l2 : list ascii) :
    matches r l1 -> matches (Re.Rep greedy r) l2 -> matches (Re.Rep greedy r) (l1 ++ l2)
| MGrp (n : nat) (r : Re.re) (l : list ascii) : matches r l -> matches (Re.Grp n r) l.

(** The transport accepts the status updates of a download and of the
    start of the upload, then answers [send_video] as given. *)
Definition send_video_answers (x : exn) : World :=
  with_script [None; None; None; Some x] token_world.

Definition is_forward (ev : event) : bool :=
  match ev with Tg (ForwardTo _) _ => true | _ => false end.

Definition is_send_video (ev : event) : bool :=
  match ev with Tg (SendVideo _ _) _ => true | _ => false end.

(** The transport accepts the "Uploading" status, answers the first
    [send_video] with a flood wait of [value] seconds and accepts what
    follows. *)
Definition flood_on_send_video (value : Z) : World :=
  with_script [None; None; None; Some (FloodWait value); None; None; None] token_world.

(** A download server that declares a length that is not a number. *)
Definition bad_length_env : Env :=
  sample_env (HttpFails RequestError) (mkDownload None 200 (Some "12a") [600; 400] None).

(** A deployment without a forced-subscription channel. *)
Definition open_env : Env :=
  mkEnv (mkConfig [1] 0 (-100456) 60 24 "downloads/" ["porn"; "xxx"] "ndus=abc")
        (fun n => 1000000000 + Z.of_nat n) "left"
        (mkChatInfo None None "Channel") "https://t.me/+abc"
        (fun _ => HttpFails RequestError) (fun _ => no_download) (fun _ => None) true
        (fun _ _ _ => None).

(** A transfer so slow that the time left exceeds what [timedelta] holds:
    building the progress text raises [OverflowError] for one byte of
    2_000_000_000. *)
Definition slow_transfer_env : Env :=
  mkEnv sample_config (fun n => 1000000000 + Z.of_nat n) "member"
        (mkChatInfo None None "Channel") "https://t.me/+abc"
        (fun _ => HttpFails RequestError) (fun _ => no_download) (fun _ => None) true
        (fun _ current total =>
           if (current =? 1) && (total =? 2000000000) then Some OverflowError else None).
(** * Properties *)

(** ** Running the monad *)

Ltac unfold_monad :=
  unfold run, lift, log, emit, modify, mbind, mret, M_bind, M_ret, bind, ret,
         raise, hang, ask, get, try_except, try_finally in *.

Lemma tg_call_calm (c : call) (e : Env) (w : World) :
  calm w -> tg_call c e w = (Ret tt, add_event (Tg c true) w).
Proof.
  unfold calm, tg_call. intros ->. reflexivity.
Qed.

Lemma tg_call_raises (c : call) (e : Env) (w : World) (x : exn) (q : list (option exn)) :
  w_tg w = Some x :: q ->
  tg_call c e w = (Exn x, add_event (Tg c false) (set_tg q w)).
Proof.
  unfold tg_call. intros ->. reflexivity.
Qed.

(** ** The store *)

Lemma datetime_not_dumpable (d : Db) (k token : string) (t : Z) :
  tokens d !! k = Some (mkTokenEntry token (PyDatetime t)) ->
  Database.dumpable d = false.
Proof.
  intros Hk. unfold Database.dumpable.
  apply andb_false_intro1, not_true_is_false. intros Hall.
  rewrite forallb_forall in Hall.
  specialize (Hall (k, mkTokenEntry token (PyDatetime t))).
  simpl in Hall. discriminate Hall.
  apply list_elem_of_In, elem_of_map_to_list. exact Hk.
Qed.

Lemma save_db_free (e : Env) (w : World) :
  w_lock w = false ->
  Database.save_db e w =
    (Ret tt,
     if Database.dumpable (w_db w)
     then add_event LockReleased
            (set_lock false
               (add_event (FileDump true)
                  (set_file (FileDoc (w_db w))
                     (add_event LockAcquired (set_lock true w)))))
     else add_event LockReleased
            (set_lock false
               (add_event (Logged LogSaveFailed)
                  (add_event (FileDump false)
                     (set_file FileCorrupt
                        (add_event LockAcquired (set_lock true w))))))).
Proof.
  intros Hfree.
  unfold Database.save_db, Database.acquire_db_lock, Database.write_db_file,
         Database.release_db_lock.
  unfold_monad. rewrite Hfree. simpl.
  destruct (Database.dumpable (w_db w)); reflexivity.
Qed.

Lemma get_user_token_data_iso (e : Env) (w : World) (user_id : Z) (token : string) (t : Z) :
  tokens (w_db w) !! Database.str user_id = Some (mkTokenEntry token (PyIsoStr t)) ->
  Database.get_user_token_data user_id e w =
    (Ret (Some (Database.mkTokenData token t)),
     add_event (DbWrite "tokens" (Database.str user_id))
       (set_db (mkDb (users (w_db w))
                     (<[Database.str user_id := mkTokenEntry token (PyDatetime t)]>
                        (tokens (w_db w)))
                     (spam_tracker (w_db w)))
          (add_event (DbRead "tokens" (Database.str user_id)) w))).
Proof.
  intros Hk. unfold Database.get_user_token_data. unfold_monad. simpl.
  rewrite Hk. reflexivity.
Qed.

Lemma get_user_token_data_datetime (e : Env) (w : World) (user_id : Z) (token : string) (t : Z) :
  tokens (w_db w) !! Database.str user_id = Some (mkTokenEntry token (PyDatetime t)) ->
  Database.get_user_token_data user_id e w =
    (Ret None,
     add_event (Logged (LogBadExpiry user_id))
       (add_event (DbRead "tokens" (Database.str user_id)) w)).
Proof.
  intros Hk. unfold Database.get_user_token_data. unfold_monad. simpl.
  rewrite Hk. reflexivity.
Qed.

(** C6. Reading a caller's token is not a pure query: the first read of a
    stored token replaces the expiry string of the stored entry by a
    datetime object. Before the read the document is written to the file;
    after it the document in memory differs, [save_db] leaves a file that
    does not parse, and a second read of the same token finds none. *)
Theorem get_user_token_data_rewrites_entry
    (e : Env) (w : World) (user_id : Z) (token : string) (t : Z) :
  tokens (w_db w) !! Database.str user_id = Some (mkTokenEntry token (PyIsoStr t)) ->
  Database.dumpable (w_db w) = true ->
  w_lock w = false ->
  let w1 := snd (Database.get_user_token_data user_id e w) in
  fst (Database.get_user_token_data user_id e w) = Ret (Some (Database.mkTokenData token t))
  /\ w_file (snd (Database.save_db e w)) = FileDoc (w_db w)
  /\ tokens (w_db w1) !! Database.str user_id = Some (mkTokenEntry token (PyDatetime t))
  /\ w_db w1 <> w_db w
  /\ w_file (snd (Database.save_db e w1)) = FileCorrupt
  /\ fst (Database.get_user_token_data user_id e w1) = Ret None.
Proof.
  intros Hk Hdump Hfree w1. subst w1.
  rewrite (get_user_token_data_iso e w user_id token t Hk). simpl.
  assert (Hk1 : (<[Database.str user_id := mkTokenEntry token (PyDatetime t)]>
                   (tokens (w_db w))) !! Database.str user_id
                = Some (mkTokenEntry token (PyDatetime t)))
    by apply lookup_insert_eq.
  repeat split.
  - rewrite save_db_free by exact Hfree. rewrite Hdump. reflexivity.
  - exact Hk1.
  - intros Heq. rewrite <- Heq in Hk. simpl in Hk. rewrite Hk1 in Hk. discriminate Hk.
  - rewrite save_db_free by exact Hfree. simpl.
    erewrite datetime_not_dumpable by (simpl; exact Hk1). reflexivity.
  - erewrite get_user_token_data_datetime by (simpl; exact Hk1). reflexivity.
Qed.

Lemma get_user_token_data_rewrites_entry_witness :
  fst (Database.get_user_token_data 42 offline_env token_world)
    = Ret (Some (Database.mkTokenData "7c9e6679" 2000000000))
  /\ w_file (snd (Database.save_db offline_env token_world)) = FileDoc (w_db token_world)
  /\ tokens (w_db (snd (Database.get_user_token_data 42 offline_env token_world)))
       !! Database.str 42
     = Some (mkTokenEntry "7c9e6679" (PyDatetime 2000000000))
  /\ w_db (snd (Database.get_user_token_data 42 offline_env token_world)) <> w_db token_world
  /\ w_file (snd (Database.save_db offline_env
                    (snd (Database.get_user_token_data 42 offline_env token_world))))
     = FileCorrupt
  /\ fst (Database.get_user_token_data 42 offline_env
            (snd (Database.get_user_token_data 42 offline_env token_world)))
     = Ret None.
Proof.
  apply (get_user_token_data_rewrites_entry offline_env token_world
           42 "7c9e6679" 2000000000).
  - vm_compute. reflexivity.
  - vm_compute. reflexivity.
  - reflexivity.
Defined.

(** ** The token gate *)

Lemma token_gate_iso (e : Env) (w : World) (user_id : Z) (token : string) (t : Z) :
  Decorators.is_admin e user_id = false ->
  tokens (w_db w) !! Database.str user_id = Some (mkTokenEntry token (PyIsoStr t)) ->
  Decorators.token_gate user_id e w =
    let w1 :=
      set_reads (S (w_reads w))
        (add_event (DbWrite "tokens" (Database.str user_id))
           (set_db (mkDb (users (w_db w))
                         (<[Database.str user_id := mkTokenEntry token (PyDatetime t)]>
                            (tokens (w_db w)))
                         (spam_tracker (w_db w)))
              (add_event (DbRead "tokens" (Database.str user_id)) w))) in
    if clock e (w_reads w) >? t
    then (Exn (NameError "humanize"), w1)
    else (Ret Decorators.Allowed, w1).
Proof.
  intros Hadmin Hk. unfold Decorators.token_gate.
  unfold mbind at 1, M_bind at 1, bind at 1, ask at 1. rewrite Hadmin.
  unfold mbind at 1, M_bind at 1, bind at 1.
  rewrite (get_user_token_data_iso e w user_id token t Hk).
  unfold_monad. unfold now. simpl.
  destruct (clock e (w_reads w) >? t); reflexivity.
Qed.

Lemma token_gate_missing (e : Env) (w : World) (user_id : Z) :
  Decorators.is_admin e user_id = false ->
  tokens (w_db w) !! Database.str user_id = None ->
  calm w ->
  Decorators.token_gate user_id e w =
    (Ret (Decorators.Denied Decorators.TokenRequired),
     add_event (Tg (ReplyText TxtTokenRequired) true)
       (set_reads (S (w_reads w))
          (add_event (DbRead "tokens" (Database.str user_id)) w))).
Proof.
  intros Hadmin Hk Hcalm. unfold Decorators.token_gate, Database.get_user_token_data.
  unfold_monad. unfold now. rewrite Hadmin. simpl. rewrite Hk. simpl.
  rewrite tg_call_calm by exact Hcalm. reflexivity.
Qed.

Lemma token_gate_datetime (e : Env) (w : World) (user_id : Z) (token : string) (t : Z) :
  Decorators.is_admin e user_id = false ->
  tokens (w_db w) !! Database.str user_id = Some (mkTokenEntry token (PyDatetime t)) ->
  calm w ->
  Decorators.token_gate user_id e w =
    (Ret (Decorators.Denied Decorators.TokenRequired),
     add_event (Tg (ReplyText TxtTokenRequired) true)
       (set_reads (S (w_reads w))
          (add_event (Logged (LogBadExpiry user_id))
             (add_event (DbRead "tokens" (Database.str user_id)) w)))).
Proof.
  intros Hadmin Hk Hcalm. unfold Decorators.token_gate.
  unfold mbind at 1, M_bind at 1, bind at 1, ask at 1. rewrite Hadmin.
  unfold mbind at 1, M_bind at 1, bind at 1.
  rewrite (get_user_token_data_datetime e w user_id token t Hk).
  unfold_monad. unfold now. simpl.
  rewrite tg_call_calm by exact Hcalm. reflexivity.
Qed.

Lemma shown_app (tr1 tr2 : list event) : shown (tr1 ++ tr2) = (shown tr1 ++ shown tr2)%list.
Proof.
  induction tr1 as [|ev tr1 IH]; [reflexivity|].
  simpl. destruct ev as [c ok| | | | | | | | | | | |]; try exact IH.
  destruct c, ok; simpl; rewrite ?IH; reflexivity.
Qed.

(** C3. What the token gate does for a caller who is not an administrator
    and whose stored token expires at [t], when the clock reads [now_utc]:
    up to and including [now_utc = t] it admits; after [t] it raises
    [NameError] (the module does not import [humanize]) before any reply
    is sent, so that no [TokenExpired] denial is produced. *)
Theorem token_gate_outcomes (e : Env) (w : World) (user_id : Z) (token : string) (t : Z) :
  Decorators.is_admin e user_id = false ->
  tokens (w_db w) !! Database.str user_id = Some (mkTokenEntry token (PyIsoStr t)) ->
  let now_utc := clock e (w_reads w) in
  let r := Decorators.token_gate user_id e w in
  (now_utc <= t -> fst r = Ret Decorators.Allowed)
  /\ (t < now_utc ->
      fst r = Exn (NameError "humanize")
      /\ shown (w_trace (snd r)) = shown (w_trace w)).
Proof.
  intros Hadmin Hk now_utc r. subst r now_utc.
  rewrite (token_gate_iso e w user_id token t Hadmin Hk). cbv zeta.
  split.
  - intros Hle. destruct (Z.gtb_spec (clock e (w_reads w)) t); [lia | reflexivity].
  - intros Hlt. destruct (Z.gtb_spec (clock e (w_reads w)) t); [| lia].
    split; [reflexivity |]. simpl.
    rewrite !shown_app. simpl. rewrite !app_nil_r. reflexivity.
Qed.

(** The token of caller 42 expires exactly at the first clock reading of
    [sample_env] in the first world and one microsecond earlier in the
    second. *)
Lemma token_gate_outcomes_witness :
  fst (Decorators.token_gate 42 offline_env (world_of (db_with_token 1000000000)))
    = Ret Decorators.Allowed
  /\ fst (Decorators.token_gate 42 offline_env (world_of (db_with_token 999999999)))
    = Exn (NameError "humanize").
Proof.
  split.
  - apply (token_gate_outcomes (offline_env)
             (world_of (db_with_token 1000000000)) 42 "7c9e6679" 1000000000).
    + vm_compute. reflexivity.
    + vm_compute. reflexivity.
    + vm_compute. discriminate.
  - apply (token_gate_outcomes (offline_env)
             (world_of (db_with_token 999999999)) 42 "7c9e6679" 999999999).
    + vm_compute. reflexivity.
    + vm_compute. reflexivity.
    + vm_compute. reflexivity.
Defined.

(** ** The membership gate *)

Lemma fsub_gate_lookup_raises (e : Env) (w : World) (upd : Decorators.update)
    (user_id : Z) (x : exn) (q : list (option exn)) :
  Decorators.is_admin e user_id = false ->
  FSUB_ID (cfg e) <> 0 ->
  is_UserNotParticipant x = false ->
  w_tg w = Some x :: q ->
  fst (Decorators.fsub_gate upd user_id e w) = Exn x.
Proof.
  intros Hadmin Hfsub Hx Htg. unfold Decorators.fsub_gate.
  unfold_monad. rewrite Hadmin.
  destruct (Z.eqb_spec (FSUB_ID (cfg e)) 0) as [Heq|_]; [contradiction|].
  rewrite (tg_call_raises _ e w x q Htg). rewrite Hx. reflexivity.
Qed.

Lemma join_prompt_get_chat_raises (e : Env) (w : World) (upd : Decorators.update)
    (chat_id : Z) (x : exn) (q : list (option exn)) :
  w_tg w = Some x :: q ->
  Decorators.join_prompt upd chat_id e w
  = (Exn x, add_event (Tg (GetChat chat_id) false) (set_tg q w)).
Proof.
  intros Htg. unfold Decorators.join_prompt. unfold_monad.
  rewrite (tg_call_raises _ e w x q Htg). reflexivity.
Qed.

Lemma fsub_gate_flood_in_prompt (e : Env) (w : World) (upd : Decorators.update)
    (user_id value : Z) (q : list (option exn)) :
  Decorators.is_admin e user_id = false ->
  FSUB_ID (cfg e) <> 0 ->
  w_tg w = Some UserNotParticipant :: Some (FloodWait value) :: q ->
  fst (Decorators.fsub_gate upd user_id e w) = Exn (NameError "asyncio").
Proof.
  intros Hadmin Hfsub Htg. unfold Decorators.fsub_gate.
  unfold_monad. rewrite Hadmin.
  destruct (Z.eqb_spec (FSUB_ID (cfg e)) 0) as [Heq|_]; [contradiction|].
  rewrite (tg_call_raises _ e w UserNotParticipant _ Htg).
  cbn [is_UserNotParticipant].
  unfold Decorators.not_participant, try_except.
  erewrite join_prompt_get_chat_raises by reflexivity.
  reflexivity.
Qed.

(** C9. Two denial paths end in an exception instead of a denial. For a
    caller who is not an administrator: (1) an expired token makes the
    token gate raise [NameError] ([humanize] is not imported); (2) a flood
    wait signalled by the membership lookup itself is caught by no
    [except] clause and leaves the membership gate as it is; (3) a flood
    wait signalled while the join prompt is prepared reaches the
    [except FloodWait] clause, whose [asyncio.sleep] raises [NameError]
    ([asyncio] is not imported). *)
Theorem denial_paths_raise (e : Env) (w : World) (upd : Decorators.update) (user_id : Z) :
  Decorators.is_admin e user_id = false ->
  (forall token t,
      tokens (w_db w) !! Database.str user_id = Some (mkTokenEntry token (PyIsoStr t)) ->
      t < clock e (w_reads w) ->
      fst (Decorators.token_gate user_id e w) = Exn (NameError "humanize"))
  /\ (forall value q,
      FSUB_ID (cfg e) <> 0 ->
      w_tg w = Some (FloodWait value) :: q ->
      fst (Decorators.fsub_gate upd user_id e w) = Exn (FloodWait value))
  /\ (forall value q,
      FSUB_ID (cfg e) <> 0 ->
      w_tg w = Some UserNotParticipant :: Some (FloodWait value) :: q ->
      fst (Decorators.fsub_gate upd user_id e w) = Exn (NameError "asyncio")).
Proof.
  intros Hadmin. split; [| split].
  - intros token t Hk Hlt.
    rewrite (token_gate_iso e w user_id token t Hadmin Hk). cbv zeta.
    destruct (Z.gtb_spec (clock e (w_reads w)) t); [reflexivity | lia].
  - intros value q Hfsub Htg.
    apply (fsub_gate_lookup_raises e w upd user_id (FloodWait value) q); auto.
  - intros value q Hfsub Htg.
    apply (fsub_gate_flood_in_prompt e w upd user_id value q); auto.
Qed.

Lemma denial_paths_raise_witness :
  fst (Decorators.token_gate 42 offline_env (world_of (db_with_token 999999999)))
    = Exn (NameError "humanize")
  /\ fst (Decorators.fsub_gate Decorators.IsMessage 42 offline_env
            (with_script [Some (FloodWait 5)] token_world))
    = Exn (FloodWait 5)
  /\ fst (Decorators.fsub_gate Decorators.IsMessage 42 offline_env
            (with_script [Some UserNotParticipant; Some (FloodWait 5)] token_world))
    = Exn (NameError "asyncio").
Proof.
  pose (e := offline_env).
  assert (Hadmin : Decorators.is_admin e 42 = false) by (vm_compute; reflexivity).
  split; [| split].
  - destruct (denial_paths_raise e (world_of (db_with_token 999999999))
                Decorators.IsMessage 42 Hadmin) as (Hexpired & _ & _).
    apply (Hexpired "7c9e6679" 999999999).
    + vm_compute. reflexivity.
    + vm_compute. reflexivity.
  - destruct (denial_paths_raise e
                (with_script [Some (FloodWait 5)] token_world)
                Decorators.IsMessage 42 Hadmin) as (_ & Hlookup & _).
    apply (Hlookup 5 []).
    + vm_compute. discriminate.
    + reflexivity.
  - destruct (denial_paths_raise e
                (with_script [Some UserNotParticipant; Some (FloodWait 5)]
                   token_world)
                Decorators.IsMessage 42 Hadmin) as (_ & _ & Hprompt).
    apply (Hprompt 5 []).
    + vm_compute. discriminate.
    + reflexivity.
Defined.

(** ** The resolver *)

Lemma format_bytes_nonzero (n : Z) (e : Env) (w : World) :
  n <> 0 -> Terabox._format_bytes n e w = (Exn (NameError "math"), w).
Proof.
  intros Hn. unfold Terabox._format_bytes.
  destruct (Z.eqb_spec n 0) as [Heq|_]; [contradiction|].
  reflexivity.
Qed.

Lemma extract_filesize_numeric (content : string) (size_match : Re.match_obj) (n : Z)
    (e : Env) (w : World) :
  Re.search Terabox.SIZE_RE content = Some size_match ->
  Json.int_of_str (Re.group 1 size_match) = inr n ->
  n <> 0 ->
  Terabox._extract_filesize_str content e w = (Exn (NameError "math"), w).
Proof.
  intros Hsize Hint Hn. unfold Terabox._extract_filesize_str.
  rewrite Hsize. unfold_monad. rewrite Hint. unfold_monad.
  rewrite (format_bytes_nonzero n e w Hn). reflexivity.
Qed.

Lemma extract_filename_returns (content url : string) (e : Env) (w : World) :
  exists filename, Terabox._extract_filename content url e w = (Ret filename, w).
Proof.
  unfold Terabox._extract_filename.
  destruct (Re.search Terabox.SERVER_FILENAME_RE content); [eexists; reflexivity|].
  destruct (Terabox.name_from_title content); [eexists; reflexivity|].
  destruct (Terabox.name_from_url url); eexists; reflexivity.
Qed.

Lemma pattern_strategy_numeric (content url : string)
    (link_match size_match : Re.match_obj) (n : Z) (e : Env) (w : World) :
  Re.search Terabox.DLINK_RE content = Some link_match ->
  Re.search Terabox.SIZE_RE content = Some size_match ->
  Json.int_of_str (Re.group 1 size_match) = inr n ->
  n <> 0 ->
  Terabox.pattern_strategy content url e w = (Exn (NameError "math"), w).
Proof.
  intros Hlink Hsize Hint Hn. unfold Terabox.pattern_strategy.
  rewrite Hlink.
  destruct (extract_filename_returns content url e w) as [filename Hname].
  unfold mbind at 1, M_bind at 1, bind at 1. rewrite Hname.
  unfold mbind at 1, M_bind at 1, bind at 1.
  rewrite (extract_filesize_numeric content size_match n e w Hsize Hint Hn).
  reflexivity.
Qed.

(** C7. A page on which strategy 1 finds a link and which carries a numeric
    size other than zero aborts the whole resolution: [_format_bytes]
    raises [NameError] ([math] is not imported), nothing in strategy 1
    catches it, and the outer [except Exception] returns
    [(None, None, None)] without strategy 2 or 3 being tried. *)
Theorem numeric_size_aborts_resolution (e : Env) (w : World) (url content : string)
    (status_code : Z) (link_match size_match : Re.match_obj) (n : Z) :
  http e url = HttpResponse status_code content ->
  200 <= status_code <= 299 ->
  Re.search Terabox.DLINK_RE content = Some link_match ->
  Re.search Terabox.SIZE_RE content = Some size_match ->
  Json.int_of_str (Re.group 1 size_match) = inr n ->
  n <> 0 ->
  Terabox.get_terabox_download_link url e w
  = (Ret Terabox.nothing,
     add_event (Logged (LogResolveUnexpected (NameError "math")))
       (add_event (HttpGet url) w)).
Proof.
  intros Hhttp Hstatus Hlink Hsize Hint Hn.
  unfold Terabox.get_terabox_download_link, Terabox.strategies, try_except.
  unfold mbind at 1, M_bind at 1, bind at 1.
  assert (Hget : Terabox.http_get url e w = (Ret content, add_event (HttpGet url) w)).
  { unfold Terabox.http_get. unfold_monad. rewrite Hhttp.
    destruct (Z.leb_spec 200 status_code); [| lia].
    destruct (Z.leb_spec status_code 299); [| lia]. reflexivity. }
  rewrite Hget.
  unfold mbind at 1, M_bind at 1, bind at 1.
  rewrite (pattern_strategy_numeric content url link_match size_match n e _
             Hlink Hsize Hint Hn).
  reflexivity.
Qed.

Lemma numeric_size_aborts_resolution_witness :
  Terabox.get_terabox_download_link "https://terabox.com/s/1abcDEF_x"
    (sample_env (HttpResponse 200 page_with_size) no_download) token_world
  = (Ret Terabox.nothing,
     add_event (Logged (LogResolveUnexpected (NameError "math")))
       (add_event (HttpGet "https://terabox.com/s/1abcDEF_x") token_world)).
Proof.
  apply (numeric_size_aborts_resolution
           (sample_env (HttpResponse 200 page_with_size) no_download) token_world
           "https://terabox.com/s/1abcDEF_x" page_with_size 200
           (Re.mkMatch "'dlink': 'https://d.terabox.com/f.mp4'"
                       [(1%nat, "https://d.terabox.com/f.mp4")])
           (Re.mkMatch "'size': 1000" [(1%nat, "1000")])
           1000).
  - reflexivity.
  - lia.
  - vm_compute. reflexivity.
  - vm_compute. reflexivity.
  - vm_compute. reflexivity.
  - lia.
Defined.

Lemma resolution_without_size_succeeds :
  fst (Terabox.get_terabox_download_link "https://terabox.com/s/1abcDEF_x"
         (sample_env (HttpResponse 200 page_without_size) no_download) token_world)
  = Ret (JStr "https://d.terabox.com/f.mp4", JStr "clip.mp4", JStr "Unknown").
Proof. vm_compute. reflexivity. Qed.

Lemma http_get_status (e : Env) (w : World) (url body : string) (status_code : Z) :
  http e url = HttpResponse status_code body ->
  Terabox.http_get url e w
  = (if (200 <=? status_code) && (status_code <=? 299)
     then Ret body else Exn (HTTPStatusError status_code),
     add_event (HttpGet url) w).
Proof.
  intros Hhttp. unfold Terabox.http_get. unfold_monad. rewrite Hhttp.
  destruct ((200 <=? status_code) && (status_code <=? 299)); reflexivity.
Qed.

Lemma http_get_fails (e : Env) (w : World) (url : string) (x : exn) :
  http e url = HttpFails x ->
  Terabox.http_get url e w = (Exn x, add_event (HttpGet url) w).
Proof.
  intros Hhttp. unfold Terabox.http_get. unfold_monad. rewrite Hhttp. reflexivity.
Qed.

(** C8, as the code has it. The resolver returns the same value,
    [(None, None, None)], whatever made it fail; the cause shows in the
    log only: a status outside 2xx logs the status, and 401 or 403 adds
    the line about the cookie; a request error logs a network error; when
    every strategy falls through, the last line logged says that all
    methods failed. *)
Theorem resolution_failures_share_one_result (e : Env) (w : World) (url : string) :
  (forall status_code body,
      http e url = HttpResponse status_code body ->
      ~ (200 <= status_code <= 299) ->
      Terabox.get_terabox_download_link url e w
      = (Ret Terabox.nothing,
         let w1 := add_event (Logged (LogPageHttpStatus status_code))
                     (add_event (HttpGet url) w) in
         if bool_decide (status_code ∈ [401; 403])
         then add_event (Logged LogCookieInvalid) w1 else w1))
  /\ (http e url = HttpFails RequestError ->
      Terabox.get_terabox_download_link url e w
      = (Ret Terabox.nothing,
         add_event (Logged LogPageNetworkError) (add_event (HttpGet url) w)))
  /\ (forall status_code content w2 w3 w4,
      http e url = HttpResponse status_code content ->
      200 <= status_code <= 299 ->
      Terabox.pattern_strategy content url e (add_event (HttpGet url) w) = (Ret None, w2) ->
      Terabox.js_object_strategy content e w2 = (Ret None, w3) ->
      Terabox.api_strategy
        (match Re.search Terabox.INITIAL_STATE_RE content with
         | Some _ => true | None => false end) content url e w3 = (Ret None, w4) ->
      Terabox.get_terabox_download_link url e w
      = (Ret Terabox.nothing, add_event (Logged LogAllMethodsFailed) w4)).
Proof.
  split; [| split].
  - intros status_code body Hhttp Hstatus.
    unfold Terabox.get_terabox_download_link, Terabox.strategies, try_except.
    unfold mbind at 1, M_bind at 1, bind at 1.
    rewrite (http_get_status e w url body status_code Hhttp).
    destruct (Z.leb_spec 200 status_code); destruct (Z.leb_spec status_code 299);
      simpl; try lia;
      unfold_monad; destruct (bool_decide (status_code ∈ [401; 403])); reflexivity.
  - intros Hhttp.
    unfold Terabox.get_terabox_download_link, Terabox.strategies, try_except.
    unfold mbind at 1, M_bind at 1, bind at 1.
    rewrite (http_get_fails e w url RequestError Hhttp). reflexivity.
  - intros status_code content w2 w3 w4 Hhttp Hstatus H1 H2 H3.
    unfold Terabox.get_terabox_download_link, Terabox.strategies, try_except.
    unfold mbind at 1, M_bind at 1, bind at 1.
    rewrite (http_get_status e w url content status_code Hhttp).
    destruct (Z.leb_spec 200 status_code); [| lia].
    destruct (Z.leb_spec status_code 299); [| lia]. simpl.
    unfold mbind at 1, M_bind at 1, bind at 1. rewrite H1.
    unfold mbind at 1, M_bind at 1, bind at 1. rewrite H2.
    unfold mbind at 1, M_bind at 1, bind at 1. rewrite H3.
    reflexivity.
Qed.

Lemma resolution_failures_share_one_result_witness :
  Terabox.get_terabox_download_link "https://terabox.com/s/1abcDEF_x"
    (sample_env (HttpResponse 403 "Forbidden") no_download) token_world
  = (Ret Terabox.nothing,
     add_event (Logged LogCookieInvalid)
       (add_event (Logged (LogPageHttpStatus 403))
          (add_event (HttpGet "https://terabox.com/s/1abcDEF_x") token_world)))
  /\ Terabox.get_terabox_download_link "https://terabox.com/s/1abcDEF_x"
       offline_env token_world
     = (Ret Terabox.nothing,
        add_event (Logged LogPageNetworkError)
          (add_event (HttpGet "https://terabox.com/s/1abcDEF_x") token_world))
  /\ Terabox.get_terabox_download_link "https://terabox.com/s/1abcDEF_x"
       (sample_env (HttpResponse 200 "<html>gone</html>") no_download) token_world
     = (Ret Terabox.nothing,
        add_event (Logged LogAllMethodsFailed)
          (add_event (HttpGet "https://terabox.com/s/1abcDEF_x") token_world)).
Proof.
  split; [| split].
  - destruct (resolution_failures_share_one_result
                (sample_env (HttpResponse 403 "Forbidden") no_download) token_world
                "https://terabox.com/s/1abcDEF_x") as (Hstatus & _ & _).
    apply (Hstatus 403 "Forbidden").
    + reflexivity.
    + lia.
  - destruct (resolution_failures_share_one_result offline_env token_world
                "https://terabox.com/s/1abcDEF_x") as (_ & Hnet & _).
    apply Hnet. reflexivity.
  - destruct (resolution_failures_share_one_result
                (sample_env (HttpResponse 200 "<html>gone</html>") no_download) token_world
                "https://terabox.com/s/1abcDEF_x") as (_ & _ & Hnone).
    apply (Hnone 200 "<html>gone</html>"
             (add_event (HttpGet "https://terabox.com/s/1abcDEF_x") token_world)
             (add_event (HttpGet "https://terabox.com/s/1abcDEF_x") token_world)).
    + reflexivity.
    + lia.
    + vm_compute. reflexivity.
    + vm_compute. reflexivity.
    + vm_compute. reflexivity.
Defined.

(** C8 as stated does not hold: an expired credential (403), a network
    failure and a page on which no strategy finds a link give the caller
    of the resolver the same result. *)
Lemma resolution_errors_not_distinct :
  fst (Terabox.get_terabox_download_link "https://terabox.com/s/1abcDEF_x"
         (sample_env (HttpResponse 403 "Forbidden") no_download) token_world)
  = fst (Terabox.get_terabox_download_link "https://terabox.com/s/1abcDEF_x"
           offline_env token_world)
  /\ fst (Terabox.get_terabox_download_link "https://terabox.com/s/1abcDEF_x"
            offline_env token_world)
     = fst (Terabox.get_terabox_download_link "https://terabox.com/s/1abcDEF_x"
              (sample_env (HttpResponse 200 "<html>gone</html>") no_download) token_world).
Proof. split; vm_compute; reflexivity. Qed.

(** ** Lock discipline of the store *)

(** C4 as stated does not hold: [get_last_spam_time] reads the document
    without ever taking the lock. *)
Lemma query_runs_outside_lock :
  Discipline.all_under_lock false
    (w_trace (snd (Discipline.run_op (Discipline.GetLastSpamTime 42)
                     offline_env token_world)))
  = false
  /\ Discipline.takes_lock
       (w_trace (snd (Discipline.run_op (Discipline.GetLastSpamTime 42)
                        offline_env token_world)))
     = false.
Proof. split; vm_compute; reflexivity. Qed.

Ltac trace_split :=
  do 2 eexists; split; [reflexivity |];
  split; [cbn [w_trace add_event set_db set_lock set_file set_reads];
          rewrite <- ?app_assoc; reflexivity |];
  split; [reflexivity |];
  split; [first [reflexivity | assumption] |].

Lemma load_db_takes_lock (e : Env) (w : World) :
  w_lock w = false ->
  exists rest,
    w_trace (snd (Startup.load_db e w)) = (w_trace w ++ LockAcquired :: rest)%list.
Proof.
  intros Hfree. unfold Startup.load_db, Database.acquire_db_lock, Database.release_db_lock,
    Database.save_db, Database.acquire_db_lock.
  unfold_monad. rewrite Hfree. cbn [w_file add_event set_lock].
  destruct (w_file w) as [| d |]; cbn [w_lock w_trace set_db add_event set_lock snd];
    rewrite <- ?app_assoc; eexists; reflexivity.
Qed.

(** C4, as the code has it. From a state in which the lock is free, every
    store operation returns and leaves the lock free; the file is written
    only while the lock is held; the document in memory is read and
    assigned only while it is not. A mutating operation (a new caller,
    a token, a throttle mark) has its change in the document when it
    returns, and it has assigned in memory first and saved afterwards:
    after the assignment the lock is taken once, the document dumped and
    the lock released, and the file holds the document as it is after the
    operation (or is unparsable when that document cannot be dumped). A
    query, and [add_user] for a caller already known, never takes the
    lock and leaves the file alone. Besides [save_db] only the start-up
    [load_db] takes the lock. *)
Theorem store_lock_discipline (op : Discipline.store_op) (e : Env) (w : World) :
  w_lock w = false ->
  exists (evs : list event) (w' : World),
    Discipline.run_op op e w = (Ret tt, w')
    /\ w_trace w' = (w_trace w ++ evs)%list
    /\ Discipline.file_io_under_lock false evs = true
    /\ w_lock w' = false
    /\ match op with
       | Discipline.AddUser u =>
           u ∈ users (w_db w')
           /\ (u ∉ users (w_db w) -> Discipline.saved evs w')
           /\ (u ∈ users (w_db w) ->
               Discipline.takes_lock evs = false /\ w_file w' = w_file w)
       | Discipline.StoreToken u token expires_at =>
           tokens (w_db w') !! Database.str u
           = Some (mkTokenEntry token (PyIsoStr expires_at))
           /\ Discipline.saved evs w'
       | Discipline.UpdateSpamTime u =>
           spam_tracker (w_db w') !! Database.str u
           = Some (PyIsoStr (clock e (w_reads w)))
           /\ Discipline.saved evs w'
       | Discipline.GetAllUsers
       | Discipline.GetUserTokenData _
       | Discipline.GetLastSpamTime _ =>
           Discipline.takes_lock evs = false /\ w_file w' = w_file w
       end
    /\ exists rest,
         w_trace (snd (Startup.load_db e w)) = (w_trace w ++ LockAcquired :: rest)%list.
Proof.
  intros Hfree. pose proof (load_db_takes_lock e w Hfree) as Hload.
  destruct op as [u| |u token x|u|u|u]; unfold Discipline.run_op.
  - unfold Database.add_user. unfold_monad. cbn [w_db add_event].
    destruct (bool_decide (u ∈ users (w_db w))) eqn:Hknown; cbn beta iota.
    + apply bool_decide_eq_true_1 in Hknown. trace_split.
      split; [| exact Hload]. cbn [w_db w_file add_event].
      split; [exact Hknown|]. split; [intros Hnew; contradiction|].
      intros _. split; reflexivity.
    + apply bool_decide_eq_false_1 in Hknown.
      rewrite save_db_free by exact Hfree.
      cbn [w_db add_event set_db].
      destruct (Database.dumpable _) eqn:Hdump; trace_split;
        (split; [| exact Hload]);
        cbn [w_db w_file add_event set_db set_lock set_file users];
        (split; [apply elem_of_app; right; apply list_elem_of_singleton; reflexivity|]);
        (split; [| intros Hold; contradiction]);
        intros _; (split; [reflexivity|]);
        cbn [w_db w_file add_event set_db set_lock set_file]; rewrite Hdump; reflexivity.
  - unfold Database.get_all_users. unfold_monad. trace_split.
    split; [| exact Hload]. split; reflexivity.
  - unfold Database.store_token. unfold_monad.
    rewrite save_db_free by exact Hfree.
    cbn [w_db add_event set_db].
    destruct (Database.dumpable _) eqn:Hdump; trace_split;
      (split; [| exact Hload]);
      cbn [w_db w_file add_event set_db set_lock set_file tokens];
      (split; [apply lookup_insert_eq|]);
      (split; [reflexivity|]);
      cbn [w_db w_file add_event set_db set_lock set_file]; rewrite Hdump; reflexivity.
  - unfold Database.get_user_token_data. unfold_monad. cbn [w_db add_event].
    destruct (tokens (w_db w) !! Database.str u) as [token_data|];
      [destruct (fromisoformat (te_expires token_data))|];
      trace_split; (split; [| exact Hload]); split; reflexivity.
  - unfold Database.update_spam_time, Database.touch_spam_time, now. unfold_monad.
    rewrite save_db_free by exact Hfree.
    cbn [w_db add_event set_db set_reads].
    destruct (Database.dumpable _) eqn:Hdump; trace_split;
      (split; [| exact Hload]);
      cbn [w_db w_file w_reads add_event set_db set_lock set_file set_reads spam_tracker];
      (split; [apply lookup_insert_eq|]);
      (split; [reflexivity|]);
      cbn [w_db w_file add_event set_db set_lock set_file set_reads]; rewrite Hdump;
      reflexivity.
  - unfold Database.get_last_spam_time. unfold_monad. cbn [w_db add_event].
    destruct (spam_tracker (w_db w) !! Database.str u) as [v|];
      [destruct (truthy v); [destruct (fromisoformat v)|]|];
      trace_split; (split; [| exact Hload]); split; reflexivity.
Qed.

Lemma store_lock_discipline_witness :
  exists (evs : list event) (w' : World),
    Discipline.run_op (Discipline.UpdateSpamTime 42) offline_env token_world = (Ret tt, w')
    /\ w_trace w' = (w_trace token_world ++ evs)%list
    /\ Discipline.file_io_under_lock false evs = true
    /\ w_lock w' = false
    /\ (spam_tracker (w_db w') !! Database.str 42
        = Some (PyIsoStr (clock offline_env (w_reads token_world)))
        /\ Discipline.saved evs w')
    /\ exists rest,
         w_trace (snd (Startup.load_db offline_env token_world))
         = (w_trace token_world ++ LockAcquired :: rest)%list.
Proof.
  apply (store_lock_discipline (Discipline.UpdateSpamTime 42) offline_env token_world).
  reflexivity.
Defined.

(** ** The transfer pipeline *)


Lemma remove_if_exists_spec (path : string) (e : Env) (w : World) :
  remove_permitted e = true ->
  exists w',
    Handlers.remove_if_exists path (log LogRemovedIncomplete) e w = (Ret tt, w')
    /\ w_fs w' = delete path (w_fs w)
    /\ w_tg w' = w_tg w
    /\ shown (w_trace w') = shown (w_trace w)
    /\ (exists evs, w_trace w' = (w_trace w ++ evs)%list /\ existsb wrote_file evs = false).
Proof.
  intros Hrm. unfold Handlers.remove_if_exists. unfold_monad. rewrite Hrm.
  destruct (w_fs w !! path) as [n|] eqn:Hp.
  - eexists. split; [reflexivity|]. cbn [w_fs w_tg w_trace add_event set_fs].
    repeat split.
    + rewrite !shown_app. cbn. rewrite !app_nil_r. reflexivity.
    + exists [FsRemove path true; Logged LogRemovedIncomplete].
      rewrite <- app_assoc. split; reflexivity.
  - eexists. split; [reflexivity|].
    repeat split.
    + symmetry. apply delete_id. exact Hp.
    + exists []. rewrite app_nil_r. split; reflexivity.
Qed.






(** *** Computations that leave the files on disk alone *)

Definition keeps_fs {A} (m : M A) : Prop :=
  forall e w, w_fs (snd (m e w)) = w_fs w.

Lemma keeps_fs_ret {A} (a : A) : keeps_fs (mret a).
Proof. intros e w. reflexivity. Qed.

Lemma keeps_fs_raise {A} (x : exn) : keeps_fs (@raise A x).
Proof. intros e w. reflexivity. Qed.

Lemma keeps_fs_bind {A B} (m : M A) (k : A -> M B) :
  keeps_fs m -> (forall a, keeps_fs (k a)) -> keeps_fs (m ≫= k).
Proof.
  intros Hm Hk e w. unfold mbind, M_bind, bind.
  specialize (Hm e w). destruct (m e w) as [[a|x|] w1]; simpl in *.
  - rewrite Hk. exact Hm.
  - exact Hm.
  - exact Hm.
Qed.

Lemma keeps_fs_try_except {A} (body : M A) (handler : exn -> option (M A)) :
  keeps_fs body ->
  (forall x h, handler x = Some h -> keeps_fs h) ->
  keeps_fs (try_except body handler).
Proof.
  intros Hb Hh e w. unfold try_except.
  specialize (Hb e w). destruct (body e w) as [[a|x|] w1]; simpl in *; try exact Hb.
  destruct (handler x) as [h|] eqn:Hx; simpl; [| exact Hb].
  rewrite (Hh x h Hx). exact Hb.
Qed.

Lemma keeps_fs_tg_call (c : call) : keeps_fs (tg_call c).
Proof.
  intros e w. unfold tg_call. destruct (w_tg w) as [|[x|] q]; reflexivity.
Qed.

Lemma keeps_fs_now : keeps_fs now.
Proof. intros e w. reflexivity. Qed.

Lemma keeps_fs_ask : keeps_fs ask.
Proof. intros e w. reflexivity. Qed.

Lemma keeps_fs_get : keeps_fs get.
Proof. intros e w. reflexivity. Qed.

Lemma keeps_fs_emit (ev : event) : keeps_fs (emit ev).
Proof. intros e w. reflexivity. Qed.

Lemma keeps_fs_log (l : logline) : keeps_fs (log l).
Proof. intros e w. reflexivity. Qed.

Lemma keeps_fs_set_last_update (t : option Z) : keeps_fs (modify (set_last_update t)).
Proof. intros e w. reflexivity. Qed.

Lemma keeps_fs_global_name (names : list string) (name : string) :
  keeps_fs (global_name names name).
Proof.
  intros e w. unfold global_name. destruct (bool_decide (name ∈ names)); reflexivity.
Qed.

Lemma keeps_fs_asyncio_sleep (names : list string) (secs : Z) :
  keeps_fs (asyncio_sleep names secs).
Proof.
  unfold asyncio_sleep. apply keeps_fs_bind; [apply keeps_fs_global_name|].
  intros _. apply keeps_fs_emit.
Qed.

Ltac keeps_fs_step :=
  first
    [ apply keeps_fs_ret | apply keeps_fs_raise | apply keeps_fs_tg_call
    | apply keeps_fs_now | apply keeps_fs_ask | apply keeps_fs_get
    | apply keeps_fs_emit | apply keeps_fs_log | apply keeps_fs_set_last_update
    | apply keeps_fs_asyncio_sleep | apply keeps_fs_global_name
    | apply keeps_fs_bind | apply keeps_fs_try_except
    | match goal with
      | |- keeps_fs (if ?b then _ else _) => destruct b
      | |- keeps_fs (match ?x with _ => _ end) => destruct x
      | |- forall _, _ => intros
      | H : Some _ = Some _ |- _ => injection H as <-
      | H : None = Some _ |- _ => discriminate H
      | H : (if ?b then _ else _) = Some _ |- _ => destruct b
      | H : match ?x with _ => _ end = Some _ |- _ => destruct x
      end ].

Ltac keeps_fs_auto := repeat keeps_fs_step.

Lemma keeps_fs_progress_callback (current total : Z) (status : string) :
  keeps_fs (Helpers.progress_callback current total status).
Proof. unfold Helpers.progress_callback. keeps_fs_auto. Qed.

Lemma keeps_fs_edit_text (t : text) : keeps_fs (Handlers.edit_text t).
Proof. apply keeps_fs_tg_call. Qed.

Lemma keeps_fs_send_then_delete (path filename : string) (uploaded : bool)
    (between : M unit) (h : bool -> exn -> option (M bool)) :
  keeps_fs between ->
  (forall b x k, h b x = Some k -> keeps_fs k) ->
  keeps_fs (Handlers.send_then_delete path filename uploaded between h).
Proof.
  intros Hb Hh. unfold Handlers.send_then_delete.
  apply keeps_fs_bind.
  - apply keeps_fs_try_except; [keeps_fs_auto|].
    intros x k Hk. destruct (h uploaded x) as [k0|] eqn:Hx; [| discriminate].
    injection Hk as <-. apply keeps_fs_bind; [exact (Hh _ _ _ Hx)|]. keeps_fs_auto.
  - intros [b|]; [keeps_fs_auto|].
    apply keeps_fs_try_except.
    + apply keeps_fs_bind; [exact Hb|]. keeps_fs_auto.
    + intros x k Hk. exact (Hh _ _ _ Hk).
Qed.

Lemma keeps_fs_retry_upload (path filename : string) (uploaded : bool) :
  keeps_fs (Handlers.retry_upload path filename uploaded).
Proof.
  unfold Handlers.retry_upload. apply keeps_fs_send_then_delete; [keeps_fs_auto|].
  intros b x k Hk. injection Hk as <-.
  unfold Handlers.edit_text. keeps_fs_auto.
Qed.

Lemma keeps_fs_upload_phase (path filename : string) (n : Z) :
  keeps_fs (Handlers.upload_phase path filename n).
Proof.
  unfold Handlers.upload_phase, Handlers.edit_text.
  apply keeps_fs_bind; [keeps_fs_auto|]. intros _.
  apply keeps_fs_bind; [keeps_fs_auto|]. intros _.
  apply keeps_fs_send_then_delete; [keeps_fs_auto|].
  intros b x k Hk. unfold Handlers.upload_failed in Hk.
  destruct x; try (destruct (is_RPCError _)); injection Hk as <-;
    unfold Handlers.edit_text;
    repeat first [ apply keeps_fs_retry_upload | keeps_fs_step ].
Qed.

Lemma write_chunks_keeps_file (path : string) (total : Z) (chunks : list Z) :
  forall (current : Z) (e : Env) (w : World),
    is_Some (w_fs w !! path) ->
    is_Some (w_fs (snd (Handlers.write_chunks path total chunks current e w)) !! path).
Proof.
  induction chunks as [|chunk rest IH]; intros current e w Hfile; [exact Hfile|].
  cbn [Handlers.write_chunks]. unfold_monad.
  set (w1 := add_event (FsWrite path chunk)
               (set_fs (<[path := current + chunk]> (w_fs w)) w)).
  assert (Hfile1 : is_Some (w_fs w1 !! path)).
  { unfold w1. cbn [w_fs add_event set_fs]. rewrite lookup_insert_eq. eauto. }
  destruct (total >? 0).
  - pose proof (keeps_fs_progress_callback (current + chunk) total "Downloading" e w1) as Hp.
    destruct (Helpers.progress_callback _ _ _ e w1) as [[[]|x|] w2]; cbn [snd] in *;
      try (rewrite Hp; exact Hfile1).
    destruct (current + chunk >? Handlers.MAX_TG_UPLOAD_SIZE_BYTES); cbn [snd].
    + rewrite Hp. exact Hfile1.
    + apply IH. rewrite Hp. exact Hfile1.
  - destruct (current + chunk >? Handlers.MAX_TG_UPLOAD_SIZE_BYTES); cbn [snd].
    + exact Hfile1.
    + apply IH. exact Hfile1.
Qed.

Lemma stream_to_file_leaves_file (d : Download) (path filename : string) (total : Z)
    (e : Env) (w : World) :
  is_Some (w_fs (snd (Handlers.stream_to_file d path filename total e w)) !! path).
Proof.
  unfold Handlers.stream_to_file. unfold_monad.
  set (w1 := add_event (FsOpenWrite path) (set_fs (<[path := 0]> (w_fs w)) w)).
  assert (Hfile1 : is_Some (w_fs w1 !! path)).
  { unfold w1. cbn [w_fs add_event set_fs]. rewrite lookup_insert_eq. eauto. }
  pose proof (write_chunks_keeps_file path total (dl_chunks d) 0 e w1 Hfile1) as Hw.
  destruct (Handlers.write_chunks path total (dl_chunks d) 0 e w1) as [[c|x|] w2];
    cbn [snd] in *; try exact Hw.
  destruct (dl_end d) as [x|]; cbn [snd]; [exact Hw|].
  destruct (total >? 0).
  - pose proof (keeps_fs_progress_callback total total "Downloading" e w2) as Hp.
    destruct (Helpers.progress_callback _ _ _ e w2) as [[[]|x|] w3]; cbn [snd] in *;
      rewrite Hp; exact Hw.
  - unfold now, Handlers.edit_text.
    pose proof (keeps_fs_tg_call (EditText (TxtDownloadComplete filename)) e
                  (set_reads (S (w_reads w2)) w2)) as Hp.
    destruct (tg_call _ e _) as [[[]|x|] w3]; cbn [snd] in *; rewrite Hp; exact Hw.
Qed.

Lemma download_failed_returns_none (x : exn) (e : Env) (w : World) (n : Z) (w' : World) :
  Handlers.download_failed x e w <> (Ret (Some n), w').
Proof.
  unfold Handlers.download_failed, Handlers.edit_text. unfold_monad.
  destruct x; cbn [is_ValueError];
    match goal with
    | |- context [tg_call ?c e ?w0] => destruct (tg_call c e w0) as [[[]|?|] ?]
    end; discriminate.
Qed.

Lemma try_finally_returns {A} (r : res A) (w w' : World) (cleanup : M unit) (e : Env) (a : A) :
  try_finally (fun _ _ => (r, w)) cleanup e w = (Ret a, w') -> r = Ret a.
Proof.
  unfold try_finally.
  destruct r as [b|x|]; destruct (cleanup e w) as [[[]|y|] w2]; intros [= ]; congruence.
Qed.

(** A download phase that reports success leaves the file on disk. *)
Lemma download_success_leaves_file (url path filename : string) (e : Env) (w w1 : World)
    (n : Z) :
  Handlers.download_phase url path filename e w = (Ret (Some n), w1) ->
  is_Some (w_fs w1 !! path).
Proof.
  unfold Handlers.download_phase, try_except at 1.
  destruct (Handlers.download_body url path filename e w) as [[[m|]|x|] w0] eqn:Hbody.
  - cbn. intros [= <- <-].
    revert Hbody. unfold Handlers.download_body. unfold_monad.
    destruct (dl_connect (download e url)); [discriminate|].
    destruct ((200 <=? dl_status (download e url)) && (dl_status (download e url) <=? 299));
      [| discriminate].
    assert (Hstream : forall total w2 m0 w3,
      (let (r, w') := Handlers.stream_to_file (download e url) path filename total e w2 in
       match r with
       | Ret a => (Ret (Some a), w')
       | Exn x => (Exn x, w')
       | Hang => (Hang, w')
       end) = (Ret (Some m0), w3) -> is_Some (w_fs w3 !! path)).
    { intros total w2 m0 w3.
      pose proof (stream_to_file_leaves_file (download e url) path filename total e w2) as Hs.
      destruct (Handlers.stream_to_file _ _ _ _ e w2) as [[c|x|] w4]; cbn [snd] in Hs;
        intros [= ]. subst. exact Hs. }
    destruct (dl_content_length (download e url)) as [h|]; [| apply Hstream].
    destruct (Str.truthy h); [| apply Hstream].
    destruct (Json.int_of_str h) as [x|k]; [discriminate|].
    destruct (k >? Handlers.MAX_TG_UPLOAD_SIZE_BYTES); [| apply Hstream].
    unfold Handlers.edit_text.
    destruct (tg_call _ e _) as [[[]|x|] w4]; discriminate.
  - intros H. apply try_finally_returns in H. discriminate H.
  - destruct (Handlers.download_failed x e w0) as [[[m|]|y|] w2] eqn:Hf.
    + exfalso. exact (download_failed_returns_none x e w0 m w2 Hf).
    + intros H. apply try_finally_returns in H. discriminate H.
    + intros H. apply try_finally_returns in H. discriminate H.
    + intros H. apply try_finally_returns in H. discriminate H.
  - intros H. apply try_finally_returns in H. discriminate H.
Qed.

Lemma upload_status_raises (path filename : string) (n : Z) (e : Env) (w : World)
    (x : exn) (q : list (option exn)) :
  w_tg w = Some x :: q ->
  Handlers.upload_phase path filename n e w
  = (Exn x, add_event (Tg (EditText (TxtUploading filename n)) false) (set_tg q w)).
Proof.
  intros Htg. unfold Handlers.upload_phase, Handlers.edit_text.
  unfold mbind at 1, M_bind at 1, bind at 1.
  rewrite (tg_call_raises _ e w x q Htg). reflexivity.
Qed.

(** C5. The final cleanup is the last statement of the function, not a
    [finally] block: when the download has succeeded and an exception
    leaves the upload phase (raised by the "Uploading" status update, or by
    a status update inside one of its [except] clauses), the function
    raises that exception and the downloaded file is still on disk. *)
Theorem cleanup_skipped_when_upload_raises (e : Env) (w w0 w1 w2 : World) (user_id : Z)
    (download_url filename file_size_str : string) (n : Z) (x : exn) :
  Handlers.start_download filename file_size_str e w = (Ret tt, w0) ->
  Handlers.download_phase download_url (Handlers.download_path_of e user_id filename)
    filename e w0 = (Ret (Some n), w1) ->
  Handlers.upload_phase (Handlers.download_path_of e user_id filename) filename n e w1
  = (Exn x, w2) ->
  Handlers.download_and_upload user_id download_url filename file_size_str e w = (Exn x, w2)
  /\ is_Some (w_fs w2 !! Handlers.download_path_of e user_id filename).
Proof.
  intros Hstart Hdl Hup. split.
  - unfold Handlers.download_and_upload. unfold_monad.
    rewrite Hstart, Hdl, Hup. reflexivity.
  - pose proof (keeps_fs_upload_phase (Handlers.download_path_of e user_id filename)
                  filename n e w1) as Hkeep.
    rewrite Hup in Hkeep. cbn [snd] in Hkeep. rewrite Hkeep.
    exact (download_success_leaves_file _ _ _ _ _ _ _ Hdl).
Qed.

Lemma cleanup_skipped_when_upload_raises_witness :
  Handlers.download_and_upload 42 "https://d.terabox.com/f.mp4" "clip.mp4" "Unknown"
    small_env refuses_uploading_status
  = (Exn RPCError, after_upload)
  /\ is_Some (w_fs after_upload !! Handlers.download_path_of small_env 42 "clip.mp4").
Proof.
  apply (cleanup_skipped_when_upload_raises small_env refuses_uploading_status
           after_start after_download after_upload
           42 "https://d.terabox.com/f.mp4" "clip.mp4" "Unknown" 1000 RPCError).
  - vm_compute. reflexivity.
  - vm_compute. reflexivity.
  - vm_compute. reflexivity.
Defined.

(** The same when the exception comes from the status update that reports
    a failed retry after a flood wait. *)
Lemma cleanup_skipped_when_retry_report_raises :
  fst (Handlers.download_and_upload 42 "https://d.terabox.com/f.mp4" "clip.mp4" "Unknown"
         (sample_env (HttpFails RequestError) small_download) refuses_retry_report)
  = Exn RPCError
  /\ w_fs (snd (Handlers.download_and_upload 42 "https://d.terabox.com/f.mp4" "clip.mp4"
                  "Unknown" (sample_env (HttpFails RequestError) small_download)
                  refuses_retry_report))
       !! "downloads/42_clip.mp4" = Some 1000.
Proof. split; vm_compute; reflexivity. Qed.

(** ** The throttle gate under interleaving *)

Section Throttle.
Import Decorators Race.

Variable user_id : Z.
Variable e : Env.

Lemma get_last_spam_time_mark (w : World) :
  exists w',
    Database.get_last_spam_time user_id e w = (Ret (mark user_id w), w')
    /\ w_db w' = w_db w /\ w_reads w' = w_reads w
    /\ w_lock w' = w_lock w /\ w_tg w' = w_tg w.
Proof.
  unfold Database.get_last_spam_time, mark. unfold_monad. cbn [w_db add_event].
  destruct (spam_tracker (w_db w) !! Database.str user_id) as [v|];
    [| eexists; repeat split].
  destruct (truthy v); [| eexists; repeat split].
  destruct (fromisoformat v); eexists; repeat split.
Qed.

Lemma mark_insert (w : World) (d : Db) (t : Z) :
  spam_tracker d = <[Database.str user_id := PyIsoStr t]> (spam_tracker (w_db w)) ->
  mark user_id (set_db d w) = Some t.
Proof.
  intros Hd. unfold mark. cbn [w_db set_db]. rewrite Hd, lookup_insert_eq. reflexivity.
Qed.

(** The check segment: it refuses and leaves the document alone, or it
    assigns the next clock reading as the new mark. *)
Lemma check_segment_spec (w : World) :
  exists w',
    w_lock w' = w_lock w /\ w_tg w' = w_tg w
    /\ match too_early e (mark user_id w) (clock e (w_reads w)) with
       | Some wait_seconds =>
           check_segment user_id e w = (Ret (Some wait_seconds), w')
           /\ mark user_id w' = mark user_id w
           /\ w_reads w' = S (w_reads w)
       | None =>
           check_segment user_id e w = (Ret None, w')
           /\ mark user_id w' = Some (clock e (S (w_reads w)))
           /\ w_reads w' = S (S (w_reads w))
       end.
Proof.
  destruct (get_last_spam_time_mark w) as (w1 & Hget & Hdb & Hreads & Hlock & Htg).
  unfold check_segment. unfold_monad. unfold now. rewrite Hget.
  cbn [w_reads set_reads]. rewrite Hreads.
  destruct (too_early e (mark user_id w) (clock e (w_reads w))) as [ws|].
  - eexists. split; [| split; [| split; [reflexivity | split]]].
    + exact Hlock.
    + exact Htg.
    + unfold mark. cbn [w_db set_reads]. rewrite Hdb. reflexivity.
    + reflexivity.
  - unfold Database.touch_spam_time, now. unfold_monad.
    eexists. split; [| split; [| split; [reflexivity | split]]].
    + exact Hlock.
    + exact Htg.
    + unfold mark. cbn [w_db set_db add_event spam_tracker w_reads set_reads].
      rewrite lookup_insert_eq. reflexivity.
    + reflexivity.
Qed.

Lemma turn_check (w : World) :
  exists w',
    w_lock w' = w_lock w /\ w_tg w' = w_tg w
    /\ match too_early e (mark user_id w) (clock e (w_reads w)) with
       | Some wait_seconds =>
           turn user_id e AtCheck w = (AtReply wait_seconds, w')
           /\ mark user_id w' = mark user_id w
           /\ w_reads w' = S (w_reads w)
       | None =>
           turn user_id e AtCheck w = (AtLock, w')
           /\ mark user_id w' = Some (clock e (S (w_reads w)))
           /\ w_reads w' = S (S (w_reads w))
       end.
Proof.
  destruct (check_segment_spec w) as (w' & Hlock & Htg & Hspec).
  exists w'. split; [exact Hlock|]. split; [exact Htg|].
  unfold turn, segment. unfold mbind, M_bind, bind.
  destruct (too_early e (mark user_id w) (clock e (w_reads w))) as [ws|];
    destruct Hspec as (Hrun & Hmark & Hreads); rewrite Hrun; repeat split; assumption.
Qed.

Lemma turn_lock_free (w : World) :
  w_lock w = false ->
  exists w',
    turn user_id e AtLock w = (AtDump, w')
    /\ w_lock w' = true /\ w_tg w' = w_tg w
    /\ mark user_id w' = mark user_id w /\ w_reads w' = w_reads w.
Proof.
  intros Hfree. unfold turn, segment, Database.acquire_db_lock. unfold_monad.
  rewrite Hfree. eexists. repeat split.
Qed.

Lemma turn_lock_held (w : World) :
  w_lock w = true -> turn user_id e AtLock w = (AtLock, w).
Proof.
  intros Hheld. unfold turn, segment, Database.acquire_db_lock. unfold_monad.
  rewrite Hheld. reflexivity.
Qed.

Lemma turn_dump (w : World) :
  exists w',
    turn user_id e AtDump w = (Finished Allowed, w')
    /\ w_lock w' = false /\ w_tg w' = w_tg w
    /\ mark user_id w' = mark user_id w /\ w_reads w' = w_reads w.
Proof.
  unfold turn, segment, Database.write_db_file, Database.release_db_lock. unfold_monad.
  destruct (Database.dumpable (w_db w)); eexists; repeat split.
Qed.

Lemma turn_reply (w : World) (wait_seconds : Z) :
  w_tg w = [] ->
  exists w',
    turn user_id e (AtReply wait_seconds) w = (Finished (Denied RateLimited), w')
    /\ w_lock w' = w_lock w /\ w_tg w' = []
    /\ mark user_id w' = mark user_id w /\ w_reads w' = w_reads w.
Proof.
  intros Hcalm. unfold turn, segment. unfold_monad.
  rewrite tg_call_calm by exact Hcalm. eexists. repeat split. exact Hcalm.
Qed.

Lemma turn_finished (w : World) (p : pc) :
  finished p = true -> turn user_id e p w = (p, w).
Proof.
  destruct p; try discriminate; reflexivity.
Qed.

Lemma step_self (st : state) (t : task) :
  pc_of (step user_id e st t) t = fst (turn user_id e (pc_of st t) (world st))
  /\ world (step user_id e st t) = snd (turn user_id e (pc_of st t) (world st))
  /\ pc_of (step user_id e st t) (other t) = pc_of st (other t).
Proof.
  destruct t; unfold step; cbn [pc_of other];
    destruct (turn user_id e _ (world st)); repeat split.
Qed.

Lemma other_involutive (t : task) : other (other t) = t.
Proof. destruct t; reflexivity. Qed.

Lemma winner_or_loser (t winner : task) : t = winner \/ t = other winner.
Proof. destruct t, winner; auto. Qed.

Variable w0 : World.
Hypothesis Helig : eligible user_id e w0.
Hypothesis Hwin : within_window e w0.

Lemma second_check_refused (w : World) :
  mark user_id w = Some (clock e (S (w_reads w0))) ->
  w_reads w = S (S (w_reads w0)) ->
  exists wait_seconds,
    too_early e (mark user_id w) (clock e (w_reads w)) = Some wait_seconds.
Proof.
  intros Hmark Hreads. rewrite Hmark, Hreads. unfold too_early.
  specialize (Hwin 1%nat 2%nat ltac:(lia) ltac:(lia)).
  replace (w_reads w0 + 2)%nat with (S (S (w_reads w0))) in Hwin by lia.
  replace (w_reads w0 + 1)%nat with (S (w_reads w0)) in Hwin by lia.
  destruct (Z.ltb_spec (clock e (S (S (w_reads w0))) - clock e (S (w_reads w0))) (delay e));
    [eexists; reflexivity | lia].
Qed.

Lemma invariant_init : w_lock w0 = false -> calm w0 -> invariant user_id e w0 (init w0).
Proof.
  intros Hfree Hcalm. split; [exact Hcalm|]. left. repeat split. exact Hfree.
Qed.

Lemma invariant_step (st : state) (t : task) :
  invariant user_id e w0 st -> invariant user_id e w0 (step user_id e st t).
Proof.
  intros (Hcalm & [(Hp1 & Hp2 & Hreads & Hmark & Hlock)
                  | (winner & Hadm & Hmark & Hlk & Hloser)]).
  - (* nobody has run the check *)
    destruct (step_self st t) as (Hself & Hworld & Hother).
    assert (Hpc : pc_of st t = AtCheck) by (destruct t; assumption).
    assert (Hpo : pc_of st (other t) = AtCheck) by (destruct t; assumption).
    destruct (turn_check (world st)) as (w' & Hl & Htg & Hspec).
    rewrite Hmark, Hreads in Hspec. unfold eligible in Helig. rewrite Helig in Hspec.
    destruct Hspec as (Hturn & Hmark' & Hreads').
    rewrite Hpc, Hturn in Hself, Hworld. cbn [fst snd] in Hself, Hworld.
    split; [rewrite Hworld, Htg; exact Hcalm|].
    right. exists t. rewrite Hself, Hworld, Hother, Hpo.
    split; [reflexivity|]. split; [exact Hmark'|]. split.
    + rewrite Hl, Hlock. split; discriminate.
    + left. split; [reflexivity | exact Hreads'].
  - destruct (winner_or_loser t winner) as [-> | ->].
    + (* the winner takes a turn *)
      destruct (step_self st winner) as (Hself & Hworld & Hother).
      assert (Hkeep : forall p' w',
        turn user_id e (pc_of st winner) (world st) = (p', w') ->
        admitted p' = true ->
        (w_lock w' = true <-> p' = AtDump) ->
        w_tg w' = w_tg (world st) ->
        mark user_id w' = mark user_id (world st) ->
        w_reads w' = w_reads (world st) ->
        invariant user_id e w0 (step user_id e st winner)).
      { intros p' w' Hturn Hadm' Hlk' Htg' Hmark' Hreads'.
        rewrite Hturn in Hself, Hworld. cbn [fst snd] in Hself, Hworld.
        split; [rewrite Hworld, Htg'; exact Hcalm|].
        right. exists winner. rewrite Hself, Hworld, Hother, Hmark', Hreads'.
        repeat split; try assumption; apply Hlk'. }
      destruct (pc_of st winner) as [| | | ws | [|r] | x] eqn:Hpc; try discriminate Hadm.
      * assert (Hfree : w_lock (world st) = false).
        { destruct (w_lock (world st)); [| reflexivity].
          destruct Hlk as [Hlk _]. specialize (Hlk eq_refl). discriminate Hlk. }
        destruct (turn_lock_free (world st) Hfree) as (w' & Hturn & Hl & Htg & Hm & Hr).
        apply (Hkeep AtDump w');
          [exact Hturn | reflexivity | rewrite Hl; split; reflexivity
          | exact Htg | exact Hm | exact Hr].
      * destruct (turn_dump (world st)) as (w' & Hturn & Hl & Htg & Hm & Hr).
        apply (Hkeep (Finished Allowed) w');
          [exact Hturn | reflexivity | rewrite Hl; split; discriminate
          | exact Htg | exact Hm | exact Hr].
      * apply (Hkeep (Finished Allowed) (world st));
          [reflexivity | reflexivity | | reflexivity | reflexivity | reflexivity].
        split; [intros Hheld; apply Hlk in Hheld; discriminate Hheld | discriminate].
    + (* the other task takes a turn *)
      destruct (step_self st (other winner)) as (Hself & Hworld & Hother).
      rewrite other_involutive in Hother.
      assert (Hkeep : forall p' w',
        turn user_id e (pc_of st (other winner)) (world st) = (p', w') ->
        w_lock w' = w_lock (world st) ->
        w_tg w' = [] ->
        mark user_id w' = mark user_id (world st) ->
        ((p' = AtCheck /\ w_reads w' = S (S (w_reads w0)))
         \/ (refused p' /\ w_reads w' = S (S (S (w_reads w0))))) ->
        invariant user_id e w0 (step user_id e st (other winner))).
      { intros p' w' Hturn Hl' Htg' Hmark' Hloser'.
        rewrite Hturn in Hself, Hworld. cbn [fst snd] in Hself, Hworld.
        split; [rewrite Hworld; exact Htg'|].
        right. exists winner. rewrite Hself, Hworld, Hother, Hmark', Hl'.
        repeat split; try assumption; apply Hlk. }
      destruct Hloser as [(Hpc & Hreads) | ([(ws & Hpc) | Hpc] & Hreads)].
      * destruct (second_check_refused (world st) Hmark Hreads) as (ws & Hearly).
        destruct (turn_check (world st)) as (w' & Hl & Htg & Hspec).
        rewrite Hearly in Hspec. destruct Hspec as (Hturn & Hmark' & Hreads').
        apply (Hkeep (AtReply ws) w').
        -- rewrite Hpc. exact Hturn.
        -- exact Hl.
        -- rewrite Htg. exact Hcalm.
        -- exact Hmark'.
        -- right. split; [left; eexists; reflexivity|]. rewrite Hreads', Hreads. reflexivity.
      * destruct (turn_reply (world st) ws Hcalm) as (w' & Hturn & Hl & Htg & Hm & Hr).
        apply (Hkeep (Finished (Denied RateLimited)) w').
        -- rewrite Hpc. exact Hturn.
        -- exact Hl.
        -- exact Htg.
        -- exact Hm.
        -- right. split; [right; reflexivity|]. rewrite Hr. exact Hreads.
      * apply (Hkeep (Finished (Denied RateLimited)) (world st)).
        -- rewrite Hpc. reflexivity.
        -- reflexivity.
        -- exact Hcalm.
        -- reflexivity.
        -- right. split; [right; reflexivity | exact Hreads].
Qed.

Lemma invariant_exec (sched : list task) :
  forall st, invariant user_id e w0 st -> invariant user_id e w0 (exec user_id e sched st).
Proof.
  induction sched as [|t sched IH]; intros st Hinv; [exact Hinv|].
  cbn [exec fold_left]. apply IH, invariant_step, Hinv.
Qed.

Lemma invariant_lock_free_at_lock (st : state) (t : task) :
  invariant user_id e w0 st -> pc_of st t = AtLock -> w_lock (world st) = false.
Proof.
  intros (_ & [(Hp1 & Hp2 & _) | (winner & Hadm & _ & Hlk & Hloser)]) Hpc.
  - destruct t; cbn [pc_of] in Hpc; congruence.
  - destruct (winner_or_loser t winner) as [-> | ->].
    + destruct (w_lock (world st)); [| reflexivity].
      destruct Hlk as [Hlk _]. specialize (Hlk eq_refl). congruence.
    + destruct Hloser as [(Hq & _) | ([(ws & Hq) | Hq] & _)]; congruence.
Qed.

(** Under the invariant no turn is wasted: a task that has not finished
    gets closer to the end with every turn. *)
Lemma progress (st : state) (t : task) :
  invariant user_id e w0 st ->
  (rank (pc_of (step user_id e st t) t) <= pred (rank (pc_of st t)))%nat.
Proof.
  intros Hinv. destruct (step_self st t) as (Hself & _ & _). rewrite Hself.
  destruct (pc_of st t) as [| | | ws | v | x] eqn:Hpc.
  - destruct (turn_check (world st)) as (w' & _ & _ & Hspec).
    destruct (too_early e _ _); destruct Hspec as (Hturn & _); rewrite Hturn; cbn; lia.
  - destruct (turn_lock_free (world st) (invariant_lock_free_at_lock st t Hinv Hpc))
      as (w' & Hturn & _).
    rewrite Hturn. cbn. lia.
  - destruct (turn_dump (world st)) as (w' & Hturn & _). rewrite Hturn. cbn. lia.
  - destruct Hinv as (Hcalm & _).
    destruct (turn_reply (world st) ws Hcalm) as (w' & Hturn & _). rewrite Hturn. cbn. lia.
  - reflexivity.
  - reflexivity.
Qed.

Lemma rank_finished (p : pc) : rank p = 0%nat -> finished p = true.
Proof. destruct p; cbn; congruence. Qed.

Lemma finished_stays (st : state) (t t' : task) :
  finished (pc_of st t) = true -> pc_of (step user_id e st t') t = pc_of st t.
Proof.
  intros Hfin. destruct (winner_or_loser t' t) as [-> | ->].
  - destruct (step_self st t) as (Hself & _ & _).
    rewrite Hself, (turn_finished (world st) _ Hfin). reflexivity.
  - destruct (step_self st (other t)) as (_ & _ & Hother).
    rewrite other_involutive in Hother. exact Hother.
Qed.

Lemma finished_stays_exec (sched : list task) :
  forall (st : state) (t : task),
    finished (pc_of st t) = true -> pc_of (exec user_id e sched st) t = pc_of st t.
Proof.
  induction sched as [|t' sched IH]; intros st t Hfin; [reflexivity|].
  cbn [exec fold_left].
  change (fold_left (step user_id e) sched (step user_id e st t'))
    with (exec user_id e sched (step user_id e st t')).
  rewrite IH; rewrite (finished_stays st t t' Hfin); [reflexivity | exact Hfin].
Qed.

Lemma three_turns_finish (st : state) (t : task) :
  invariant user_id e w0 st ->
  finished (pc_of (exec user_id e [t; t; t] st) t) = true.
Proof.
  intros Hinv. cbn [exec fold_left].
  pose proof (progress st t Hinv) as H1.
  pose proof (invariant_step st t Hinv) as Hinv1.
  pose proof (progress _ t Hinv1) as H2.
  pose proof (invariant_step _ t Hinv1) as Hinv2.
  pose proof (progress _ t Hinv2) as H3.
  apply rank_finished.
  assert (rank (pc_of st t) <= 3)%nat by (destruct (pc_of st t); cbn; lia).
  lia.
Qed.

(** From every reachable state both tasks can be run to their end. *)
Lemma both_can_finish (st : state) :
  invariant user_id e w0 st ->
  let st' := exec user_id e [First; First; First; Second; Second; Second] st in
  finished (pc1 st') = true /\ finished (pc2 st') = true.
Proof.
  intros Hinv st'. subst st'.
  change (exec user_id e [First; First; First; Second; Second; Second] st)
    with (exec user_id e [Second; Second; Second] (exec user_id e [First; First; First] st)).
  pose proof (three_turns_finish st First Hinv) as Hf.
  pose proof (invariant_exec [First; First; First] st Hinv) as Hinv'.
  set (st1 := exec user_id e [First; First; First] st) in *.
  split.
  - change (pc1 ?s) with (pc_of s First).
    rewrite (finished_stays_exec [Second; Second; Second] st1 First Hf). exact Hf.
  - exact (three_turns_finish st1 Second Hinv').
Qed.

(** A task that runs alone is the gate of [spam_check]. *)
Lemma spam_gate_is_solo_task (w : World) :
  is_admin e user_id = false ->
  (v ← spam_gate user_id; mret (Finished v)) e w = solo user_id e w.
Proof.
  intros Hadmin.
  unfold spam_gate, solo, segment, check_segment, Database.update_spam_time,
         Database.save_db.
  unfold_monad. rewrite Hadmin.
  destruct (Database.get_last_spam_time user_id e w) as [[last|x|] w1]; try reflexivity.
  unfold now. cbn [w_reads set_reads].
  destruct (too_early e last (clock e (w_reads w1))) as [ws|].
  - destruct (tg_call _ e _) as [[[]|x|] w2]; reflexivity.
  - destruct (Database.touch_spam_time user_id e _) as [[[]|x|] w2]; try reflexivity.
    all: try (destruct (Database.acquire_db_lock e w2) as [[[]|x|] w3]; try reflexivity).
    all: try (destruct (Database.write_db_file e w3) as [[[]|x|] w4]; try reflexivity).
    all: try (destruct (Database.release_db_lock e w4) as [[[]|x|] w5]; reflexivity).
Qed.

(** A turn that moves on is a segment that has returned. *)
Lemma turn_returned (p p' : pc) (w w' : World) :
  turn user_id e p w = (p', w') ->
  p' <> p ->
  (forall x, p' <> Raised x) ->
  segment user_id p e w = (Ret p', w').
Proof.
  unfold turn. destruct (segment user_id p e w) as [[q|x|] w1]; intros [= <- <-] Hmoved Hret.
  - reflexivity.
  - exfalso. exact (Hret x eq_refl).
  - exfalso. exact (Hmoved eq_refl).
Qed.

Lemma gate_of_solo (w w' : World) (v : verdict) :
  is_admin e user_id = false ->
  solo user_id e w = (Ret (Finished v), w') ->
  spam_gate user_id e w = (Ret v, w').
Proof.
  intros Hadmin Hsolo. rewrite <- (spam_gate_is_solo_task w Hadmin) in Hsolo.
  revert Hsolo. unfold_monad.
  destruct (spam_gate user_id e w) as [[v'|x|] w1]; intros [= -> ->]. reflexivity.
Qed.

(** A call of the gate that finds the caller outside the window admits
    and sets the mark. *)
Lemma gate_admits_outside_window (w : World) :
  is_admin e user_id = false ->
  w_lock w = false ->
  too_early e (mark user_id w) (clock e (w_reads w)) = None ->
  exists w',
    spam_gate user_id e w = (Ret Allowed, w')
    /\ mark user_id w' = Some (clock e (S (w_reads w)))
    /\ w_reads w' = S (S (w_reads w))
    /\ w_lock w' = false /\ w_tg w' = w_tg w.
Proof.
  intros Hadmin Hfree Hout.
  destruct (turn_check w) as (wa & Hlocka & Htga & Hcheck). rewrite Hout in Hcheck.
  destruct Hcheck as (Hturn1 & Hmarka & Hreadsa).
  destruct (turn_lock_free wa) as (wb & Hturn2 & Hlockb & Htgb & Hmarkb & Hreadsb).
  { rewrite Hlocka. exact Hfree. }
  destruct (turn_dump wb) as (wc & Hturn3 & Hlockc & Htgc & Hmarkc & Hreadsc).
  apply turn_returned in Hturn1; [| discriminate | discriminate].
  apply turn_returned in Hturn2; [| discriminate | discriminate].
  apply turn_returned in Hturn3; [| discriminate | discriminate].
  exists wc. split.
  - apply (gate_of_solo w wc Allowed Hadmin).
    unfold solo. unfold mbind, M_bind, bind. rewrite Hturn1, Hturn2, Hturn3. reflexivity.
  - split; [congruence|]. split; [congruence|]. split; [exact Hlockc | congruence].
Qed.

(** A call of the gate that finds the caller inside the window refuses
    and leaves the mark alone. *)
Lemma gate_refuses_inside_window (w : World) (wait_seconds : Z) :
  is_admin e user_id = false ->
  w_tg w = [] ->
  too_early e (mark user_id w) (clock e (w_reads w)) = Some wait_seconds ->
  exists w',
    spam_gate user_id e w = (Ret (Denied RateLimited), w')
    /\ mark user_id w' = mark user_id w.
Proof.
  intros Hadmin Hcalm Hin.
  destruct (turn_check w) as (wa & Hlocka & Htga & Hcheck). rewrite Hin in Hcheck.
  destruct Hcheck as (Hturn1 & Hmarka & Hreadsa).
  destruct (turn_reply wa wait_seconds) as (wb & Hturn2 & _ & _ & Hmarkb & _).
  { rewrite Htga. exact Hcalm. }
  apply turn_returned in Hturn1; [| discriminate | discriminate].
  apply turn_returned in Hturn2; [| discriminate | discriminate].
  exists wb. split.
  - apply (gate_of_solo w wb (Denied RateLimited) Hadmin).
    unfold solo. unfold mbind, M_bind, bind. rewrite Hturn1, Hturn2. reflexivity.
  - congruence.
Qed.

(** The wrapper runs the wrapped function exactly when the task that the
    gate is has finished with [Allowed]. *)
Lemma spam_check_is_solo_task (func : M unit) (w : World) :
  is_admin e user_id = false ->
  spam_check user_id func e w
  = (p ← solo user_id;
     match p with Finished Allowed => func | _ => mret tt end) e w.
Proof.
  intros Hadmin. unfold spam_check, guarded.
  unfold mbind, M_bind, bind.
  rewrite <- (spam_gate_is_solo_task w Hadmin). unfold_monad.
  destruct (spam_gate user_id e w) as [[[|r]|x|] w1]; reflexivity.
Qed.

(** C1. Two throttle checks of one caller who is not an administrator,
    started in a state [w0] where the lock is free, the transport is calm,
    the caller is outside the window of any earlier admission, and all the
    clock readings the two checks take lie within one cooldown window.
    The gate of [spam_check] is the task of the interleaving model run
    alone, in every state: (1) [spam_gate] is the three segments in a
    row, and (2) [spam_check] runs the wrapped function exactly when that
    task finishes with [Allowed]. (3) Two calls of [spam_gate] one after
    the other: the first returns [Allowed] and has set the mark to the
    reading it took, the second returns [Denied RateLimited] and leaves
    the mark alone. Whatever the schedule of two tasks interleaved at the
    suspension points: (4) the two tasks are never both on the admitted
    path; (5) once both have returned, one has returned [Allowed] and the
    other [Denied RateLimited]; (6) as soon as a task is past the check on
    the admitted path, hence before [Allowed] is returned, the mark in
    memory is the reading that task took; (7) the schedule can always be
    extended so that both tasks return. *)
Theorem throttle_admits_exactly_one (sched : list task) :
  is_admin e user_id = false ->
  w_lock w0 = false ->
  calm w0 ->
  let st := exec user_id e sched (init w0) in
  (forall w, (v ← spam_gate user_id; mret (Finished v)) e w = solo user_id e w)
  /\ (forall (func : M unit) w,
        spam_check user_id func e w
        = (p ← solo user_id;
           match p with Finished Allowed => func | _ => mret tt end) e w)
  /\ (exists w1 w2,
        spam_gate user_id e w0 = (Ret Allowed, w1)
        /\ mark user_id w1 = Some (clock e (S (w_reads w0)))
        /\ spam_gate user_id e w1 = (Ret (Denied RateLimited), w2)
        /\ mark user_id w2 = Some (clock e (S (w_reads w0))))
  /\ admitted (pc1 st) && admitted (pc2 st) = false
  /\ (finished (pc1 st) = true -> finished (pc2 st) = true ->
      (pc1 st = Finished Allowed /\ pc2 st = Finished (Denied RateLimited))
      \/ (pc1 st = Finished (Denied RateLimited) /\ pc2 st = Finished Allowed))
  /\ (forall t, admitted (pc_of st t) = true ->
      mark user_id (world st) = Some (clock e (S (w_reads w0))))
  /\ (exists more,
        finished (pc1 (exec user_id e (sched ++ more) (init w0))) = true
        /\ finished (pc2 (exec user_id e (sched ++ more) (init w0))) = true).
Proof.
  intros Hadmin Hfree Hcalm st.
  assert (Hinv : invariant user_id e w0 st)
    by (apply invariant_exec, invariant_init; assumption).
  split; [| split; [| split; [| split; [| split; [| split]]]]].
  - intros w. exact (spam_gate_is_solo_task w Hadmin).
  - intros func w. exact (spam_check_is_solo_task func w Hadmin).
  - destruct (gate_admits_outside_window w0 Hadmin Hfree Helig)
      as (w1 & Hfirst & Hmark1 & Hreads1 & Hlock1 & Htg1).
    destruct (second_check_refused w1 Hmark1 Hreads1) as (ws & Hin).
    destruct (gate_refuses_inside_window w1 ws Hadmin) as (w2 & Hsecond & Hmark2).
    { rewrite Htg1. exact Hcalm. }
    { exact Hin. }
    exists w1, w2. repeat split; congruence.
  - destruct Hinv as (_ & [(Hp1 & _) | (winner & Hadm & _ & _ & Hloser)]).
    + rewrite Hp1. reflexivity.
    + assert (Hl : admitted (pc_of st (other winner)) = false).
      { destruct Hloser as [(Hq & _) | ([(ws & Hq) | Hq] & _)]; rewrite Hq; reflexivity. }
      destruct winner; cbn [pc_of other] in Hl; rewrite Hl;
        [apply andb_false_r | reflexivity].
  - intros Hf1 Hf2.
    destruct Hinv as (_ & [(Hp1 & _) | (winner & Hadm & _ & _ & Hloser)]).
    + rewrite Hp1 in Hf1. discriminate Hf1.
    + assert (Hw : pc_of st winner = Finished Allowed).
      { destruct winner; cbn [pc_of] in *.
        - destruct (pc1 st) as [| | | ws | [|r] | x]; try discriminate; reflexivity.
        - destruct (pc2 st) as [| | | ws | [|r] | x]; try discriminate; reflexivity. }
      assert (Hl : pc_of st (other winner) = Finished (Denied RateLimited)).
      { destruct Hloser as [(Hq & _) | ([(ws & Hq) | Hq] & _)]; [| | exact Hq];
          destruct winner; cbn [pc_of other] in *;
          first [rewrite Hq in Hf1; discriminate Hf1 | rewrite Hq in Hf2; discriminate Hf2]. }
      destruct winner; cbn [pc_of other] in *; [left | right]; split; assumption.
  - intros t Hadm.
    destruct Hinv as (_ & [(Hp1 & Hp2 & _) | (winner & _ & Hmark & _)]).
    + destruct t; cbn [pc_of] in Hadm; [rewrite Hp1 in Hadm | rewrite Hp2 in Hadm];
        discriminate Hadm.
    + exact Hmark.
  - exists [First; First; First; Second; Second; Second].
    unfold exec. rewrite fold_left_app. exact (both_can_finish st Hinv).
Qed.

End Throttle.

Lemma throttle_admits_exactly_one_witness :
  (forall w, (v ← Decorators.spam_gate 42; mret (Race.Finished v)) offline_env w
             = Race.solo 42 offline_env w)
  /\ (forall (func : M unit) w,
        Decorators.spam_check 42 func offline_env w
        = (p ← Race.solo 42;
           match p with Race.Finished Decorators.Allowed => func | _ => mret tt end)
            offline_env w)
  /\ (exists w1 w2,
        Decorators.spam_gate 42 offline_env token_world = (Ret Decorators.Allowed, w1)
        /\ Race.mark 42 w1 = Some (clock offline_env (S (w_reads token_world)))
        /\ Decorators.spam_gate 42 offline_env w1
           = (Ret (Decorators.Denied Decorators.RateLimited), w2)
        /\ Race.mark 42 w2 = Some (clock offline_env (S (w_reads token_world))))
  /\ Race.admitted (Race.pc1 raced) && Race.admitted (Race.pc2 raced) = false
  /\ (Race.finished (Race.pc1 raced) = true -> Race.finished (Race.pc2 raced) = true ->
      (Race.pc1 raced = Race.Finished Decorators.Allowed
       /\ Race.pc2 raced = Race.Finished (Decorators.Denied Decorators.RateLimited))
      \/ (Race.pc1 raced = Race.Finished (Decorators.Denied Decorators.RateLimited)
          /\ Race.pc2 raced = Race.Finished Decorators.Allowed))
  /\ (forall t, Race.admitted (Race.pc_of raced t) = true ->
      Race.mark 42 (Race.world raced) = Some (clock offline_env (S (w_reads token_world))))
  /\ (exists more,
        Race.finished
          (Race.pc1 (Race.exec 42 offline_env
                       ([Race.First; Race.Second; Race.Second; Race.First; Race.First;
                         Race.Second] ++ more)
                       (Race.init token_world))) = true
        /\ Race.finished
             (Race.pc2 (Race.exec 42 offline_env
                          ([Race.First; Race.Second; Race.Second; Race.First; Race.First;
                            Race.Second] ++ more)
                          (Race.init token_world))) = true).
Proof.
  apply (throttle_admits_exactly_one 42 offline_env token_world).
  - vm_compute. reflexivity.
  - intros i j Hi Hj. unfold Decorators.delay. cbn. lia.
  - vm_compute. reflexivity.
  - reflexivity.
  - reflexivity.
Defined.

(** In the schedule of [raced] the first task is admitted and the second
    refused. *)
Lemma raced_outcome :
  Race.pc1 raced = Race.Finished Decorators.Allowed
  /\ Race.pc2 raced = Race.Finished (Decorators.Denied Decorators.RateLimited)
  /\ Race.mark 42 (Race.world raced) = Some 1000000001.
Proof. vm_compute. repeat split. Qed.

(** Without the premise that the caller is outside an earlier window the
    two checks are both refused. *)
Lemma both_refused_inside_window :
  let w := world_of (mkDb [42] ∅ {[ "42" := PyIsoStr 999999999 ]}) in
  let st := Race.exec 42 offline_env
              [Race.First; Race.Second; Race.First; Race.Second] (Race.init w) in
  Race.pc1 st = Race.Finished (Decorators.Denied Decorators.RateLimited)
  /\ Race.pc2 st = Race.Finished (Decorators.Denied Decorators.RateLimited).
Proof. vm_compute. split; reflexivity. Qed.

(** ** The whole chain on a message without a link *)

Lemma fsub_gate_member (e : Env) (w : World) (upd : Decorators.update) (user_id : Z) :
  Decorators.is_admin e user_id = false ->
  bool_decide (member_status e ∈ ["member"; "administrator"; "creator"]) = true ->
  calm w ->
  exists ev,
    Decorators.fsub_gate upd user_id e w = (Ret Decorators.Allowed, add_event ev w)
    /\ silent [ev].
Proof.
  intros Hadmin Hmember Hcalm. unfold Decorators.fsub_gate. unfold_monad.
  rewrite Hadmin. destruct (FSUB_ID (cfg e) =? 0).
  - eexists. split; [reflexivity|]. repeat split.
  - rewrite tg_call_calm by exact Hcalm. rewrite Hmember.
    eexists. split; [reflexivity|]. repeat split.
Qed.

Lemma spam_gate_admits (e : Env) (w : World) (user_id : Z) :
  Decorators.is_admin e user_id = false ->
  w_lock w = false ->
  Decorators.too_early e (Race.mark user_id w) (clock e (w_reads w)) = None ->
  exists w' evs,
    Decorators.spam_gate user_id e w = (Ret Decorators.Allowed, w')
    /\ w_trace w' = (w_trace w ++ evs)%list /\ silent evs
    /\ w_tg w' = w_tg w
    /\ tokens (w_db w') = tokens (w_db w)
    /\ Race.mark user_id w' = Some (clock e (S (w_reads w))).
Proof.
  intros Hadmin Hfree Hearly.
  unfold Decorators.spam_gate, Database.update_spam_time, Database.touch_spam_time,
         Database.get_last_spam_time, now.
  unfold Race.mark in Hearly. unfold_monad. rewrite Hadmin.
  cbn [w_db add_event w_reads set_reads].
  assert (Hdone : forall w1 evs1,
    w_trace w1 = (w_trace w ++ evs1)%list -> silent evs1 ->
    w_lock w1 = false -> w_tg w1 = w_tg w -> w_db w1 = w_db w ->
    w_reads w1 = S (w_reads w) ->
    exists w' evs,
      (let (r, w'0) :=
         let (r, w'0) :=
           Database.save_db e
             (add_event (DbWrite "spam_tracker" (Database.str user_id))
                (set_db (mkDb (users (w_db w1)) (tokens (w_db w1))
                           (<[Database.str user_id := PyIsoStr (clock e (w_reads w1))]>
                              (spam_tracker (w_db w1))))
                   (set_reads (S (w_reads w1)) w1))) in
         match r with
         | Ret _ => (Ret Decorators.Allowed, w'0)
         | Exn x => (Exn x, w'0)
         | Hang => (Hang, w'0)
         end in (r, w'0)) = (Ret Decorators.Allowed, w')
      /\ w_trace w' = (w_trace w ++ evs)%list /\ silent evs
      /\ w_tg w' = w_tg w
      /\ tokens (w_db w') = tokens (w_db w)
      /\ Race.mark user_id w' = Some (clock e (S (w_reads w)))).
  { intros w1 evs1 Htrace (Hs1 & Hs2 & Hs3) Hlock Htg Hdb Hreads.
    rewrite save_db_free by exact Hlock.
    cbn [w_db add_event set_db].
    destruct (Database.dumpable _);
      eexists; eexists; (split; [reflexivity|]);
      cbn [w_trace w_tg w_db add_event set_db set_lock set_file set_reads tokens];
      rewrite Htrace, <- ?app_assoc;
      (split; [reflexivity|]);
      (split; [unfold silent; rewrite shown_app, !existsb_app, Hs1, Hs2, Hs3;
               repeat split |]);
      (split; [exact Htg|]); (split; [rewrite Hdb; reflexivity|]);
      unfold Race.mark; cbn [w_db add_event set_db set_lock set_file set_reads spam_tracker];
      rewrite lookup_insert_eq, Hreads; reflexivity. }
  destruct (spam_tracker (w_db w) !! Database.str user_id) as [v|].
  - destruct (truthy v).
    + destruct (fromisoformat v) as [x|t]; unfold_monad;
        cbn [w_db add_event w_reads set_reads]; rewrite Hearly.
      * match goal with
        | |- context [Database.save_db e (add_event _ (set_db _ (set_reads _ ?w1)))] =>
            destruct (Hdone (set_reads (S (w_reads w)) w1)
                        [DbRead "spam_tracker" (Database.str user_id);
                         Logged (LogBadSpamTimestamp user_id)])
              as (w' & evs & Hrun & Hrest)
        end; try reflexivity.
        { cbn [w_trace add_event set_reads]. rewrite <- app_assoc. reflexivity. }
        { repeat split. }
        { exact Hfree. }
        exists w', evs. split; [| exact Hrest].
        revert Hrun. cbn [w_db w_reads set_reads add_event].
        destruct (Database.save_db e _) as [[[]|?|] ?]; intros [= <-]; reflexivity.
      * match goal with
        | |- context [Database.save_db e (add_event _ (set_db _ (set_reads _ ?w1)))] =>
            destruct (Hdone (set_reads (S (w_reads w)) w1)
                        [DbRead "spam_tracker" (Database.str user_id)])
              as (w' & evs & Hrun & Hrest)
        end; try reflexivity.
        { repeat split. }
        { exact Hfree. }
        exists w', evs. split; [| exact Hrest].
        revert Hrun. cbn [w_db w_reads set_reads add_event].
        destruct (Database.save_db e _) as [[[]|?|] ?]; intros [= <-]; reflexivity.
    + unfold_monad. cbn [w_db add_event w_reads set_reads]. rewrite Hearly.
      match goal with
      | |- context [Database.save_db e (add_event _ (set_db _ (set_reads _ ?w1)))] =>
          destruct (Hdone (set_reads (S (w_reads w)) w1)
                      [DbRead "spam_tracker" (Database.str user_id)])
            as (w' & evs & Hrun & Hrest)
      end; try reflexivity.
      { repeat split. }
      { exact Hfree. }
      exists w', evs. split; [| exact Hrest].
      revert Hrun. cbn [w_db w_reads set_reads add_event].
      destruct (Database.save_db e _) as [[[]|?|] ?]; intros [= <-]; reflexivity.
  - unfold_monad. cbn [w_db add_event w_reads set_reads]. rewrite Hearly.
    match goal with
    | |- context [Database.save_db e (add_event _ (set_db _ (set_reads _ ?w1)))] =>
        destruct (Hdone (set_reads (S (w_reads w)) w1)
                    [DbRead "spam_tracker" (Database.str user_id)])
          as (w' & evs & Hrun & Hrest)
    end; try reflexivity.
    { repeat split. }
    { exact Hfree. }
    exists w', evs. split; [| exact Hrest].
    revert Hrun. cbn [w_db w_reads set_reads add_event].
    destruct (Database.save_db e _) as [[[]|?|] ?]; intros [= <-]; reflexivity.
Qed.

Lemma link_handler_no_link (e : Env) (w : World) (user_id : Z) (text : string) :
  Terabox.extract_terabox_link text = None ->
  calm w ->
  Handlers.link_handler user_id text e w
  = (Ret tt, add_event (Tg (ReplyText TxtInvalidInput) true) (add_event (Logged LogNoLink) w)).
Proof.
  intros Hnone Hcalm. unfold Handlers.link_handler. rewrite Hnone. unfold_monad.
  rewrite tg_call_calm by exact Hcalm. reflexivity.
Qed.

(** C10. A caller who is not an administrator, is a member, holds a stored
    token that is still valid and is outside any cooldown window sends a
    text without a share link: the handler answers "Invalid Input",
    fetches nothing and writes no file, and the throttle mark is set. The
    same message sent again does not reach the throttle gate: the first
    run has left a datetime object in the stored token, the token gate
    finds no token, and the caller is told "Token Required", not to wait. *)
Theorem retry_after_invalid_input (e : Env) (w : World) (user_id : Z) (text token : string)
    (t : Z) :
  Decorators.is_admin e user_id = false ->
  bool_decide (member_status e ∈ ["member"; "administrator"; "creator"]) = true ->
  calm w ->
  w_lock w = false ->
  tokens (w_db w) !! Database.str user_id = Some (mkTokenEntry token (PyIsoStr t)) ->
  clock e (w_reads w) <= t ->
  Decorators.too_early e (Race.mark user_id w) (clock e (S (w_reads w))) = None ->
  Terabox.extract_terabox_link text = None ->
  exists w1 w2 evs,
    Handlers.message_handler user_id text e w = (Ret tt, w1)
    /\ w_trace w1 = (w_trace w ++ evs)%list
    /\ shown evs = [TxtInvalidInput]
    /\ existsb fetched evs = false
    /\ existsb wrote_file evs = false
    /\ Race.mark user_id w1 = Some (clock e (S (S (w_reads w))))
    /\ Handlers.message_handler user_id text e w1 = (Ret tt, w2)
    /\ shown (w_trace w2) = (shown (w_trace w1) ++ [TxtTokenRequired])%list.
Proof.
  intros Hadmin Hmember Hcalm Hfree Htoken Hvalid Hearly Hnolink.
  unfold Handlers.message_handler, Decorators.fsub_required, Decorators.token_required,
         Decorators.spam_check, Decorators.guarded.
  (* first run *)
  destruct (fsub_gate_member e w Decorators.IsMessage user_id Hadmin Hmember Hcalm)
    as (ev & Hfsub & Hs1 & Hs2 & Hs3).
  set (wa := add_event ev w) in *.
  assert (Htoken_a : tokens (w_db wa) !! Database.str user_id
                     = Some (mkTokenEntry token (PyIsoStr t))) by exact Htoken.
  pose proof (token_gate_iso e wa user_id token t Hadmin Htoken_a) as Htg.
  cbv zeta in Htg. change (w_reads wa) with (w_reads w) in Htg.
  destruct (Z.gtb_spec (clock e (w_reads w)) t) as [Hgt|_]; [lia|].
  set (wb := set_reads (S (w_reads w))
               (add_event (DbWrite "tokens" (Database.str user_id))
                  (set_db (mkDb (users (w_db wa))
                                (<[Database.str user_id := mkTokenEntry token (PyDatetime t)]>
                                   (tokens (w_db wa)))
                                (spam_tracker (w_db wa)))
                     (add_event (DbRead "tokens" (Database.str user_id)) wa)))) in *.
  destruct (spam_gate_admits e wb user_id Hadmin Hfree Hearly)
    as (wc & evs & Hspam & Htrace & (Hq1 & Hq2 & Hq3) & Htg_c & Htokens_c & Hmark_c).
  assert (Hcalm_c : calm wc) by (unfold calm; rewrite Htg_c; exact Hcalm).
  set (w1 := add_event (Tg (ReplyText TxtInvalidInput) true)
               (add_event (Logged LogNoLink) wc)).
  assert (Hrun1 :
    (v ← Decorators.fsub_gate Decorators.IsMessage user_id;
     match v with
     | Decorators.Allowed =>
         v0 ← Decorators.token_gate user_id;
         match v0 with
         | Decorators.Allowed =>
             v1 ← Decorators.spam_gate user_id;
             match v1 with
             | Decorators.Allowed => Handlers.link_handler user_id text
             | Decorators.Denied _ => mret tt
             end
         | Decorators.Denied _ => mret tt
         end
     | Decorators.Denied _ => mret tt
     end) e w = (Ret tt, w1)).
  { unfold_monad. rewrite Hfsub, Htg, Hspam.
    rewrite (link_handler_no_link e wc user_id text Hnolink Hcalm_c). reflexivity. }
  (* second run *)
  assert (Hcalm1 : calm w1) by exact Hcalm_c.
  destruct (fsub_gate_member e w1 Decorators.IsMessage user_id Hadmin Hmember Hcalm1)
    as (ev' & Hfsub' & Hs1' & _).
  assert (Htoken1 : tokens (w_db (add_event ev' w1)) !! Database.str user_id
                    = Some (mkTokenEntry token (PyDatetime t))).
  { cbn [w_db add_event]. unfold w1. cbn [w_db add_event]. rewrite Htokens_c.
    unfold wb. cbn [w_db add_event set_db set_reads tokens]. apply lookup_insert_eq. }
  pose proof (token_gate_datetime e (add_event ev' w1) user_id token t Hadmin Htoken1 Hcalm1)
    as Htg'.
  eexists w1, _, _. split; [exact Hrun1|].
  split; [| split; [| split; [| split; [| split; [| split]]]]].
  - unfold w1. cbn [w_trace add_event]. rewrite Htrace. unfold wb, wa.
    cbn [w_trace add_event set_db set_reads]. rewrite <- !app_assoc. reflexivity.
  - rewrite !shown_app, Hq1, Hs1. reflexivity.
  - rewrite !existsb_app, Hq2, Hs2. reflexivity.
  - rewrite !existsb_app, Hq3, Hs3. reflexivity.
  - unfold w1, Race.mark. cbn [w_db add_event]. exact Hmark_c.
  - unfold_monad. rewrite Hfsub', Htg'. reflexivity.
  - cbn [w_trace add_event set_reads]. rewrite !shown_app, Hs1'. cbn [shown app].
    rewrite !app_nil_r. reflexivity.
Qed.

Lemma retry_after_invalid_input_witness :
  exists w1 w2 evs,
    Handlers.message_handler 42 "hello" offline_env token_world = (Ret tt, w1)
    /\ w_trace w1 = (w_trace token_world ++ evs)%list
    /\ shown evs = [TxtInvalidInput]
    /\ existsb fetched evs = false
    /\ existsb wrote_file evs = false
    /\ Race.mark 42 w1 = Some (clock offline_env (S (S (w_reads token_world))))
    /\ Handlers.message_handler 42 "hello" offline_env w1 = (Ret tt, w2)
    /\ shown (w_trace w2) = (shown (w_trace w1) ++ [TxtTokenRequired])%list.
Proof.
  apply (retry_after_invalid_input offline_env token_world 42 "hello" "7c9e6679" 2000000000).
  - vm_compute. reflexivity.
  - vm_compute. reflexivity.
  - reflexivity.
  - reflexivity.
  - vm_compute. reflexivity.
  - vm_compute. discriminate.
  - vm_compute. reflexivity.
  - vm_compute. reflexivity.
Defined.

(** What the caller of the witness sees in the two runs. *)
Lemma retry_shows_token_required :
  shown (w_trace (snd (Handlers.message_handler 42 "hello" offline_env token_world)))
  = [TxtInvalidInput]
  /\ shown (w_trace (snd (Handlers.message_handler 42 "hello" offline_env
                            (snd (Handlers.message_handler 42 "hello" offline_env
                                    token_world)))))
     = [TxtInvalidInput; TxtTokenRequired].
Proof. split; vm_compute; reflexivity. Qed.

(** At the gate itself the retry is refused for the cooldown: a second
    throttle check within the window of the first answers "wait". *)
Lemma throttle_gate_refuses_retry :
  fst (Decorators.spam_gate 42 offline_env
         (snd (Decorators.spam_gate 42 offline_env token_world)))
  = Ret (Decorators.Denied Decorators.RateLimited)
  /\ shown (w_trace (snd (Decorators.spam_gate 42 offline_env
                            (snd (Decorators.spam_gate 42 offline_env token_world)))))
     = [TxtSpamProtection 59].
Proof. split; vm_compute; reflexivity. Qed.

(** * Further properties of the code *)

(** ** Computations that never wait for the lock *)

Definition never_hangs {A} (m : M A) : Prop :=
  forall e w, fst (m e w) <> Hang.

Lemma never_hangs_ret {A} (a : A) : never_hangs (mret a).
Proof. intros e w. discriminate. Qed.

Lemma never_hangs_raise {A} (x : exn) : never_hangs (@raise A x).
Proof. intros e w. discriminate. Qed.

Lemma never_hangs_bind {A B} (m : M A) (k : A -> M B) :
  never_hangs m -> (forall a, never_hangs (k a)) -> never_hangs (m ≫= k).
Proof.
  intros Hm Hk e w. unfold mbind, M_bind, bind.
  specialize (Hm e w). destruct (m e w) as [[a|x|] w1]; cbn [fst] in *.
  - apply Hk.
  - discriminate.
  - contradiction.
Qed.

Lemma never_hangs_try_except {A} (body : M A) (handler : exn -> option (M A)) :
  never_hangs body ->
  (forall x h, handler x = Some h -> never_hangs h) ->
  never_hangs (try_except body handler).
Proof.
  intros Hb Hh e w. unfold try_except.
  specialize (Hb e w). destruct (body e w) as [[a|x|] w1]; cbn [fst] in *.
  - discriminate.
  - destruct (handler x) as [h|] eqn:Hx; [apply (Hh x h Hx) | discriminate].
  - contradiction.
Qed.

Lemma never_hangs_lift {A} (r : exn + A) : never_hangs (lift r).
Proof. destruct r as [x|a]; intros e w; discriminate. Qed.

Lemma never_hangs_tg_call (c : call) : never_hangs (tg_call c).
Proof.
  intros e w. unfold tg_call. destruct (w_tg w) as [|[x|] q]; discriminate.
Qed.

Lemma never_hangs_now : never_hangs now.
Proof. intros e w. discriminate. Qed.

Lemma never_hangs_ask : never_hangs ask.
Proof. intros e w. discriminate. Qed.

Lemma never_hangs_get : never_hangs get.
Proof. intros e w. discriminate. Qed.

Lemma never_hangs_modify (f : World -> World) : never_hangs (modify f).
Proof. intros e w. discriminate. Qed.

Lemma never_hangs_emit (ev : event) : never_hangs (emit ev).
Proof. intros e w. discriminate. Qed.

Lemma never_hangs_log (l : logline) : never_hangs (log l).
Proof. intros e w. discriminate. Qed.

Lemma never_hangs_global_name (names : list string) (name : string) :
  never_hangs (global_name names name).
Proof.
  intros e w. unfold global_name. destruct (bool_decide (name ∈ names)); discriminate.
Qed.

Lemma never_hangs_asyncio_sleep (names : list string) (secs : Z) :
  never_hangs (asyncio_sleep names secs).
Proof.
  unfold asyncio_sleep. apply never_hangs_bind; [apply never_hangs_global_name|].
  intros _. apply never_hangs_emit.
Qed.

Ltac never_hangs_step :=
  first
    [ apply never_hangs_ret | apply never_hangs_raise | apply never_hangs_lift
    | apply never_hangs_tg_call | apply never_hangs_now | apply never_hangs_ask
    | apply never_hangs_get | apply never_hangs_emit | apply never_hangs_log
    | apply never_hangs_modify
    | apply never_hangs_asyncio_sleep | apply never_hangs_global_name
    | apply never_hangs_bind | apply never_hangs_try_except
    | match goal with
      | |- never_hangs (if ?b then _ else _) => destruct b
      | |- never_hangs (match ?x with _ => _ end) => destruct x
      | |- never_hangs (let _ := _ in _) => cbv zeta
      | |- forall _, _ => intros
      | H : Some _ = Some _ |- _ => injection H as <-
      | H : None = Some _ |- _ => discriminate H
      | H : (if ?b then _ else _) = Some _ |- _ => destruct b
      | H : match ?x with _ => _ end = Some _ |- _ => destruct x
      end ].

Ltac never_hangs_auto := repeat never_hangs_step.

Lemma never_hangs_format_bytes (n : Z) : never_hangs (Terabox._format_bytes n).
Proof. unfold Terabox._format_bytes. never_hangs_auto. Qed.

Lemma never_hangs_extract_filename (content url : string) :
  never_hangs (Terabox._extract_filename content url).
Proof. unfold Terabox._extract_filename. never_hangs_auto. Qed.

Lemma never_hangs_extract_filesize_str (content : string) :
  never_hangs (Terabox._extract_filesize_str content).
Proof.
  unfold Terabox._extract_filesize_str.
  repeat first [ apply never_hangs_format_bytes | never_hangs_step ].
Qed.

Lemma never_hangs_http_get (url : string) : never_hangs (Terabox.http_get url).
Proof. unfold Terabox.http_get. never_hangs_auto. Qed.

Lemma never_hangs_pattern_strategy (content url : string) :
  never_hangs (Terabox.pattern_strategy content url).
Proof.
  unfold Terabox.pattern_strategy.
  repeat first [ apply never_hangs_extract_filename
               | apply never_hangs_extract_filesize_str | never_hangs_step ].
Qed.

Lemma never_hangs_js_object_body (js_data_str : string) :
  never_hangs (Terabox.js_object_body js_data_str).
Proof.
  unfold Terabox.js_object_body.
  repeat first [ apply never_hangs_format_bytes | never_hangs_step ].
Qed.

Lemma never_hangs_api_body (content url api_url : string) :
  never_hangs (Terabox.api_body content url api_url).
Proof.
  unfold Terabox.api_body.
  repeat first [ apply never_hangs_http_get | apply never_hangs_extract_filename
               | apply never_hangs_extract_filesize_str | never_hangs_step ].
Qed.

Lemma never_hangs_js_object_strategy (content : string) :
  never_hangs (Terabox.js_object_strategy content).
Proof.
  unfold Terabox.js_object_strategy.
  repeat first [ apply never_hangs_js_object_body | never_hangs_step ].
Qed.

Lemma never_hangs_api_strategy (json_bound : bool) (content url : string) :
  never_hangs (Terabox.api_strategy json_bound content url).
Proof.
  unfold Terabox.api_strategy.
  repeat first [ apply never_hangs_api_body | never_hangs_step ].
Qed.

Lemma never_hangs_strategies (url : string) : never_hangs (Terabox.strategies url).
Proof.
  unfold Terabox.strategies.
  repeat first [ apply never_hangs_http_get | apply never_hangs_pattern_strategy
               | apply never_hangs_js_object_strategy | apply never_hangs_api_strategy
               | never_hangs_step ].
Qed.

Lemma resolver_total (url : string) (e : Env) (w : World) :
  exists r w', Terabox.get_terabox_download_link url e w = (Ret r, w').
Proof.
  unfold Terabox.get_terabox_download_link, try_except.
  pose proof (never_hangs_strategies url e w) as Hnh.
  destruct (Terabox.strategies url e w) as [[r|x|] w1]; cbn [fst] in Hnh.
  - eauto.
  - destruct x; unfold_monad;
      try (destruct (bool_decide (status_code ∈ [401; 403])));
      eexists; eexists; reflexivity.
  - contradiction.
Qed.

(** Strategy 2 never aborts the resolution: it returns a tuple or falls
    through, whatever the embedded state holds. *)
Theorem js_object_strategy_falls_through (content : string) (e : Env) (w : World) :
  exists r w', Terabox.js_object_strategy content e w = (Ret r, w').
Proof.
  pose proof (never_hangs_js_object_strategy content e w) as Hnh. revert Hnh.
  unfold Terabox.js_object_strategy, try_except.
  destruct (Re.search Terabox.INITIAL_STATE_RE content) as [mo|]; [| intros _; eexists; eexists; reflexivity].
  destruct (Terabox.js_object_body (Re.group 1 mo) e w) as [[r|x|] w1]; cbn [fst].
  - eauto.
  - intros _. destruct (is_JSONDecodeError x); unfold_monad; eexists; eexists; reflexivity.
  - contradiction.
Qed.

(** ** The store: registration, tokens, marks *)

(** Registering a caller: the first call for a caller not yet known
    returns [True] and appends it; from then on every call returns [False]
    and leaves the list as it is, so the list keeps having no duplicates. *)
Theorem add_user_registers_once (e : Env) (w : World) (user_id : Z) :
  w_lock w = false ->
  fst (Database.add_user user_id e w)
  = Ret (negb (bool_decide (user_id ∈ users (w_db w))))
  /\ user_id ∈ users (w_db (snd (Database.add_user user_id e w)))
  /\ (NoDup (users (w_db w)) -> NoDup (users (w_db (snd (Database.add_user user_id e w)))))
  /\ fst (Database.add_user user_id e (snd (Database.add_user user_id e w))) = Ret false
  /\ users (w_db (snd (Database.add_user user_id e (snd (Database.add_user user_id e w)))))
     = users (w_db (snd (Database.add_user user_id e w))).
Proof.
  intros Hfree.
  assert (Hknown : forall w0, user_id ∈ users (w_db w0) ->
            Database.add_user user_id e w0 = (Ret false, add_event (DbRead "users" "") w0)).
  { intros w0 Hin. unfold Database.add_user. unfold_monad. cbn [w_db add_event].
    rewrite bool_decide_eq_true_2 by exact Hin. reflexivity. }
  destruct (bool_decide (user_id ∈ users (w_db w))) eqn:Hdec.
  - apply bool_decide_eq_true_1 in Hdec.
    rewrite (Hknown w Hdec). cbn [fst snd w_db add_event].
    rewrite (Hknown (add_event (DbRead "users" "") w) Hdec). cbn [fst snd w_db add_event].
    repeat split; auto.
  - apply bool_decide_eq_false_1 in Hdec.
    assert (Hnew : exists w1,
      Database.add_user user_id e w = (Ret true, w1)
      /\ users (w_db w1) = (users (w_db w) ++ [user_id])%list).
    { unfold Database.add_user. unfold_monad. cbn [w_db add_event].
      rewrite bool_decide_eq_false_2 by exact Hdec.
      rewrite save_db_free by exact Hfree. cbn [w_db add_event set_db].
      destruct (Database.dumpable _); eexists; split; reflexivity. }
    destruct Hnew as (w1 & Hrun & Husers). rewrite Hrun. cbn [fst snd].
    assert (Hin : user_id ∈ users (w_db w1)).
    { rewrite Husers. apply elem_of_app. right. apply list_elem_of_singleton. reflexivity. }
    rewrite (Hknown w1 Hin). cbn [fst snd w_db add_event].
    repeat split; auto.
    intros Hnodup. rewrite Husers. apply NoDup_app. repeat split.
    + exact Hnodup.
    + intros x Hx Hx'. apply list_elem_of_singleton in Hx'. subst x. contradiction.
    + apply NoDup_singleton.
Qed.

Lemma add_user_registers_once_witness :
  fst (Database.add_user 7 offline_env token_world)
  = Ret (negb (bool_decide (7 ∈ users (w_db token_world))))
  /\ 7 ∈ users (w_db (snd (Database.add_user 7 offline_env token_world)))
  /\ (NoDup (users (w_db token_world)) ->
      NoDup (users (w_db (snd (Database.add_user 7 offline_env token_world)))))
  /\ fst (Database.add_user 7 offline_env (snd (Database.add_user 7 offline_env token_world)))
     = Ret false
  /\ users (w_db (snd (Database.add_user 7 offline_env
                         (snd (Database.add_user 7 offline_env token_world)))))
     = users (w_db (snd (Database.add_user 7 offline_env token_world))).
Proof.
  apply (add_user_registers_once offline_env token_world 7). reflexivity.
Defined.

Lemma str_inj (a b : Z) : Database.str a = Database.str b -> a = b.
Proof. unfold Database.str. apply (inj pretty). Qed.

Lemma dumpable_insert_token (d : Db) (k token : string) (v : pyval) :
  Database.dumpable d = true ->
  json_serializable v = true ->
  Database.dumpable (mkDb (users d) (<[k := mkTokenEntry token v]> (tokens d))
                          (spam_tracker d)) = true.
Proof.
  unfold Database.dumpable. cbn [tokens spam_tracker].
  intros Hd Hv. apply andb_true_iff in Hd as [Ht Hs].
  apply andb_true_iff. split; [| exact Hs].
  rewrite forallb_forall in *. intros [k' te] Hin.
  apply list_elem_of_In, elem_of_map_to_list in Hin.
  apply lookup_insert_Some in Hin as [[_ <-] | [_ Hold]]; [exact Hv|].
  apply (Ht (k', te)). apply list_elem_of_In, elem_of_map_to_list. exact Hold.
Qed.

Lemma dumpable_insert_mark (d : Db) (k : string) (v : pyval) :
  Database.dumpable d = true ->
  json_serializable v = true ->
  Database.dumpable (mkDb (users d) (tokens d) (<[k := v]> (spam_tracker d))) = true.
Proof.
  unfold Database.dumpable. cbn [tokens spam_tracker].
  intros Hd Hv. apply andb_true_iff in Hd as [Ht Hs].
  apply andb_true_iff. split; [exact Ht|].
  rewrite forallb_forall in *. intros [k' v'] Hin.
  apply list_elem_of_In, elem_of_map_to_list in Hin.
  apply lookup_insert_Some in Hin as [[_ <-] | [_ Hold]]; [exact Hv|].
  apply (Hs (k', v')). apply list_elem_of_In, elem_of_map_to_list. exact Hold.
Qed.

(** A token that was stored is the token that is read: after
    [store_token], [get_user_token_data] of the same caller returns the
    token and the expiry instant that were given, the entries of the other
    callers are as before, and when the document was serializable the
    file holds the new document. *)
Theorem stored_token_is_read_back
    (e : Env) (w : World) (user_id : Z) (token : string) (expires_at : Z) :
  w_lock w = false ->
  exists w1,
    Database.store_token user_id token expires_at e w = (Ret tt, w1)
    /\ w_lock w1 = false
    /\ fst (Database.get_user_token_data user_id e w1)
       = Ret (Some (Database.mkTokenData token expires_at))
    /\ (forall other, other <> user_id ->
          tokens (w_db w1) !! Database.str other = tokens (w_db w) !! Database.str other)
    /\ users (w_db w1) = users (w_db w)
    /\ spam_tracker (w_db w1) = spam_tracker (w_db w)
    /\ (Database.dumpable (w_db w) = true -> w_file w1 = FileDoc (w_db w1)).
Proof.
  intros Hfree. unfold Database.store_token. unfold_monad.
  rewrite save_db_free by exact Hfree. cbn [w_db add_event set_db].
  set (d1 := mkDb (users (w_db w))
               (<[Database.str user_id := mkTokenEntry token (PyIsoStr expires_at)]>
                  (tokens (w_db w)))
               (spam_tracker (w_db w))).
  assert (Hread : forall w1, w_db w1 = d1 ->
            fst (Database.get_user_token_data user_id e w1)
            = Ret (Some (Database.mkTokenData token expires_at))).
  { intros w1 Hdb.
    rewrite (get_user_token_data_iso e w1 user_id token expires_at); [reflexivity|].
    rewrite Hdb. apply lookup_insert_eq. }
  assert (Hother : forall other, other <> user_id ->
            tokens d1 !! Database.str other = tokens (w_db w) !! Database.str other).
  { intros other Hneq. cbn [d1 tokens]. apply lookup_insert_ne.
    intros Heq. apply Hneq. symmetry. apply str_inj. exact Heq. }
  destruct (Database.dumpable d1) eqn:Hdump.
  - eexists. split; [reflexivity|]. cbn [w_lock w_db w_file add_event set_lock set_file].
    repeat split; auto.
  - eexists. split; [reflexivity|]. cbn [w_lock w_db w_file add_event set_lock set_file].
    repeat split; auto.
    intros Hd. exfalso.
    pose proof (dumpable_insert_token (w_db w) (Database.str user_id) token
                  (PyIsoStr expires_at) Hd eq_refl) as Hd1.
    fold d1 in Hd1. rewrite Hd1 in Hdump. discriminate Hdump.
Qed.

Lemma stored_token_is_read_back_witness :
  exists w1,
    Database.store_token 7 "0f8fad5b" 1500000000 offline_env token_world = (Ret tt, w1)
    /\ w_lock w1 = false
    /\ fst (Database.get_user_token_data 7 offline_env w1)
       = Ret (Some (Database.mkTokenData "0f8fad5b" 1500000000))
    /\ (forall other, other <> 7 ->
          tokens (w_db w1) !! Database.str other
          = tokens (w_db token_world) !! Database.str other)
    /\ users (w_db w1) = users (w_db token_world)
    /\ spam_tracker (w_db w1) = spam_tracker (w_db token_world)
    /\ (Database.dumpable (w_db token_world) = true -> w_file w1 = FileDoc (w_db w1)).
Proof.
  apply (stored_token_is_read_back offline_env token_world 7 "0f8fad5b" 1500000000).
  reflexivity.
Defined.

(** The mark of the throttle: after [update_spam_time] of a caller,
    [get_last_spam_time] of that caller returns the clock reading taken by
    the update; what it returns for every other caller is what it returned
    before; tokens and users are untouched, and when the document was
    serializable the file holds the new document. *)
Theorem spam_mark_round_trip (e : Env) (w : World) (user_id : Z) :
  w_lock w = false ->
  exists w1,
    Database.update_spam_time user_id e w = (Ret tt, w1)
    /\ w_lock w1 = false
    /\ fst (Database.get_last_spam_time user_id e w1) = Ret (Some (clock e (w_reads w)))
    /\ (forall other, other <> user_id ->
          fst (Database.get_last_spam_time other e w1)
          = fst (Database.get_last_spam_time other e w))
    /\ tokens (w_db w1) = tokens (w_db w)
    /\ users (w_db w1) = users (w_db w)
    /\ (Database.dumpable (w_db w) = true -> w_file w1 = FileDoc (w_db w1)).
Proof.
  intros Hfree. unfold Database.update_spam_time, Database.touch_spam_time, now.
  unfold_monad. cbn [w_db w_reads set_reads add_event set_db].
  rewrite save_db_free by exact Hfree. cbn [w_db add_event set_db set_reads].
  set (d1 := mkDb (users (w_db w)) (tokens (w_db w))
               (<[Database.str user_id := PyIsoStr (clock e (w_reads w))]>
                  (spam_tracker (w_db w)))).
  assert (Hread : forall w1, w_db w1 = d1 ->
            fst (Database.get_last_spam_time user_id e w1)
            = Ret (Some (clock e (w_reads w)))).
  { intros w1 Hdb. unfold Database.get_last_spam_time. unfold_monad.
    cbn [w_db add_event]. rewrite Hdb. cbn [d1 spam_tracker].
    rewrite lookup_insert_eq. reflexivity. }
  assert (Hother : forall w1 other, w_db w1 = d1 -> other <> user_id ->
            fst (Database.get_last_spam_time other e w1)
            = fst (Database.get_last_spam_time other e w)).
  { intros w1 other Hdb Hneq. unfold Database.get_last_spam_time. unfold_monad.
    cbn [w_db add_event]. rewrite Hdb. cbn [d1 spam_tracker].
    rewrite lookup_insert_ne
      by (intros Heq; apply Hneq; symmetry; apply str_inj; exact Heq).
    destruct (spam_tracker (w_db w) !! Database.str other) as [v|]; [| reflexivity].
    destruct (truthy v); [| reflexivity].
    destruct (fromisoformat v); reflexivity. }
  destruct (Database.dumpable d1) eqn:Hdump.
  - eexists. split; [reflexivity|]. cbn [w_lock w_db w_file add_event set_lock set_file].
    repeat split; auto.
  - eexists. split; [reflexivity|]. cbn [w_lock w_db w_file add_event set_lock set_file].
    repeat split; auto.
    intros Hd. exfalso.
    pose proof (dumpable_insert_mark (w_db w) (Database.str user_id)
                  (PyIsoStr (clock e (w_reads w))) Hd eq_refl) as Hd1.
    fold d1 in Hd1. rewrite Hd1 in Hdump. discriminate Hdump.
Qed.

Lemma spam_mark_round_trip_witness :
  exists w1,
    Database.update_spam_time 7 offline_env token_world = (Ret tt, w1)
    /\ w_lock w1 = false
    /\ fst (Database.get_last_spam_time 7 offline_env w1)
       = Ret (Some (clock offline_env (w_reads token_world)))
    /\ (forall other, other <> 7 ->
          fst (Database.get_last_spam_time other offline_env w1)
          = fst (Database.get_last_spam_time other offline_env token_world))
    /\ tokens (w_db w1) = tokens (w_db token_world)
    /\ users (w_db w1) = users (w_db token_world)
    /\ (Database.dumpable (w_db token_world) = true -> w_file w1 = FileDoc (w_db w1)).
Proof.
  apply (spam_mark_round_trip offline_env token_world 7). reflexivity.
Defined.

(** A dump that fails does not stop the caller: when the document holds a
    value that [json.dump] cannot write, [update_spam_time] still returns,
    the new mark is in the document in memory, the lock is free again, the
    failure is only logged, and the file is left unparsable. *)
Theorem failed_save_is_absorbed
    (e : Env) (w : World) (user_id : Z) (k token : string) (t : Z) :
  tokens (w_db w) !! k = Some (mkTokenEntry token (PyDatetime t)) ->
  w_lock w = false ->
  exists w1,
    Database.update_spam_time user_id e w = (Ret tt, w1)
    /\ spam_tracker (w_db w1) !! Database.str user_id = Some (PyIsoStr (clock e (w_reads w)))
    /\ w_lock w1 = false
    /\ w_file w1 = FileCorrupt
    /\ In (Logged LogSaveFailed) (w_trace w1).
Proof.
  intros Hk Hfree. unfold Database.update_spam_time, Database.touch_spam_time, now.
  unfold_monad. cbn [w_db w_reads set_reads add_event set_db].
  rewrite save_db_free by exact Hfree. cbn [w_db add_event set_db set_reads].
  erewrite datetime_not_dumpable by (cbn [tokens]; exact Hk).
  eexists. split; [reflexivity|].
  cbn [w_lock w_db w_file w_trace add_event set_lock set_file spam_tracker].
  repeat split.
  - apply lookup_insert_eq.
  - rewrite !in_app_iff. simpl. tauto.
Qed.

Lemma failed_save_is_absorbed_witness :
  exists w1,
    Database.update_spam_time 42 offline_env token_read_world = (Ret tt, w1)
    /\ spam_tracker (w_db w1) !! Database.str 42
       = Some (PyIsoStr (clock offline_env (w_reads token_read_world)))
    /\ w_lock w1 = false
    /\ w_file w1 = FileCorrupt
    /\ In (Logged LogSaveFailed) (w_trace w1).
Proof.
  apply (failed_save_is_absorbed offline_env token_read_world 42 "42" "7c9e6679" 2000000000).
  - vm_compute. reflexivity.
  - reflexivity.
Defined.

(** Start-up. [load_db] installs the document of a file that parses and
    frees the lock. When the file is missing or does not parse it resets
    the document and awaits [save_db] while it still holds the lock, which
    is not re-entrant: the call never returns, the lock stays held and the
    file is not written. *)
Theorem load_db_outcomes (e : Env) (w : World) :
  w_lock w = false ->
  match w_file w with
  | FileDoc d =>
      exists w', Startup.load_db e w = (Ret tt, w')
                 /\ w_db w' = d /\ w_lock w' = false /\ w_file w' = FileDoc d
  | _ =>
      exists w', Startup.load_db e w = (Hang, w')
                 /\ w_db w' = empty_db /\ w_lock w' = true /\ w_file w' = w_file w
  end.
Proof.
  intros Hfree. unfold Startup.load_db, Database.acquire_db_lock, Database.release_db_lock,
    Database.save_db, Database.acquire_db_lock.
  unfold_monad. rewrite Hfree. cbn [w_file add_event set_lock].
  destruct (w_file w) as [| d |] eqn:Hfile; cbn [w_lock set_db add_event set_lock];
    eexists; (split; [reflexivity|]); repeat split; cbn; auto.
Qed.

Lemma load_db_outcomes_witness :
  exists w', Startup.load_db offline_env first_start = (Hang, w')
             /\ w_db w' = empty_db /\ w_lock w' = true /\ w_file w' = w_file first_start.
Proof.
  apply (load_db_outcomes offline_env first_start). reflexivity.
Defined.

(** ** The chain of wrappers *)

Lemma guarded_allowed (gate : M Decorators.verdict) (func : M unit)
    (e : Env) (w w1 : World) :
  gate e w = (Ret Decorators.Allowed, w1) ->
  Decorators.guarded gate func e w = func e w1.
Proof.
  intros Hgate. unfold Decorators.guarded. unfold_monad. rewrite Hgate.
  destruct (func e w1). reflexivity.
Qed.

Lemma guarded_denied (gate : M Decorators.verdict) (func : M unit)
    (e : Env) (w w1 : World) (r : Decorators.reason) :
  gate e w = (Ret (Decorators.Denied r), w1) ->
  Decorators.guarded gate func e w = (Ret tt, w1).
Proof.
  intros Hgate. unfold Decorators.guarded. unfold_monad. rewrite Hgate. reflexivity.
Qed.

(** An administrator passes the three wrappers of [message_handler]
    without any check: no membership lookup, no read of the token, no read
    or update of the throttle mark; the run is the run of the body. *)
Theorem admin_bypasses_gates (e : Env) (w : World) (user_id : Z) (text : string) :
  Decorators.is_admin e user_id = true ->
  Handlers.message_handler user_id text e w = Handlers.link_handler user_id text e w.
Proof.
  intros Hadmin. unfold Handlers.message_handler, Decorators.fsub_required,
    Decorators.token_required, Decorators.spam_check.
  rewrite (guarded_allowed _ _ e w w)
    by (unfold Decorators.fsub_gate; unfold_monad; rewrite Hadmin; reflexivity).
  rewrite (guarded_allowed _ _ e w w)
    by (unfold Decorators.token_gate; unfold_monad; rewrite Hadmin; reflexivity).
  rewrite (guarded_allowed _ _ e w w)
    by (unfold Decorators.spam_gate; unfold_monad; rewrite Hadmin; reflexivity).
  reflexivity.
Qed.

Lemma admin_bypasses_gates_witness :
  Handlers.message_handler 1 "hello" offline_env first_start
  = Handlers.link_handler 1 "hello" offline_env first_start.
Proof.
  apply (admin_bypasses_gates offline_env first_start 1 "hello"). reflexivity.
Defined.

(** A caller who is not a member of the channel never reaches a handler
    wrapped in [fsub_required] (the link handler, /start, /help,
    /get_token): the wrapper returns after the join prompt, which carries
    a button when the chat has an invite link or one could be exported; a
    callback query is answered with an alert first. Nothing of the store,
    of the files or of the clock is touched and no page is fetched,
    whatever the wrapped function would have done. *)
Theorem non_member_gets_join_prompt
    (e : Env) (w : World) (upd : Decorators.update) (user_id : Z) (func : M unit) :
  Decorators.is_admin e user_id = false ->
  FSUB_ID (cfg e) <> 0 ->
  member_status e ∉ ["member"; "administrator"; "creator"] ->
  calm w ->
  exists w',
    Decorators.fsub_required upd user_id func e w = (Ret tt, w')
    /\ w_db w' = w_db w /\ w_file w' = w_file w /\ w_fs w' = w_fs w
    /\ w_reads w' = w_reads w
    /\ shown (w_trace w')
       = (shown (w_trace w)
          ++ match upd with
             | Decorators.IsMessage => []
             | Decorators.IsCallbackQuery => [TxtMustJoinAlert]
             end
          ++ [TxtJoinChannel (title (chat e))
                (if Str.opt_truthy (invite_link (chat e)) then true
                 else Str.truthy (exported_link e))])%list
    /\ existsb fetched (w_trace w') = existsb fetched (w_trace w).
Proof.
  intros Hadmin Hfsub Hmember Hcalm.
  unfold Decorators.fsub_required.
  assert (Hgate : exists w',
    Decorators.fsub_gate upd user_id e w
    = (Ret (Decorators.Denied Decorators.MembershipRequired), w')
    /\ w_db w' = w_db w /\ w_file w' = w_file w /\ w_fs w' = w_fs w
    /\ w_reads w' = w_reads w
    /\ shown (w_trace w')
       = (shown (w_trace w)
          ++ match upd with
             | Decorators.IsMessage => []
             | Decorators.IsCallbackQuery => [TxtMustJoinAlert]
             end
          ++ [TxtJoinChannel (title (chat e))
                (if Str.opt_truthy (invite_link (chat e)) then true
                 else Str.truthy (exported_link e))])%list
    /\ existsb fetched (w_trace w') = existsb fetched (w_trace w)).
  { unfold Decorators.fsub_gate, Decorators.not_participant, Decorators.join_prompt.
    unfold_monad. rewrite Hadmin.
    apply Z.eqb_neq in Hfsub. rewrite Hfsub.
    rewrite tg_call_calm by exact Hcalm.
    rewrite bool_decide_eq_false_2 by exact Hmember.
    cbn [is_UserNotParticipant].
    rewrite tg_call_calm by exact Hcalm.
    destruct (Str.opt_truthy (invite_link (chat e))) eqn:Hlink; cbn [negb];
      rewrite ?Hlink; repeat (rewrite tg_call_calm by exact Hcalm); cbn [Str.opt_truthy];
      destruct upd; unfold try_except; repeat (rewrite tg_call_calm by exact Hcalm);
      (eexists; split; [reflexivity|]);
      cbn [w_db w_file w_fs w_reads w_trace add_event];
      rewrite !shown_app, !existsb_app; cbn; rewrite ?app_nil_r, ?orb_false_r;
      rewrite <- ?app_assoc; repeat split. }
  destruct Hgate as (w' & Hrun & Hrest).
  exists w'. split; [| exact Hrest].
  apply (guarded_denied _ _ e w w' _ Hrun).
Qed.

Lemma non_member_gets_join_prompt_witness :
  exists w',
    Decorators.fsub_required Decorators.IsMessage 42
      (Handlers.link_handler 42 "hello") outsider_env token_world = (Ret tt, w')
    /\ w_db w' = w_db token_world /\ w_file w' = w_file token_world
    /\ w_fs w' = w_fs token_world
    /\ w_reads w' = w_reads token_world
    /\ shown (w_trace w')
       = (shown (w_trace token_world)
          ++ []
          ++ [TxtJoinChannel (title (chat outsider_env))
                (if Str.opt_truthy (invite_link (chat outsider_env)) then true
                 else Str.truthy (exported_link outsider_env))])%list
    /\ existsb fetched (w_trace w') = existsb fetched (w_trace token_world).
Proof.
  apply (non_member_gets_join_prompt outsider_env token_world Decorators.IsMessage 42
           (Handlers.link_handler 42 "hello")).
  - reflexivity.
  - vm_compute. discriminate.
  - refine (bool_decide_eq_false_1 _ _). vm_compute. reflexivity.
  - reflexivity.
Defined.

(** A member without a token is stopped by the second wrapper: the reply
    is the request for a token, the throttle is not consulted (the mark of
    the caller is what it was), the document and the files are untouched
    and no page is fetched. *)
Theorem missing_token_stops_before_throttle
    (e : Env) (w : World) (user_id : Z) (text : string) :
  Decorators.is_admin e user_id = false ->
  bool_decide (member_status e ∈ ["member"; "administrator"; "creator"]) = true ->
  tokens (w_db w) !! Database.str user_id = None ->
  calm w ->
  exists w',
    Handlers.message_handler user_id text e w = (Ret tt, w')
    /\ w_db w' = w_db w /\ w_file w' = w_file w /\ w_fs w' = w_fs w
    /\ shown (w_trace w') = (shown (w_trace w) ++ [TxtTokenRequired])%list
    /\ existsb fetched (w_trace w') = existsb fetched (w_trace w).
Proof.
  intros Hadmin Hmember Hk Hcalm.
  destruct (fsub_gate_member e w Decorators.IsMessage user_id Hadmin Hmember Hcalm)
    as (ev & Hfsub & Hs1 & Hs2 & Hs3).
  unfold Handlers.message_handler, Decorators.fsub_required, Decorators.token_required.
  rewrite (guarded_allowed _ _ e w _ Hfsub).
  erewrite guarded_denied
    by (apply token_gate_missing; [exact Hadmin | exact Hk | exact Hcalm]).
  eexists. split; [reflexivity|].
  cbn [w_db w_file w_fs w_trace add_event set_reads].
  rewrite !shown_app, !existsb_app, Hs1, Hs2. cbn.
  rewrite !app_nil_r, !orb_false_r. repeat split.
Qed.

Lemma missing_token_stops_before_throttle_witness :
  exists w',
    Handlers.message_handler 42 "hello" offline_env bare_world = (Ret tt, w')
    /\ w_db w' = w_db bare_world /\ w_file w' = w_file bare_world
    /\ w_fs w' = w_fs bare_world
    /\ shown (w_trace w') = (shown (w_trace bare_world) ++ [TxtTokenRequired])%list
    /\ existsb fetched (w_trace w') = existsb fetched (w_trace bare_world).
Proof.
  apply (missing_token_stops_before_throttle offline_env bare_world 42 "hello").
  - reflexivity.
  - vm_compute. reflexivity.
  - vm_compute. reflexivity.
  - reflexivity.
Defined.

(** ** The throttle, one caller at a time *)

(** The decision of the throttle for a caller with a readable mark [t]:
    inside the window ([now - t < delay]) the caller is refused, told the
    remaining whole seconds, and the document is left alone; from the end
    of the window on the caller is admitted, nothing is shown, and the
    mark becomes the clock reading taken by the update. *)
Theorem spam_gate_decision (e : Env) (w : World) (user_id t : Z) :
  Decorators.is_admin e user_id = false ->
  w_lock w = false ->
  calm w ->
  spam_tracker (w_db w) !! Database.str user_id = Some (PyIsoStr t) ->
  (clock e (w_reads w) - t < Decorators.delay e ->
   exists w',
     Decorators.spam_gate user_id e w = (Ret (Decorators.Denied Decorators.RateLimited), w')
     /\ w_db w' = w_db w /\ w_file w' = w_file w
     /\ shown (w_trace w')
        = (shown (w_trace w)
           ++ [TxtSpamProtection
                 (Z.quot (Decorators.delay e - (clock e (w_reads w) - t)) 1000000)])%list)
  /\ (Decorators.delay e <= clock e (w_reads w) - t ->
      exists w',
        Decorators.spam_gate user_id e w = (Ret Decorators.Allowed, w')
        /\ Race.mark user_id w' = Some (clock e (S (w_reads w)))
        /\ shown (w_trace w') = shown (w_trace w)).
Proof.
  intros Hadmin Hfree Hcalm Hmark. split.
  - intros Hin. apply Z.ltb_lt in Hin.
    unfold Decorators.spam_gate, Database.get_last_spam_time, now, Decorators.too_early.
    unfold_monad. rewrite Hadmin. cbn [w_db add_event w_reads set_reads].
    rewrite Hmark. cbn [truthy fromisoformat]. unfold_monad.
    cbn [w_db add_event w_reads set_reads]. rewrite Hin.
    rewrite tg_call_calm by exact Hcalm.
    eexists. split; [reflexivity|].
    cbn [w_db w_file w_trace add_event set_reads].
    rewrite !shown_app. cbn. rewrite !app_nil_r. repeat split.
  - intros Hout. apply Z.ltb_ge in Hout.
    destruct (spam_gate_admits e w user_id Hadmin Hfree)
      as (w' & evs & Hrun & Htrace & (Hs1 & _) & _ & _ & Hnew).
    { unfold Race.mark, Decorators.too_early. rewrite Hmark. cbn [truthy fromisoformat].
      rewrite Hout. reflexivity. }
    exists w'. split; [exact Hrun|]. split; [exact Hnew|].
    rewrite Htrace, shown_app, Hs1, app_nil_r. reflexivity.
Qed.

Lemma spam_gate_decision_witness :
  exists w',
    Decorators.spam_gate 42 offline_env marked_world
    = (Ret (Decorators.Denied Decorators.RateLimited), w')
    /\ w_db w' = w_db marked_world /\ w_file w' = w_file marked_world
    /\ shown (w_trace w')
       = (shown (w_trace marked_world)
          ++ [TxtSpamProtection
                (Z.quot (Decorators.delay offline_env
                         - (clock offline_env (w_reads marked_world) - 999990000))
                        1000000)])%list.
Proof.
  destruct (spam_gate_decision offline_env marked_world 42 999990000) as [Hinside _].
  - reflexivity.
  - reflexivity.
  - reflexivity.
  - vm_compute. reflexivity.
  - apply Hinside. vm_compute. reflexivity.
Defined.

(** The number of seconds the refusal announces, for a configured delay
    below 2**33 seconds (where the float that [total_seconds] returns
    truncates to the exact quotient): when the clock has not gone back
    behind the mark it lies between zero and the configured delay, and it
    is the remaining time rounded down to whole seconds, so a caller with
    less than a second to go is told to wait 0 seconds. *)
Theorem wait_seconds_bounds (e : Env) (t now_utc wait_seconds : Z) :
  SPAM_DELAY_SECONDS (cfg e) < 2 ^ 33 ->
  Decorators.too_early e (Some t) now_utc = Some wait_seconds ->
  t <= now_utc ->
  0 <= wait_seconds <= SPAM_DELAY_SECONDS (cfg e)
  /\ 1000000 * wait_seconds <= Decorators.delay e - (now_utc - t)
     < 1000000 * (wait_seconds + 1)
  /\ now_utc - t < Decorators.delay e.
Proof.
  unfold Decorators.too_early, Decorators.delay. intros _ Hearly Hle.
  destruct (now_utc - t <? SPAM_DELAY_SECONDS (cfg e) * 1000000) eqn:Hin;
    [| discriminate Hearly].
  apply Z.ltb_lt in Hin. injection Hearly as <-.
  set (r := SPAM_DELAY_SECONDS (cfg e) * 1000000 - (now_utc - t)) in *.
  assert (Hr : 0 < r) by (unfold r; lia).
  rewrite Z.quot_div_nonneg by lia.
  pose proof (Z.div_mod r 1000000 ltac:(lia)) as Hdm.
  pose proof (Z.mod_pos_bound r 1000000 ltac:(lia)) as Hmod.
  assert (Hq : 0 <= r / 1000000) by (apply Z.div_pos; lia).
  repeat split; lia.
Qed.

Lemma wait_seconds_bounds_witness :
  0 <= 59 <= SPAM_DELAY_SECONDS (cfg offline_env)
  /\ 1000000 * 59 <= Decorators.delay offline_env - (1000000000 - 999990000)
     < 1000000 * (59 + 1)
  /\ 1000000000 - 999990000 < Decorators.delay offline_env.
Proof.
  apply (wait_seconds_bounds offline_env 999990000 1000000000 59).
  - vm_compute. reflexivity.
  - vm_compute. reflexivity.
  - lia.
Defined.

(** ** The pipeline *)

Lemma never_hangs_progress_callback (current total : Z) (status : string) :
  never_hangs (Helpers.progress_callback current total status).
Proof. unfold Helpers.progress_callback. never_hangs_auto. Qed.

Lemma never_hangs_write_chunks (path : string) (total : Z) (chunks : list Z) :
  forall current, never_hangs (Handlers.write_chunks path total chunks current).
Proof.
  induction chunks as [|chunk rest IH]; intros current; cbn [Handlers.write_chunks].
  - apply never_hangs_ret.
  - repeat first [ apply never_hangs_progress_callback | apply IH | never_hangs_step ].
Qed.

Lemma never_hangs_stream_to_file (d : Download) (path filename : string) (total : Z) :
  never_hangs (Handlers.stream_to_file d path filename total).
Proof.
  unfold Handlers.stream_to_file, Handlers.edit_text.
  repeat first [ apply never_hangs_progress_callback | apply never_hangs_write_chunks
               | never_hangs_step ].
Qed.

Lemma never_hangs_download_body (url path filename : string) :
  never_hangs (Handlers.download_body url path filename).
Proof.
  unfold Handlers.download_body, Handlers.edit_text.
  repeat first [ apply never_hangs_stream_to_file | never_hangs_step ].
Qed.

Lemma never_hangs_download_failed (x : exn) : never_hangs (Handlers.download_failed x).
Proof.
  unfold Handlers.download_failed, Handlers.edit_text. never_hangs_auto.
Qed.

(** The [finally] block of the download: when removing files is
    permitted, the file is on disk after the download phase exactly when
    the phase reports success. Whatever else happens (a refused size, a
    network error, a chunk past the ceiling, a status update that the
    transport rejects inside an [except] clause) no file is left at the
    download path. *)
Theorem download_file_kept_iff_success
    (url path filename : string) (e : Env) (w w' : World) (r : res (option Z)) :
  remove_permitted e = true ->
  Handlers.download_phase url path filename e w = (r, w') ->
  (is_Some (w_fs w' !! path) <-> exists n, r = Ret (Some n)).
Proof.
  intros Hrm Hrun. split.
  - intros Hfile. revert Hrun. unfold Handlers.download_phase.
    pose proof (never_hangs_try_except (Handlers.download_body url path filename)
                  (fun x => Some (Handlers.download_failed x))
                  (never_hangs_download_body url path filename)) as Hnh.
    specialize (Hnh ltac:(intros x h [= <-]; apply never_hangs_download_failed) e w).
    destruct (try_except _ _ e w) as [r0 w1]. cbn [fst] in Hnh.
    assert (Hclean : forall r1 : res (option Z),
              r1 <> Hang ->
              try_finally (fun _ _ => (r1, w1))
                (Handlers.remove_if_exists path (log LogRemovedIncomplete)) e w1 = (r, w') ->
              False).
    { intros r1 Hr1. unfold try_finally.
      destruct (remove_if_exists_spec path e w1 Hrm) as (w2 & Hrem & Hfs & _).
      rewrite Hrem.
      destruct r1 as [a|x|]; [| | contradiction]; intros [= <- <-];
        rewrite Hfs, lookup_delete_eq in Hfile; destruct Hfile as [? [= ]]. }
    destruct r0 as [[n|]|x|]; cbn [negb].
    + unfold try_finally. cbn. intros [= <- <-]. eauto.
    + intros H. exfalso. apply (Hclean (Ret None)); [discriminate | exact H].
    + intros H. exfalso. apply (Hclean (Exn x)); [discriminate | exact H].
    + contradiction.
  - intros [n ->]. exact (download_success_leaves_file url path filename e w w' n Hrun).
Qed.

Lemma download_file_kept_iff_success_witness :
  is_Some (w_fs after_download !! Handlers.download_path_of small_env 42 "clip.mp4")
  <-> exists n,
        fst (Handlers.download_phase "https://d.terabox.com/f.mp4"
               (Handlers.download_path_of small_env 42 "clip.mp4") "clip.mp4"
               small_env after_start) = Ret (Some n).
Proof.
  apply (download_file_kept_iff_success "https://d.terabox.com/f.mp4"
           (Handlers.download_path_of small_env 42 "clip.mp4") "clip.mp4"
           small_env after_start after_download).
  - reflexivity.
  - apply surjective_pairing.
Defined.

(** Forwarding to the dump chat never fails the handler: whatever the
    transport raises, on the first attempt or on the retry after a flood
    wait, [forward_phase] returns, and it touches neither the store nor
    the files. *)
Theorem forward_phase_never_raises (uploaded : bool) (e : Env) (w : World) :
  exists w',
    Handlers.forward_phase uploaded e w = (Ret tt, w')
    /\ w_db w' = w_db w /\ w_fs w' = w_fs w /\ w_lock w' = w_lock w.
Proof.
  unfold Handlers.forward_phase, asyncio_sleep, global_name. unfold_monad.
  destruct (uploaded && negb (DUMP_CHAT_ID (cfg e) =? 0)); [| eauto].
  unfold tg_call at 1.
  destruct (w_tg w) as [|[x|] q]; cbn; eauto.
  destruct x; cbn; eauto.
  unfold tg_call. cbn [w_tg add_event set_tg].
  destruct q as [|[y|] q']; cbn; eauto.
Qed.

(** The progress callback with a known total. What building the text
    raises (the float arithmetic and the [humanize] calls, which run
    before the throttle test and outside the [try]) is raised to the
    caller, with no call to the transport, also within three seconds of
    the last edit. When the text can be built the callback never fails
    its caller, whatever the transport does with the edit; within three
    seconds of the last edit that went through it does not call the
    transport at all; and the time of the last edit moves only when an
    edit went through, to the reading of the clock taken at the start of
    the call. *)
Theorem progress_callback_throttled
    (current total : Z) (status : string) (e : Env) (w : World) :
  total <> 0 ->
  match progress_text_raises e (clock e (w_reads w)) current total with
  | Some x =>
      Helpers.progress_callback current total status e w
      = (Exn x, set_reads (S (w_reads w)) w)
  | None =>
      exists w',
        Helpers.progress_callback current total status e w = (Ret tt, w')
        /\ w_reads w' = S (w_reads w)
        /\ (forall last, w_last_update w = Some last ->
              clock e (w_reads w) - last < 3000000 ->
              w_trace w' = w_trace w /\ w_tg w' = w_tg w /\ w_last_update w' = Some last)
        /\ (w_last_update w' = w_last_update w
            \/ (w_last_update w' = Some (clock e (w_reads w))
                /\ shown (w_trace w')
                   = (shown (w_trace w) ++ [TxtProgress status current total])%list))
  end.
Proof.
  intros Htotal. apply Z.eqb_neq in Htotal.
  unfold Helpers.progress_callback, now. unfold_monad. rewrite Htotal.
  cbn [w_reads set_reads].
  destruct (progress_text_raises e (clock e (w_reads w)) current total) as [x|];
    [reflexivity|].
  cbn [w_last_update set_reads].
  destruct (w_last_update w) as [last|] eqn:Hlast.
  - destruct (clock e (w_reads w) - last <? 3000000) eqn:Hsoon.
    + eexists. split; [reflexivity|]. cbn [w_reads w_trace w_tg w_last_update set_reads].
      split; [reflexivity|].
      split; [intros last' [= <-] _; auto | left; exact Hlast].
    + apply Z.ltb_ge in Hsoon. unfold tg_call. cbn [w_tg set_reads].
      destruct (w_tg w) as [|[x|] q]; cbn; eexists; (split; [reflexivity|]); cbn;
        rewrite ?Hlast; (split; [reflexivity|]);
        (split; [intros last' [= <-] Hlt; lia |]);
        rewrite ?shown_app; cbn; rewrite ?app_nil_r; auto.
  - unfold tg_call. cbn [w_tg set_reads].
    destruct (w_tg w) as [|[x|] q]; cbn; eexists; (split; [reflexivity|]); cbn;
      rewrite ?Hlast; (split; [reflexivity|]);
      (split; [intros last' [= ] |]);
      rewrite ?shown_app; cbn; rewrite ?app_nil_r; auto.
Qed.

Lemma progress_callback_throttled_witness :
  Helpers.progress_callback 1 2000000000 "Downloading" slow_transfer_env recently_edited
  = (Exn OverflowError, set_reads (S (w_reads recently_edited)) recently_edited).
Proof.
  apply (progress_callback_throttled 1 2000000000 "Downloading" slow_transfer_env
           recently_edited).
  lia.
Defined.

(** ** Computations that only fetch and log *)

Definition benign (ev : event) : bool :=
  match ev with HttpGet _ | Logged _ => true | _ => false end.

(** [w'] is [w] with more events in the trace. *)
Definition grows (w w' : World) (evs : list event) : Prop :=
  w' = mkWorld (w_db w) (w_file w) (w_lock w) (w_reads w) (w_tg w) (w_fs w)
               (w_last_update w) (w_trace w ++ evs).

Definition quiet {A} (m : M A) : Prop :=
  forall e w, exists evs, grows w (snd (m e w)) evs /\ forallb benign evs = true.

Lemma grows_refl (w : World) : grows w w [].
Proof. unfold grows. rewrite app_nil_r. destruct w; reflexivity. Qed.

Lemma grows_trans (w1 w2 w3 : World) (evs1 evs2 : list event) :
  grows w1 w2 evs1 -> grows w2 w3 evs2 -> grows w1 w3 (evs1 ++ evs2).
Proof.
  unfold grows. intros -> ->. cbn. rewrite app_assoc. reflexivity.
Qed.

Lemma quiet_ret {A} (a : A) : quiet (mret a).
Proof. intros e w. exists []. split; [apply grows_refl | reflexivity]. Qed.

Lemma quiet_raise {A} (x : exn) : quiet (@raise A x).
Proof. intros e w. exists []. split; [apply grows_refl | reflexivity]. Qed.

Lemma quiet_lift {A} (r : exn + A) : quiet (lift r).
Proof. destruct r as [x|a]; [apply quiet_raise | apply quiet_ret]. Qed.

Lemma quiet_ask : quiet ask.
Proof. intros e w. exists []. split; [apply grows_refl | reflexivity]. Qed.

Lemma quiet_log (l : logline) : quiet (log l).
Proof. intros e w. exists [Logged l]. split; reflexivity. Qed.

Lemma quiet_http_get_event (url : string) : quiet (emit (HttpGet url)).
Proof. intros e w. exists [HttpGet url]. split; reflexivity. Qed.

Lemma quiet_global_name (names : list string) (name : string) :
  quiet (global_name names name).
Proof.
  unfold global_name. destruct (bool_decide (name ∈ names));
    [apply (quiet_ret tt) | apply quiet_raise].
Qed.

Lemma quiet_bind {A B} (m : M A) (k : A -> M B) :
  quiet m -> (forall a, quiet (k a)) -> quiet (m ≫= k).
Proof.
  intros Hm Hk e w. unfold mbind, M_bind, bind.
  destruct (Hm e w) as (evs1 & Hg1 & Hb1).
  destruct (m e w) as [[a|x|] w1]; cbn [snd] in *.
  - destruct (Hk a e w1) as (evs2 & Hg2 & Hb2).
    exists (evs1 ++ evs2)%list. split; [exact (grows_trans _ _ _ _ _ Hg1 Hg2)|].
    rewrite forallb_app, Hb1, Hb2. reflexivity.
  - exists evs1. split; assumption.
  - exists evs1. split; assumption.
Qed.

Lemma quiet_try_except {A} (body : M A) (handler : exn -> option (M A)) :
  quiet body ->
  (forall x h, handler x = Some h -> quiet h) ->
  quiet (try_except body handler).
Proof.
  intros Hb Hh e w. unfold try_except.
  destruct (Hb e w) as (evs1 & Hg1 & Hb1).
  destruct (body e w) as [[a|x|] w1]; cbn [snd] in *;
    try (exists evs1; split; assumption).
  destruct (handler x) as [h|] eqn:Hx; [| exists evs1; split; assumption].
  destruct (Hh x h Hx e w1) as (evs2 & Hg2 & Hb2).
  exists (evs1 ++ evs2)%list. split; [exact (grows_trans _ _ _ _ _ Hg1 Hg2)|].
  rewrite forallb_app, Hb1, Hb2. reflexivity.
Qed.

Ltac quiet_step :=
  first
    [ apply quiet_ret | apply quiet_raise | apply quiet_lift | apply quiet_ask
    | apply quiet_log | apply quiet_http_get_event | apply quiet_global_name
    | apply quiet_bind | apply quiet_try_except
    | match goal with
      | |- quiet (if ?b then _ else _) => destruct b
      | |- quiet (match ?x with _ => _ end) => destruct x
      | |- quiet (let _ := _ in _) => cbv zeta
      | |- forall _, _ => intros
      | H : Some _ = Some _ |- _ => injection H as <-
      | H : None = Some _ |- _ => discriminate H
      | H : (if ?b then _ else _) = Some _ |- _ => destruct b
      | H : match ?x with _ => _ end = Some _ |- _ => destruct x
      end ].

Lemma quiet_format_bytes (n : Z) : quiet (Terabox._format_bytes n).
Proof. unfold Terabox._format_bytes. repeat quiet_step. Qed.

Lemma quiet_extract_filename (content url : string) :
  quiet (Terabox._extract_filename content url).
Proof. unfold Terabox._extract_filename. repeat quiet_step. Qed.

Lemma quiet_extract_filesize_str (content : string) :
  quiet (Terabox._extract_filesize_str content).
Proof.
  unfold Terabox._extract_filesize_str.
  repeat first [ apply quiet_format_bytes | quiet_step ].
Qed.

Lemma quiet_http_get (url : string) : quiet (Terabox.http_get url).
Proof. unfold Terabox.http_get. repeat quiet_step. Qed.

Lemma quiet_pattern_strategy (content url : string) :
  quiet (Terabox.pattern_strategy content url).
Proof.
  unfold Terabox.pattern_strategy.
  repeat first [ apply quiet_extract_filename | apply quiet_extract_filesize_str
               | quiet_step ].
Qed.

Lemma quiet_js_object_body (js_data_str : string) :
  quiet (Terabox.js_object_body js_data_str).
Proof.
  unfold Terabox.js_object_body.
  repeat first [ apply quiet_format_bytes | quiet_step ].
Qed.

Lemma quiet_api_body (content url api_url : string) :
  quiet (Terabox.api_body content url api_url).
Proof.
  unfold Terabox.api_body.
  repeat first [ apply quiet_http_get | apply quiet_extract_filename
               | apply quiet_extract_filesize_str | quiet_step ].
Qed.

Lemma quiet_js_object_strategy (content : string) :
  quiet (Terabox.js_object_strategy content).
Proof.
  unfold Terabox.js_object_strategy.
  repeat first [ apply quiet_js_object_body | quiet_step ].
Qed.

Lemma quiet_api_strategy (json_bound : bool) (content url : string) :
  quiet (Terabox.api_strategy json_bound content url).
Proof.
  unfold Terabox.api_strategy.
  repeat first [ apply quiet_api_body | quiet_step ].
Qed.

Lemma quiet_strategies (url : string) : quiet (Terabox.strategies url).
Proof.
  unfold Terabox.strategies.
  repeat first [ apply quiet_http_get | apply quiet_pattern_strategy
               | apply quiet_js_object_strategy | apply quiet_api_strategy
               | quiet_step ].
Qed.

Lemma quiet_get_terabox_download_link (url : string) :
  quiet (Terabox.get_terabox_download_link url).
Proof.
  unfold Terabox.get_terabox_download_link.
  repeat first [ apply quiet_strategies | quiet_step ].
Qed.

(** The resolver never raises and has no effect but its requests and its
    log lines: whatever the page, the network and the JSON parser do,
    [get_terabox_download_link] returns a tuple to its caller; the store,
    the database file, the lock, the clock, the queue of the transport
    and the files on disk are after the call what they were before, and
    the trace has only grown by page requests and log lines. *)
Theorem resolver_always_returns (url : string) (e : Env) (w : World) :
  exists r evs,
    Terabox.get_terabox_download_link url e w
    = (Ret r,
       mkWorld (w_db w) (w_file w) (w_lock w) (w_reads w) (w_tg w) (w_fs w)
               (w_last_update w) (w_trace w ++ evs))
    /\ forallb benign evs = true.
Proof.
  destruct (resolver_total url e w) as (r & w' & Hrun).
  destruct (quiet_get_terabox_download_link url e w) as (evs & Hgrow & Hbenign).
  rewrite Hrun in Hgrow. cbn [snd] in Hgrow. unfold grows in Hgrow.
  exists r, evs. split; [rewrite Hrun, Hgrow; reflexivity | exact Hbenign].
Qed.

Lemma benign_shows_nothing (evs : list event) :
  forallb benign evs = true -> shown evs = [].
Proof.
  induction evs as [|ev evs IH]; [reflexivity|].
  cbn [forallb]. intros H. apply andb_true_iff in H as [Hev Hrest].
  destruct ev; try discriminate Hev; cbn [shown]; apply IH; exact Hrest.
Qed.

(** ** The content filter *)

Lemma lower_truthy (a b : string) :
  Str.lower a = Str.lower b -> Str.truthy a = Str.truthy b.
Proof.
  destruct a, b; cbn; intros H; try reflexivity; discriminate H.
Qed.

(** The filter looks at the lower-cased text only: two names that differ
    in the case of their letters get the same verdict. *)
Theorem is_adult_ignores_case (e : Env) (a b : string) :
  Str.lower a = Str.lower b ->
  Helpers.is_adult e a = Helpers.is_adult e b.
Proof.
  intros Hlow. unfold Helpers.is_adult.
  rewrite (lower_truthy a b Hlow), Hlow. reflexivity.
Qed.

Lemma is_adult_ignores_case_witness :
  Helpers.is_adult offline_env "XXX clip.MP4" = Helpers.is_adult offline_env "xxx Clip.mp4".
Proof.
  apply (is_adult_ignores_case offline_env "XXX clip.MP4" "xxx Clip.mp4").
  vm_compute. reflexivity.
Defined.

(** A resolved file whose name the filter rejects is never downloaded:
    after the resolver has returned the handler logs, replaces the status
    by "Content Blocked" and returns; the files on disk and the store are
    what they were when the message arrived. *)
Theorem adult_filename_blocks_download
    (e : Env) (w w1 : World) (user_id : Z) (text link direct_link filename : string)
    (file_size_str : json) :
  calm w ->
  Terabox.extract_terabox_link text = Some link ->
  Terabox.get_terabox_download_link link e (add_event (Tg (ReplyText TxtProcessing) true) w)
  = (Ret (JStr direct_link, JStr filename, file_size_str), w1) ->
  Str.truthy direct_link = true ->
  Helpers.is_adult e filename = true ->
  Handlers.link_handler user_id text e w
  = (Ret tt, add_event (Tg (EditText TxtContentBlocked) true)
               (add_event (Logged LogAdultBlocked) w1))
  /\ w_fs w1 = w_fs w /\ w_db w1 = w_db w
  /\ shown (w_trace w1) = (shown (w_trace w) ++ [TxtProcessing])%list.
Proof.
  intros Hcalm Hlink Hres Hd Hadult.
  destruct (quiet_get_terabox_download_link link e
              (add_event (Tg (ReplyText TxtProcessing) true) w)) as (evs & Hgrow & Hbenign).
  rewrite Hres in Hgrow. cbn [snd] in Hgrow. unfold grows in Hgrow.
  cbn [w_db w_file w_lock w_reads w_tg w_fs w_last_update w_trace add_event] in Hgrow.
  assert (Hname : Str.truthy filename = true).
  { unfold Helpers.is_adult in Hadult. destruct (Str.truthy filename); [reflexivity|].
    discriminate Hadult. }
  split; [| split; [| split]].
  - unfold Handlers.link_handler. rewrite Hlink. unfold_monad.
    rewrite tg_call_calm by exact Hcalm. unfold try_except.
    unfold_monad. rewrite Hres. cbn [Json.truthy]. rewrite Hd, Hname. cbn [negb orb].
    unfold Handlers.as_str. unfold_monad. rewrite Hadult.
    unfold Handlers.edit_text.
    rewrite tg_call_calm by (unfold calm; cbn [w_tg add_event]; rewrite Hgrow; exact Hcalm).
    reflexivity.
  - rewrite Hgrow. reflexivity.
  - rewrite Hgrow. reflexivity.
  - rewrite Hgrow. cbn [w_trace]. rewrite !shown_app, (benign_shows_nothing evs Hbenign).
    cbn. rewrite app_nil_r. reflexivity.
Qed.

Lemma adult_filename_blocks_download_witness :
  Handlers.link_handler 42 "see https://terabox.com/s/1abcDEF_x" adult_env token_world
  = (Ret tt, add_event (Tg (EditText TxtContentBlocked) true)
               (add_event (Logged LogAdultBlocked) after_adult_resolution))
  /\ w_fs after_adult_resolution = w_fs token_world
  /\ w_db after_adult_resolution = w_db token_world
  /\ shown (w_trace after_adult_resolution)
     = (shown (w_trace token_world) ++ [TxtProcessing])%list.
Proof.
  apply (adult_filename_blocks_download adult_env token_world after_adult_resolution 42
           "see https://terabox.com/s/1abcDEF_x" "https://terabox.com/s/1abcDEF_x"
           "https://d.terabox.com/f.mp4" "XXX clip.mp4" (JStr "Unknown")).
  - reflexivity.
  - vm_compute. reflexivity.
  - vm_compute. reflexivity.
  - reflexivity.
  - vm_compute. reflexivity.
Defined.

(** ** Tokens, from /get_token to the gate *)

(** A caller without a token who asks for one gets the fresh token, valid
    for the configured number of hours from the reading of the clock, and
    stored; the token gate then admits the caller as long as its own
    reading of the clock is not past that expiry. *)
Theorem issued_token_admits_holder
    (e : Env) (w : World) (user_id : Z) (new_token : string) :
  Decorators.is_admin e user_id = false ->
  tokens (w_db w) !! Database.str user_id = None ->
  w_lock w = false ->
  exists w1,
    TokenHandler.choose_token new_token user_id e w
    = (Ret (TokenHandler.NewToken new_token (TOKEN_EXPIRY_HOURS (cfg e))
              (clock e (w_reads w) + TOKEN_EXPIRY_HOURS (cfg e) * 3600000000)), w1)
    /\ tokens (w_db w1) !! Database.str user_id
       = Some (mkTokenEntry new_token
                 (PyIsoStr (clock e (w_reads w) + TOKEN_EXPIRY_HOURS (cfg e) * 3600000000)))
    /\ w_lock w1 = false
    /\ (clock e (w_reads w1) <= clock e (w_reads w) + TOKEN_EXPIRY_HOURS (cfg e) * 3600000000 ->
        fst (Decorators.token_gate user_id e w1) = Ret Decorators.Allowed).
Proof.
  intros Hadmin Hnone Hfree.
  unfold TokenHandler.choose_token, Database.get_user_token_data,
    Database.store_token, now.
  unfold_monad. cbn [w_db w_reads set_reads add_event]. rewrite Hnone.
  unfold_monad. cbn [w_db w_reads set_reads add_event set_db].
  rewrite save_db_free by exact Hfree. cbn [w_db add_event set_db set_reads].
  set (expires_at := clock e (w_reads w) + TOKEN_EXPIRY_HOURS (cfg e) * 3600000000).
  assert (Hgate : forall w1,
    tokens (w_db w1) !! Database.str user_id
      = Some (mkTokenEntry new_token (PyIsoStr expires_at)) ->
    clock e (w_reads w1) <= expires_at ->
    fst (Decorators.token_gate user_id e w1) = Ret Decorators.Allowed).
  { intros w1 Hk Hle.
    rewrite (token_gate_iso e w1 user_id new_token expires_at Hadmin Hk). cbv zeta.
    assert (Hgt : (clock e (w_reads w1) >? expires_at) = false)
      by (rewrite Z.gtb_ltb; apply Z.ltb_ge; lia).
    rewrite Hgt. reflexivity. }
  destruct (Database.dumpable _); eexists; (split; [reflexivity|]);
    cbn [w_db w_lock w_reads add_event set_lock set_file set_reads set_db tokens];
    (split; [apply lookup_insert_eq|]); (split; [reflexivity|]);
    intros Hle; apply Hgate;
    cbn [w_db w_reads add_event set_lock set_file set_reads set_db tokens];
    [apply lookup_insert_eq | exact Hle | apply lookup_insert_eq | exact Hle].
Qed.

Lemma issued_token_admits_holder_witness :
  exists w1,
    TokenHandler.choose_token "0f8fad5b" 42 offline_env bare_world
    = (Ret (TokenHandler.NewToken "0f8fad5b" (TOKEN_EXPIRY_HOURS (cfg offline_env))
              (clock offline_env (w_reads bare_world)
               + TOKEN_EXPIRY_HOURS (cfg offline_env) * 3600000000)), w1)
    /\ tokens (w_db w1) !! Database.str 42
       = Some (mkTokenEntry "0f8fad5b"
                 (PyIsoStr (clock offline_env (w_reads bare_world)
                            + TOKEN_EXPIRY_HOURS (cfg offline_env) * 3600000000)))
    /\ w_lock w1 = false
    /\ (clock offline_env (w_reads w1)
        <= clock offline_env (w_reads bare_world)
           + TOKEN_EXPIRY_HOURS (cfg offline_env) * 3600000000 ->
        fst (Decorators.token_gate 42 offline_env w1) = Ret Decorators.Allowed).
Proof.
  apply (issued_token_admits_holder offline_env bare_world 42 "0f8fad5b").
  - reflexivity.
  - vm_compute. reflexivity.
  - reflexivity.
Defined.

(** A caller whose token is still valid is told that token and how many
    whole seconds it has left, and nothing is stored. But the read has put
    a datetime into the stored entry, so the next request no longer finds
    the token and issues a new one in its place, although the first has
    not expired. *)
Theorem second_request_replaces_active_token
    (e : Env) (w : World) (user_id : Z) (token new_token : string) (t : Z) :
  tokens (w_db w) !! Database.str user_id = Some (mkTokenEntry token (PyIsoStr t)) ->
  clock e (w_reads w) < t ->
  w_lock w = false ->
  exists w1 w2,
    TokenHandler.choose_token new_token user_id e w
    = (Ret (TokenHandler.ActiveToken token (Z.quot (t - clock e (w_reads w)) 1000000)), w1)
    /\ w_file w1 = w_file w
    /\ te_token <$> (tokens (w_db w1) !! Database.str user_id) = Some token
    /\ TokenHandler.choose_token new_token user_id e w1
       = (Ret (TokenHandler.NewToken new_token (TOKEN_EXPIRY_HOURS (cfg e))
                 (clock e (w_reads w1) + TOKEN_EXPIRY_HOURS (cfg e) * 3600000000)), w2)
    /\ te_token <$> (tokens (w_db w2) !! Database.str user_id) = Some new_token.
Proof.
  intros Hk Hvalid Hfree.
  assert (Hfirst :
    TokenHandler.choose_token new_token user_id e w
    = (Ret (TokenHandler.ActiveToken token (Z.quot (t - clock e (w_reads w)) 1000000)),
       add_event (DbWrite "tokens" (Database.str user_id))
         (set_db (mkDb (users (w_db w))
                    (<[Database.str user_id := mkTokenEntry token (PyDatetime t)]>
                       (tokens (w_db w)))
                    (spam_tracker (w_db w)))
            (add_event (DbRead "tokens" (Database.str user_id))
               (set_reads (S (w_reads w)) w))))).
  { unfold TokenHandler.choose_token, Database.get_user_token_data, now.
    unfold_monad. cbn [w_db w_reads set_reads add_event]. rewrite Hk.
    cbn [te_expires te_token fromisoformat]. unfold_monad.
    cbn [Database.td_expires Database.td_token].
    assert (Hgt : (t >? clock e (w_reads w)) = true) by (rewrite Z.gtb_ltb; apply Z.ltb_lt; lia).
    rewrite Hgt. reflexivity. }
  rewrite Hfirst.
  match goal with |- context [(Ret _, ?w0) = (Ret _, _)] => set (w1 := w0) end.
  assert (Hsecond : exists w2,
    TokenHandler.choose_token new_token user_id e w1
    = (Ret (TokenHandler.NewToken new_token (TOKEN_EXPIRY_HOURS (cfg e))
              (clock e (w_reads w1) + TOKEN_EXPIRY_HOURS (cfg e) * 3600000000)), w2)
    /\ te_token <$> (tokens (w_db w2) !! Database.str user_id) = Some new_token).
  { unfold TokenHandler.choose_token, Database.get_user_token_data, Database.store_token, now.
    unfold_monad. unfold w1. cbn [w_db w_reads set_reads add_event set_db tokens].
    rewrite lookup_insert_eq. cbn [te_expires fromisoformat]. unfold_monad.
    cbn [w_db w_reads set_reads add_event set_db tokens users spam_tracker].
    rewrite save_db_free by exact Hfree.
    cbn [w_db w_reads set_reads add_event set_db tokens users spam_tracker].
    destruct (Database.dumpable _); eexists; (split; [reflexivity|]);
      cbn [w_db add_event set_lock set_file set_db tokens];
      rewrite lookup_insert_eq; reflexivity. }
  destruct Hsecond as (w2 & Hsecond & Hnew).
  exists w1, w2. split; [reflexivity|].
  split; [reflexivity|].
  split; [unfold w1; cbn [w_db add_event set_db tokens]; rewrite lookup_insert_eq;
          reflexivity|].
  split; [exact Hsecond | exact Hnew].
Qed.

Lemma second_request_replaces_active_token_witness :
  exists w1 w2,
    TokenHandler.choose_token "0f8fad5b" 42 offline_env token_world
    = (Ret (TokenHandler.ActiveToken "7c9e6679"
              (Z.quot (2000000000 - clock offline_env (w_reads token_world)) 1000000)), w1)
    /\ w_file w1 = w_file token_world
    /\ te_token <$> (tokens (w_db w1) !! Database.str 42) = Some "7c9e6679"
    /\ TokenHandler.choose_token "0f8fad5b" 42 offline_env w1
       = (Ret (TokenHandler.NewToken "0f8fad5b" (TOKEN_EXPIRY_HOURS (cfg offline_env))
                 (clock offline_env (w_reads w1)
                  + TOKEN_EXPIRY_HOURS (cfg offline_env) * 3600000000)), w2)
    /\ te_token <$> (tokens (w_db w2) !! Database.str 42) = Some "0f8fad5b".
Proof.
  apply (second_request_replaces_active_token offline_env token_world 42
           "7c9e6679" "0f8fad5b" 2000000000).
  - vm_compute. reflexivity.
  - vm_compute. reflexivity.
  - reflexivity.
Defined.

(** ** What a search returns *)

(** Whatever the matcher hands to its continuation is what is left of
    the subject after a match of the pattern. *)
Lemma m_sound (r : Re.re) :
  forall (s : list ascii) (c : Re.caps) (k : list ascii -> Re.caps -> option Re.answer)
         (a : Re.answer),
    Re.m r s c k = Some a ->
    exists l s' c', s = (l ++ s')%list /\ matches r l /\ k s' c' = Some a.
Proof.
  induction r as [|p|r1 IH1 r2 IH2|r1 IH1 r2 IH2|greedy r1 IH1|n r1 IH1];
    intros s c k a H.
  - cbn [Re.m] in H. exists [], s, c. repeat split; [apply MEps | exact H].
  - cbn [Re.m] in H. destruct s as [|a0 s1]; [discriminate H|].
    destruct (p a0) eqn:Hp; [| discriminate H].
    exists [a0], s1, c. repeat split; [apply MCls; exact Hp | exact H].
  - cbn [Re.m] in H. apply IH1 in H as (l1 & s1 & c1 & -> & Hm1 & H).
    apply IH2 in H as (l2 & s2 & c2 & -> & Hm2 & H).
    exists (l1 ++ l2)%list, s2, c2. rewrite <- app_assoc.
    repeat split; [apply MCat; assumption | exact H].
  - cbn [Re.m] in H. destruct (Re.m r1 s c k) as [x|] eqn:H1.
    + injection H as ->. apply IH1 in H1 as (l & s' & c' & -> & Hm & H).
      exists l, s', c'. repeat split; [apply MAltL; exact Hm | exact H].
    + apply IH2 in H as (l & s' & c' & -> & Hm & H).
      exists l, s', c'. repeat split; [apply MAltR; exact Hm | exact H].
  - set (loop :=
           fix loop (fuel : nat) (s : list ascii) (c : Re.caps) : option Re.answer :=
             match fuel with
             | O => k s c
             | S fuel' =>
                 let more :=
                   Re.m r1 s c (fun s' c' =>
                     if (length s' <? length s)%nat then loop fuel' s' c' else None) in
                 if greedy
                 then match more with Some x => Some x | None => k s c end
                 else match k s c with Some x => Some x | None => more end
             end).
    assert (Hloop : forall fuel s0 c0 a0,
      loop fuel s0 c0 = Some a0 ->
      exists l s' c', s0 = (l ++ s')%list /\ matches (Re.Rep greedy r1) l
                      /\ k s' c' = Some a0).
    { induction fuel as [|fuel IHf]; intros s0 c0 a0 H0.
      - exists [], s0, c0. repeat split; [apply MRepNil | exact H0].
      - assert (Hmore : forall a',
          Re.m r1 s0 c0
            (fun s' c' => if (length s' <? length s0)%nat then loop fuel s' c' else None)
          = Some a' ->
          exists l s' c', s0 = (l ++ s')%list /\ matches (Re.Rep greedy r1) l
                          /\ k s' c' = Some a').
        { intros a' Hm. apply IH1 in Hm as (l1 & s1 & c1 & -> & Hm1 & Hm).
          destruct (length s1 <? length (l1 ++ s1))%nat; [| discriminate Hm].
          apply IHf in Hm as (l2 & s2 & c2 & -> & Hm2 & Hm).
          exists (l1 ++ l2)%list, s2, c2. rewrite <- app_assoc.
          repeat split; [apply MRepCons; assumption | exact Hm]. }
        assert (Hstop : forall a', k s0 c0 = Some a' ->
          exists l s' c', s0 = (l ++ s')%list /\ matches (Re.Rep greedy r1) l
                          /\ k s' c' = Some a').
        { intros a' Hk. exists [], s0, c0. repeat split; [apply MRepNil | exact Hk]. }
        change (loop (S fuel) s0 c0)
          with (let more :=
                  Re.m r1 s0 c0 (fun s' c' =>
                    if (length s' <? length s0)%nat then loop fuel s' c' else None) in
                if greedy
                then match more with Some x => Some x | None => k s0 c0 end
                else match k s0 c0 with Some x => Some x | None => more end) in H0.
        cbv zeta in H0.
        assert (Hcases :
          Re.m r1 s0 c0
            (fun s' c' => if (length s' <? length s0)%nat then loop fuel s' c' else None)
          = Some a0 \/ k s0 c0 = Some a0).
        { revert H0. generalize (Re.m r1 s0 c0
            (fun s' c' => if (length s' <? length s0)%nat then loop fuel s' c' else None)).
          generalize (k s0 c0). clear. intros o1 o2.
          destruct greedy, o1, o2; intros [= ->]; auto. }
        destruct Hcases as [Hx | Hk]; [apply Hmore; exact Hx | apply Hstop; exact Hk]. }
    exact (Hloop (S (length s)) s c a H).
  - cbn [Re.m] in H. apply IH1 in H as (l & s' & c' & -> & Hm & H).
    exists l, s', ((n, firstn (length (l ++ s') - length s') (l ++ s')) :: c').
    repeat split; [apply MGrp; exact Hm | exact H].
Qed.

Lemma firstn_match (l s' : list ascii) :
  firstn (length (l ++ s') - length s') (l ++ s') = l.
Proof.
  rewrite length_app.
  replace (length l + length s' - length s')%nat with (length l) by lia.
  rewrite firstn_app, Nat.sub_diag, firstn_all. cbn. apply app_nil_r.
Qed.

Lemma search_from_sound (r : Re.re) (s : list ascii) (mo : Re.match_obj) :
  Re.search_from r s = Some mo ->
  exists pre l post,
    s = (pre ++ l ++ post)%list /\ matches r l /\ Re.whole mo = string_of_list_ascii l.
Proof.
  induction s as [|a0 s IH]; cbn [Re.search_from].
  - destruct (Re.m r [] [] _) as [a|] eqn:Hm; [| discriminate].
    intros [= <-]. apply m_sound in Hm as (l & s' & c' & Hs & Hmatch & [= <-]).
    exists [], l, s'. repeat split; [exact Hs | exact Hmatch |].
    cbn [Re.to_match Re.whole]. rewrite Hs, firstn_match. reflexivity.
  - destruct (Re.m r (a0 :: s) [] _) as [a|] eqn:Hm.
    + intros [= <-]. apply m_sound in Hm as (l & s' & c' & Hs & Hmatch & [= <-]).
      exists [], l, s'. repeat split; [exact Hs | exact Hmatch |].
      cbn [Re.to_match Re.whole]. rewrite Hs, firstn_match. reflexivity.
    + intros H. apply IH in H as (pre & l & post & -> & Hmatch & Hwhole).
      exists (a0 :: pre), l, post. repeat split; assumption.
Qed.

Lemma matches_chr (a : ascii) (l : list ascii) : matches (Re.chr a) l -> l = [a].
Proof.
  unfold Re.chr. intros H. inversion H as [|p b Hb| | | | | |]; subst.
  apply Ascii.eqb_eq in Hb. subst. reflexivity.
Qed.

(** The link taken out of a message is a contiguous part of the message
    and a match of [TERABOX_LINK_REGEX]; in particular it starts with
    "http". *)
Theorem extract_terabox_link_sound (text link : string) :
  Terabox.extract_terabox_link text = Some link ->
  (exists pre post,
      list_ascii_of_string text = (pre ++ list_ascii_of_string link ++ post)%list)
  /\ matches Terabox.TERABOX_LINK_REGEX (list_ascii_of_string link)
  /\ String.prefix "http" link = true.
Proof.
  unfold Terabox.extract_terabox_link, Re.search.
  destruct (Re.search_from _ _) as [mo|] eqn:Hs; [| discriminate].
  intros [= <-]. apply search_from_sound in Hs as (pre & l & post & Htext & Hmatch & Hwhole).
  rewrite Hwhole, list_ascii_of_string_of_list_ascii.
  split; [exists pre, post; exact Htext|]. split; [exact Hmatch|].
  unfold Terabox.TERABOX_LINK_REGEX in Hmatch. cbn [Re.seq Re.lit map list_ascii_of_string] in Hmatch.
  inversion Hmatch as [| |r1 r2 l1 l2 Hhttp _| | | | |]; subst.
  inversion Hhttp as [| |r1 r2 h1 h2 Hh Hrest1| | | | |]; subst.
  inversion Hrest1 as [| |r1 r2 h3 h4 Ht1 Hrest2| | | | |]; subst.
  inversion Hrest2 as [| |r1 r2 h5 h6 Ht2 Hp| | | | |]; subst.
  apply matches_chr in Hh. apply matches_chr in Ht1.
  apply matches_chr in Ht2. apply matches_chr in Hp.
  rewrite Hh, Ht1, Ht2, Hp. cbn [app string_of_list_ascii].
  destruct (string_of_list_ascii l2); reflexivity.
Qed.

Lemma extract_terabox_link_sound_witness :
  (exists pre post,
      list_ascii_of_string "see https://terabox.com/s/1abcDEF_x now"
      = (pre ++ list_ascii_of_string "https://terabox.com/s/1abcDEF_x" ++ post)%list)
  /\ matches Terabox.TERABOX_LINK_REGEX (list_ascii_of_string "https://terabox.com/s/1abcDEF_x")
  /\ String.prefix "http" "https://terabox.com/s/1abcDEF_x" = true.
Proof.
  apply (extract_terabox_link_sound "see https://terabox.com/s/1abcDEF_x now"
           "https://terabox.com/s/1abcDEF_x").
  vm_compute. reflexivity.
Defined.

(** ** A run that goes through *)

Lemma streamed_all (chunks : list Z) :
  streamed chunks (length chunks) = foldr Z.add 0 chunks.
Proof. unfold streamed. rewrite firstn_all. reflexivity. Qed.

Lemma write_chunks_within (path : string) (chunks : list Z) :
  forall (current : Z) (e : Env) (w : World),
    (forall k, current + streamed chunks k <= Handlers.MAX_TG_UPLOAD_SIZE_BYTES) ->
    w_fs w !! path = Some current ->
    exists w' evs,
      Handlers.write_chunks path 0 chunks current e w
      = (Ret (current + foldr Z.add 0 chunks), w')
      /\ w_trace w' = (w_trace w ++ evs)%list /\ shown evs = []
      /\ w_tg w' = w_tg w /\ w_db w' = w_db w /\ w_reads w' = w_reads w
      /\ w_fs w' = <[path := current + foldr Z.add 0 chunks]> (w_fs w).
Proof.
  induction chunks as [|chunk rest IH]; intros current e w Hall Hfile.
  - exists w, []. cbn [Handlers.write_chunks foldr]. rewrite Z.add_0_r, app_nil_r.
    repeat split. symmetry. apply insert_id. exact Hfile.
  - cbn [Handlers.write_chunks]. unfold_monad. cbn [Z.gtb Z.compare].
    destruct (Z.gtb_spec (current + chunk) Handlers.MAX_TG_UPLOAD_SIZE_BYTES) as [Hgt|Hle].
    + specialize (Hall 1%nat). unfold streamed in Hall. simpl in Hall. lia.
    + destruct (IH (current + chunk) e
                  (add_event (FsWrite path chunk)
                     (set_fs (<[path := current + chunk]> (w_fs w)) w)))
        as (w' & evs & Hrun & Htrace & Hshown & Htg & Hdb & Hreads & Hfs).
      * intros k. specialize (Hall (S k)). unfold streamed in *. simpl in Hall. lia.
      * cbn [w_fs add_event set_fs]. apply lookup_insert_eq.
      * exists w', (FsWrite path chunk :: evs). rewrite Hrun. cbn [foldr].
        rewrite Z.add_assoc. split; [reflexivity|].
        split; [rewrite Htrace; cbn [w_trace add_event set_fs];
                rewrite <- app_assoc; reflexivity|].
        split; [exact Hshown|]. split; [exact Htg|]. split; [exact Hdb|].
        split; [exact Hreads|].
        rewrite Hfs. cbn [w_fs add_event set_fs].
        first [apply insert_insert_eq | apply insert_insert].
Qed.

Lemma download_phase_succeeds (url path filename : string) (e : Env) (w : World) :
  calm w ->
  dl_connect (download e url) = None ->
  200 <= dl_status (download e url) <= 299 ->
  dl_content_length (download e url) = None ->
  dl_end (download e url) = None ->
  (forall k, streamed (dl_chunks (download e url)) k <= Handlers.MAX_TG_UPLOAD_SIZE_BYTES) ->
  exists w' evs,
    Handlers.download_phase url path filename e w
    = (Ret (Some (foldr Z.add 0 (dl_chunks (download e url)))), w')
    /\ w_trace w' = (w_trace w ++ evs)%list
    /\ shown evs = [TxtDownloadComplete filename]
    /\ w_tg w' = w_tg w /\ w_db w' = w_db w
    /\ w_fs w' = <[path := foldr Z.add 0 (dl_chunks (download e url))]> (w_fs w).
Proof.
  intros Hcalm Hconn Hstatus Hlen Hend Hall.
  unfold Handlers.download_phase, try_except at 1.
  unfold Handlers.download_body, Handlers.stream_to_file. unfold_monad.
  rewrite Hconn, Hlen.
  destruct (Z.leb_spec 200 (dl_status (download e url))); [| lia].
  destruct (Z.leb_spec (dl_status (download e url)) 299); [| lia].
  cbn [andb].
  match goal with
  | |- context [Handlers.write_chunks ?p 0 ?c 0 ?e0 ?w0] =>
      destruct (write_chunks_within p c 0 e0 w0)
        as (w1 & evs & Hrun & Htrace & Hshown & Htg & Hdb & Hreads & Hfs)
  end.
  { intros k. rewrite Z.add_0_l. apply Hall. }
  { cbn [w_fs add_event set_fs]. apply lookup_insert_eq. }
  rewrite Hrun, Hend. rewrite Z.add_0_l in *.
  unfold now, Handlers.edit_text. cbn [Z.gtb Z.compare].
  rewrite tg_call_calm by (unfold calm; cbn [w_tg set_reads]; rewrite Htg; exact Hcalm).
  cbn [negb]. unfold try_finally. unfold_monad.
  eexists. eexists. split; [reflexivity|].
  cbn [w_trace w_tg w_db w_fs add_event set_reads].
  rewrite Htrace, Htg, Hdb, Hfs. cbn [w_trace w_tg w_db w_fs add_event set_fs].
  split; [rewrite <- !app_assoc; reflexivity|].
  split; [rewrite !shown_app, Hshown; reflexivity|].
  repeat split.
  first [apply insert_insert_eq | apply insert_insert].
Qed.

Lemma deliver_succeeds (path filename : string) (n size : Z) (e : Env) (w : World) :
  calm w ->
  remove_permitted e = true ->
  w_fs w !! path = Some size ->
  exists w' evs,
    (uploaded ← Handlers.upload_phase path filename n;
     Handlers.forward_phase uploaded;;
     Handlers.remove_if_exists path (mret tt)) e w = (Ret tt, w')
    /\ w_trace w' = (w_trace w ++ evs)%list
    /\ shown evs = [TxtUploading filename n]
    /\ In (Tg (SendVideo path filename) true) evs
    /\ (DUMP_CHAT_ID (cfg e) <> 0 -> In (Tg (ForwardTo (DUMP_CHAT_ID (cfg e))) true) evs)
    /\ w_fs w' = delete path (w_fs w)
    /\ w_db w' = w_db w.
Proof.
  intros Hcalm Hrm Hfile.
  unfold Handlers.upload_phase, Handlers.send_then_delete, Handlers.forward_phase,
    Handlers.remove_if_exists, Handlers.edit_text, now.
  unfold_monad. unfold try_except.
  repeat (rewrite tg_call_calm by exact Hcalm). unfold_monad.
  repeat (rewrite tg_call_calm by exact Hcalm). unfold_monad.
  cbn [andb]. destruct (DUMP_CHAT_ID (cfg e) =? 0) eqn:Hdump; cbn [negb]; unfold_monad;
    repeat (rewrite tg_call_calm by exact Hcalm); unfold_monad;
    cbn [w_fs add_event set_reads]; rewrite Hfile, Hrm;
    eexists; eexists; (split; [reflexivity|]);
    cbn [w_trace w_fs w_db add_event set_reads set_fs];
    rewrite <- !app_assoc; (split; [reflexivity|]);
    (split; [reflexivity|]); (split; [cbn; tauto|]);
    (split; [| split; reflexivity]).
  - intros Hne. apply Z.eqb_eq in Hdump. contradiction.
  - intros _. cbn. tauto.
Qed.

(** A download that the server serves without a declared length, whose
    running total never passes the ceiling, on a transport that accepts
    every call: the handler returns after having shown the three status
    texts, the video is sent from the download path, it is forwarded to
    the dump chat when one is configured, and at the end the file is
    removed; the other files and the store are untouched. *)
Theorem pipeline_delivers_and_cleans_up
    (e : Env) (w : World) (user_id : Z) (download_url filename file_size_str : string) :
  calm w ->
  remove_permitted e = true ->
  dl_connect (download e download_url) = None ->
  200 <= dl_status (download e download_url) <= 299 ->
  dl_content_length (download e download_url) = None ->
  dl_end (download e download_url) = None ->
  (forall k, streamed (dl_chunks (download e download_url)) k
             <= Handlers.MAX_TG_UPLOAD_SIZE_BYTES) ->
  exists w' evs,
    Handlers.download_and_upload user_id download_url filename file_size_str e w
    = (Ret tt, w')
    /\ w_trace w' = (w_trace w ++ evs)%list
    /\ shown evs
       = [TxtStartingDownload filename file_size_str;
          TxtDownloadComplete filename;
          TxtUploading filename (foldr Z.add 0 (dl_chunks (download e download_url)))]
    /\ In (Tg (SendVideo (Handlers.download_path_of e user_id filename) filename) true) evs
    /\ (DUMP_CHAT_ID (cfg e) <> 0 ->
        In (Tg (ForwardTo (DUMP_CHAT_ID (cfg e))) true) evs)
    /\ w_fs w' = delete (Handlers.download_path_of e user_id filename) (w_fs w)
    /\ w_db w' = w_db w.
Proof.
  intros Hcalm Hrm Hconn Hstatus Hlen Hend Hall.
  set (path := Handlers.download_path_of e user_id filename).
  set (w0 := add_event (Tg (EditText (TxtStartingDownload filename file_size_str)) true)
               (set_reads (S (w_reads w)) w)).
  destruct (download_phase_succeeds download_url path filename e w0
              Hcalm Hconn Hstatus Hlen Hend Hall)
    as (w1 & evs1 & Hdl & Htrace1 & Hshown1 & Htg1 & Hdb1 & Hfs1).
  destruct (deliver_succeeds path filename
              (foldr Z.add 0 (dl_chunks (download e download_url)))
              (foldr Z.add 0 (dl_chunks (download e download_url))) e w1)
    as (w2 & evs2 & Hup & Htrace2 & Hshown2 & Hsent & Hfwd & Hfs2 & Hdb2).
  { unfold calm. rewrite Htg1. exact Hcalm. }
  { exact Hrm. }
  { rewrite Hfs1. apply lookup_insert_eq. }
  exists w2, ([Tg (EditText (TxtStartingDownload filename file_size_str)) true]
              ++ evs1 ++ evs2)%list.
  split.
  { unfold Handlers.download_and_upload, Handlers.start_download, Handlers.edit_text, now.
    unfold_monad. rewrite tg_call_calm by exact Hcalm. fold w0. fold path.
    rewrite Hdl. revert Hup. unfold_monad. intros ->. reflexivity. }
  split; [rewrite Htrace2, Htrace1; unfold w0; cbn [w_trace add_event set_reads];
          rewrite <- !app_assoc; reflexivity|].
  split; [rewrite !shown_app, Hshown1, Hshown2; reflexivity|].
  split; [rewrite !in_app_iff; auto|].
  split; [intros Hne; rewrite !in_app_iff; auto|].
  split; [| rewrite Hdb2, Hdb1; reflexivity].
  rewrite Hfs2, Hfs1. unfold w0. cbn [w_fs add_event set_reads].
  first [apply delete_insert_eq | apply delete_insert_delete].
Qed.

Lemma pipeline_delivers_and_cleans_up_witness :
  exists w' evs,
    Handlers.download_and_upload 42 "https://d.terabox.com/f.mp4" "clip.mp4" "Unknown"
      small_env token_world
    = (Ret tt, w')
    /\ w_trace w' = (w_trace token_world ++ evs)%list
    /\ shown evs
       = [TxtStartingDownload "clip.mp4" "Unknown";
          TxtDownloadComplete "clip.mp4";
          TxtUploading "clip.mp4"
            (foldr Z.add 0 (dl_chunks (download small_env "https://d.terabox.com/f.mp4")))]
    /\ In (Tg (SendVideo (Handlers.download_path_of small_env 42 "clip.mp4") "clip.mp4") true)
          evs
    /\ (DUMP_CHAT_ID (cfg small_env) <> 0 ->
        In (Tg (ForwardTo (DUMP_CHAT_ID (cfg small_env))) true) evs)
    /\ w_fs w' = delete (Handlers.download_path_of small_env 42 "clip.mp4")
                   (w_fs token_world)
    /\ w_db w' = w_db token_world.
Proof.
  apply (pipeline_delivers_and_cleans_up small_env token_world 42
           "https://d.terabox.com/f.mp4" "clip.mp4" "Unknown").
  - reflexivity.
  - reflexivity.
  - reflexivity.
  - vm_compute. split; discriminate.
  - reflexivity.
  - reflexivity.
  - intros [|[|[|k]]]; vm_compute; discriminate.
Defined.

(** ** Administrator commands *)

(** [admin_required] lets administrators through unchanged and stops
    everybody else: a caller who is not in [ADMIN_IDS] gets "Access
    Denied" and the wrapped function does not run. *)
Theorem admin_required_guards (e : Env) (w : World) (user_id : Z) (func : M unit) :
  calm w ->
  (Decorators.is_admin e user_id = true ->
   Decorators.admin_required user_id func e w = func e w)
  /\ (Decorators.is_admin e user_id = false ->
      Decorators.admin_required user_id func e w
      = (Ret tt, add_event (Tg (ReplyText TxtAccessDenied) true) w)).
Proof.
  intros Hcalm. unfold Decorators.admin_required. split; intros Hadmin.
  - apply guarded_allowed. unfold Decorators.admin_gate. unfold_monad.
    rewrite Hadmin. reflexivity.
  - apply (guarded_denied _ _ _ _ _ Decorators.NotAuthorized).
    unfold Decorators.admin_gate. unfold_monad. rewrite Hadmin. cbn [negb].
    rewrite tg_call_calm by exact Hcalm. reflexivity.
Qed.

Lemma admin_required_guards_witness :
  Decorators.admin_required 42 (Handlers.link_handler 42 "hello") offline_env token_world
  = (Ret tt, add_event (Tg (ReplyText TxtAccessDenied) true) token_world).
Proof.
  destruct (admin_required_guards offline_env token_world 42
              (Handlers.link_handler 42 "hello")) as [_ Hdenied].
  - reflexivity.
  - apply Hdenied. reflexivity.
Defined.

(** ** What the handler tells the caller when things fail *)

(** A link that the resolver cannot resolve (no direct link or no file
    name in the tuple) ends in the "could not extract" status: nothing is
    downloaded, and the files on disk and the store are as they were. *)
Theorem unresolved_link_reports_failure
    (e : Env) (w w1 : World) (user_id : Z) (text link : string)
    (direct_link filename file_size_str : json) :
  calm w ->
  Terabox.extract_terabox_link text = Some link ->
  Terabox.get_terabox_download_link link e (add_event (Tg (ReplyText TxtProcessing) true) w)
  = (Ret (direct_link, filename, file_size_str), w1) ->
  Json.truthy direct_link = false \/ Json.truthy filename = false ->
  Handlers.link_handler user_id text e w
  = (Ret tt, add_event (Tg (EditText TxtCouldNotExtract) true) w1)
  /\ w_fs w1 = w_fs w /\ w_db w1 = w_db w
  /\ shown (w_trace w1) = (shown (w_trace w) ++ [TxtProcessing])%list.
Proof.
  intros Hcalm Hlink Hres Hfalsy.
  destruct (quiet_get_terabox_download_link link e
              (add_event (Tg (ReplyText TxtProcessing) true) w)) as (evs & Hgrow & Hbenign).
  rewrite Hres in Hgrow. cbn [snd] in Hgrow. unfold grows in Hgrow.
  cbn [w_db w_file w_lock w_reads w_tg w_fs w_last_update w_trace add_event] in Hgrow.
  assert (Hcheck : negb (Json.truthy direct_link) || negb (Json.truthy filename) = true).
  { destruct Hfalsy as [-> | ->]; [reflexivity | apply orb_true_r]. }
  split; [| split; [| split]].
  - unfold Handlers.link_handler. rewrite Hlink. unfold_monad.
    rewrite tg_call_calm by exact Hcalm. unfold try_except.
    unfold_monad. rewrite Hres, Hcheck. unfold Handlers.edit_text.
    rewrite tg_call_calm by (unfold calm; rewrite Hgrow; exact Hcalm).
    reflexivity.
  - rewrite Hgrow. reflexivity.
  - rewrite Hgrow. reflexivity.
  - rewrite Hgrow. cbn [w_trace]. rewrite !shown_app, (benign_shows_nothing evs Hbenign).
    cbn. rewrite app_nil_r. reflexivity.
Qed.

Lemma unresolved_link_reports_failure_witness :
  Handlers.link_handler 42 "see https://terabox.com/s/1abcDEF_x" offline_env token_world
  = (Ret tt,
     add_event (Tg (EditText TxtCouldNotExtract) true)
       (snd (Terabox.get_terabox_download_link "https://terabox.com/s/1abcDEF_x" offline_env
               (add_event (Tg (ReplyText TxtProcessing) true) token_world))))
  /\ w_fs (snd (Terabox.get_terabox_download_link "https://terabox.com/s/1abcDEF_x" offline_env
                  (add_event (Tg (ReplyText TxtProcessing) true) token_world)))
     = w_fs token_world
  /\ w_db (snd (Terabox.get_terabox_download_link "https://terabox.com/s/1abcDEF_x" offline_env
                  (add_event (Tg (ReplyText TxtProcessing) true) token_world)))
     = w_db token_world
  /\ shown (w_trace (snd (Terabox.get_terabox_download_link "https://terabox.com/s/1abcDEF_x"
                            offline_env
                            (add_event (Tg (ReplyText TxtProcessing) true) token_world))))
     = (shown (w_trace token_world) ++ [TxtProcessing])%list.
Proof.
  apply (unresolved_link_reports_failure offline_env token_world _ 42
           "see https://terabox.com/s/1abcDEF_x" "https://terabox.com/s/1abcDEF_x"
           JNull JNull JNull).
  - reflexivity.
  - vm_compute. reflexivity.
  - vm_compute. reflexivity.
  - left. reflexivity.
Defined.

Lemma tg_call_accepts (c : call) (e : Env) (w : World) (q : list (option exn)) :
  w_tg w = None :: q ->
  tg_call c e w = (Ret tt, add_event (Tg c true) (set_tg q w)).
Proof.
  unfold tg_call. intros ->. reflexivity.
Qed.

(** An upload that the transport refuses (anything but a flood wait
    raised by [send_video]) is reported and cleaned up: once the download
    has succeeded and the "Uploading" status has gone through, the handler
    shows the failure, forwards nothing, removes the downloaded file and
    returns normally. *)
Theorem failed_upload_is_reported_and_cleaned
    (e : Env) (w w0 w1 : World) (user_id : Z)
    (download_url filename file_size_str : string) (n : Z) (x : exn) :
  Handlers.start_download filename file_size_str e w = (Ret tt, w0) ->
  Handlers.download_phase download_url (Handlers.download_path_of e user_id filename)
    filename e w0 = (Ret (Some n), w1) ->
  w_tg w1 = [None; Some x] ->
  (forall value, x <> FloodWait value) ->
  remove_permitted e = true ->
  exists w' evs,
    Handlers.download_and_upload user_id download_url filename file_size_str e w
    = (Ret tt, w')
    /\ w_trace w' = (w_trace w1 ++ evs)%list
    /\ shown evs
       = [TxtUploading filename n;
          if is_RPCError x then TxtUploadFailedRPC x else TxtUploadFailedOther x]
    /\ existsb is_forward evs = false
    /\ w_fs w' !! Handlers.download_path_of e user_id filename = None.
Proof.
  intros Hstart Hdl Htg Hflood Hrm.
  pose proof (download_success_leaves_file _ _ _ _ _ _ _ Hdl) as [size Hfile].
  unfold Handlers.download_and_upload. unfold_monad. rewrite Hstart, Hdl.
  unfold Handlers.upload_phase, Handlers.send_then_delete, Handlers.edit_text, now.
  unfold_monad. rewrite (tg_call_accepts _ e w1 [Some x] Htg).
  unfold try_except. unfold_monad.
  rewrite (tg_call_raises _ e _ x []) by reflexivity.
  unfold Handlers.upload_failed, Handlers.forward_phase, Handlers.remove_if_exists,
    Handlers.edit_text.
  assert (Hcalm : forall w2, w_tg w2 = [] -> calm w2) by (intros w2 H; exact H).
  destruct x; try (exfalso; eapply Hflood; reflexivity); cbn [is_RPCError option_map];
    unfold_monad; rewrite tg_call_calm by (apply Hcalm; reflexivity); unfold_monad;
    cbn [andb w_fs add_event set_reads set_tg]; rewrite Hfile, Hrm;
    eexists; eexists; (split; [reflexivity|]);
    cbn [w_trace w_fs add_event set_reads set_tg set_fs];
    rewrite <- !app_assoc; (split; [reflexivity|]);
    (split; [reflexivity|]); (split; [reflexivity|]);
    apply lookup_delete_eq.
Qed.

Lemma failed_upload_is_reported_and_cleaned_witness :
  exists w' evs,
    Handlers.download_and_upload 42 "https://d.terabox.com/f.mp4" "clip.mp4" "Unknown"
      small_env (send_video_answers RPCError)
    = (Ret tt, w')
    /\ w_trace w'
       = (w_trace (snd (Handlers.download_phase "https://d.terabox.com/f.mp4"
                          (Handlers.download_path_of small_env 42 "clip.mp4") "clip.mp4"
                          small_env
                          (snd (Handlers.start_download "clip.mp4" "Unknown" small_env
                                  (send_video_answers RPCError)))))
          ++ evs)%list
    /\ shown evs
       = [TxtUploading "clip.mp4" 1000;
          if is_RPCError RPCError then TxtUploadFailedRPC RPCError
          else TxtUploadFailedOther RPCError]
    /\ existsb is_forward evs = false
    /\ w_fs w' !! Handlers.download_path_of small_env 42 "clip.mp4" = None.
Proof.
  apply (failed_upload_is_reported_and_cleaned small_env (send_video_answers RPCError)
           (snd (Handlers.start_download "clip.mp4" "Unknown" small_env
                   (send_video_answers RPCError)))
           (snd (Handlers.download_phase "https://d.terabox.com/f.mp4"
                   (Handlers.download_path_of small_env 42 "clip.mp4") "clip.mp4"
                   small_env
                   (snd (Handlers.start_download "clip.mp4" "Unknown" small_env
                           (send_video_answers RPCError)))))
           42 "https://d.terabox.com/f.mp4" "clip.mp4" "Unknown" 1000 RPCError).
  - vm_compute. reflexivity.
  - vm_compute. reflexivity.
  - vm_compute. reflexivity.
  - intros value. discriminate.
  - reflexivity.
Defined.

Lemma asyncio_sleep_in_handlers (secs : Z) (e : Env) (w : World) :
  asyncio_sleep Handlers.module_names secs e w = (Ret tt, add_event (Slept secs) w).
Proof. reflexivity. Qed.

(** A flood wait on [send_video] is waited out and the upload retried:
    when the retry and the calls after it go through, the handler shows
    the pause, sleeps two seconds longer than asked, sends the video,
    forwards it to the dump chat when one is configured, removes the file
    and returns normally. *)
Theorem flood_wait_retries_upload
    (e : Env) (w w0 w1 : World) (user_id : Z)
    (download_url filename file_size_str : string) (n value : Z) :
  Handlers.start_download filename file_size_str e w = (Ret tt, w0) ->
  Handlers.download_phase download_url (Handlers.download_path_of e user_id filename)
    filename e w0 = (Ret (Some n), w1) ->
  w_tg w1 = [None; Some (FloodWait value); None; None; None] ->
  remove_permitted e = true ->
  exists w' evs,
    Handlers.download_and_upload user_id download_url filename file_size_str e w
    = (Ret tt, w')
    /\ w_trace w' = (w_trace w1 ++ evs)%list
    /\ shown evs = [TxtUploading filename n; TxtFloodWaitPaused value]
    /\ In (Slept (value + 2)) evs
    /\ In (Tg (SendVideo (Handlers.download_path_of e user_id filename) filename) true) evs
    /\ (DUMP_CHAT_ID (cfg e) <> 0 -> In (Tg (ForwardTo (DUMP_CHAT_ID (cfg e))) true) evs)
    /\ w_fs w' !! Handlers.download_path_of e user_id filename = None.
Proof.
  intros Hstart Hdl Htg Hrm.
  pose proof (download_success_leaves_file _ _ _ _ _ _ _ Hdl) as [size Hfile].
  unfold Handlers.download_and_upload. unfold_monad. rewrite Hstart, Hdl.
  unfold Handlers.upload_phase, Handlers.send_then_delete, Handlers.edit_text, now.
  unfold_monad. rewrite (tg_call_accepts _ e w1 _ Htg).
  unfold try_except. unfold_monad.
  rewrite (tg_call_raises _ e _ (FloodWait value) [None; None; None]) by reflexivity.
  unfold Handlers.upload_failed, Handlers.retry_upload, Handlers.send_then_delete,
    Handlers.edit_text.
  cbn [option_map]. unfold_monad.
  rewrite (tg_call_accepts _ e _ [None; None]) by reflexivity.
  rewrite asyncio_sleep_in_handlers. unfold try_except. unfold_monad.
  rewrite (tg_call_accepts _ e _ [None]) by reflexivity. unfold_monad.
  rewrite (tg_call_accepts _ e _ []) by reflexivity. unfold_monad.
  unfold Handlers.forward_phase, Handlers.remove_if_exists. unfold_monad.
  assert (Hcalm : forall w2, w_tg w2 = [] -> calm w2) by (intros w2 H; exact H).
  cbn [andb]. destruct (DUMP_CHAT_ID (cfg e) =? 0) eqn:Hdump; cbn [negb]; unfold_monad;
    unfold try_except; repeat (rewrite tg_call_calm by (apply Hcalm; reflexivity));
    unfold_monad; cbn [w_fs add_event set_reads set_tg]; rewrite Hfile, Hrm;
    eexists; eexists; (split; [reflexivity|]);
    cbn [w_trace w_fs add_event set_reads set_tg set_fs];
    rewrite <- !app_assoc; (split; [reflexivity|]);
    (split; [reflexivity|]); (split; [cbn; tauto|]); (split; [cbn; tauto|]);
    (split; [| apply lookup_delete_eq]).
  - intros Hne. apply Z.eqb_eq in Hdump. contradiction.
  - intros _. cbn. tauto.
Qed.

Lemma flood_wait_retries_upload_witness :
  exists w' evs,
    Handlers.download_and_upload 42 "https://d.terabox.com/f.mp4" "clip.mp4" "Unknown"
      small_env (flood_on_send_video 5)
    = (Ret tt, w')
    /\ w_trace w'
       = (w_trace (snd (Handlers.download_phase "https://d.terabox.com/f.mp4"
                          (Handlers.download_path_of small_env 42 "clip.mp4") "clip.mp4"
                          small_env
                          (snd (Handlers.start_download "clip.mp4" "Unknown" small_env
                                  (flood_on_send_video 5)))))
          ++ evs)%list
    /\ shown evs = [TxtUploading "clip.mp4" 1000; TxtFloodWaitPaused 5]
    /\ In (Slept (5 + 2)) evs
    /\ In (Tg (SendVideo (Handlers.download_path_of small_env 42 "clip.mp4") "clip.mp4") true)
          evs
    /\ (DUMP_CHAT_ID (cfg small_env) <> 0 ->
        In (Tg (ForwardTo (DUMP_CHAT_ID (cfg small_env))) true) evs)
    /\ w_fs w' !! Handlers.download_path_of small_env 42 "clip.mp4" = None.
Proof.
  apply (flood_wait_retries_upload small_env (flood_on_send_video 5)
           (snd (Handlers.start_download "clip.mp4" "Unknown" small_env
                   (flood_on_send_video 5)))
           (snd (Handlers.download_phase "https://d.terabox.com/f.mp4"
                   (Handlers.download_path_of small_env 42 "clip.mp4") "clip.mp4"
                   small_env
                   (snd (Handlers.start_download "clip.mp4" "Unknown" small_env
                           (flood_on_send_video 5)))))
           42 "https://d.terabox.com/f.mp4" "clip.mp4" "Unknown" 1000 5).
  - vm_compute. reflexivity.
  - vm_compute. reflexivity.
  - vm_compute. reflexivity.
  - reflexivity.
Defined.

(** ** Computations on a transport that accepts every call *)

(** [settles m]: started with a transport that accepts every call, [m]
    ends (it returns or raises) and leaves the transport that way. *)
Definition settles {A} (m : M A) : Prop :=
  forall e w, calm w -> calm (snd (m e w)) /\ fst (m e w) <> Hang.

(** [returns m]: moreover [m] does not raise. *)
Definition returns {A} (m : M A) : Prop :=
  forall e w, calm w -> exists a w', m e w = (Ret a, w') /\ calm w'.

Lemma returns_settles {A} (m : M A) : returns m -> settles m.
Proof.
  intros Hm e w Hcalm. destruct (Hm e w Hcalm) as (a & w' & -> & Hcalm').
  split; [exact Hcalm' | discriminate].
Qed.

Lemma returns_ret {A} (a : A) : returns (mret a).
Proof. intros e w Hcalm. exists a, w. split; [reflexivity | exact Hcalm]. Qed.

Lemma returns_modify (f : World -> World) :
  (forall w, w_tg (f w) = w_tg w) -> returns (modify f).
Proof.
  intros Hf e w Hcalm. exists tt, (f w). split; [reflexivity|].
  unfold calm. rewrite Hf. exact Hcalm.
Qed.

Lemma returns_emit (ev : event) : returns (emit ev).
Proof. apply returns_modify. reflexivity. Qed.

Lemma returns_log (l : logline) : returns (log l).
Proof. apply returns_emit. Qed.

Lemma returns_tg_call (c : call) : returns (tg_call c).
Proof.
  intros e w Hcalm. rewrite tg_call_calm by exact Hcalm.
  exists tt, (add_event (Tg c true) w). split; [reflexivity | exact Hcalm].
Qed.

Lemma returns_now : returns now.
Proof. intros e w Hcalm. eexists. eexists. split; [reflexivity | exact Hcalm]. Qed.

Lemma returns_ask : returns ask.
Proof. intros e w Hcalm. eexists. eexists. split; [reflexivity | exact Hcalm]. Qed.

Lemma returns_get : returns get.
Proof. intros e w Hcalm. eexists. eexists. split; [reflexivity | exact Hcalm]. Qed.

Lemma returns_bind {A B} (m : M A) (k : A -> M B) :
  returns m -> (forall a, returns (k a)) -> returns (m ≫= k).
Proof.
  intros Hm Hk e w Hcalm. unfold mbind, M_bind, bind.
  destruct (Hm e w Hcalm) as (a & w1 & -> & Hcalm1).
  destruct (Hk a e w1 Hcalm1) as (b & w2 & -> & Hcalm2).
  exists b, w2. split; [reflexivity | exact Hcalm2].
Qed.

Lemma settles_raise {A} (x : exn) : settles (@raise A x).
Proof. intros e w Hcalm. split; [exact Hcalm | discriminate]. Qed.

Lemma settles_lift {A} (r : exn + A) : settles (lift r).
Proof.
  destruct r as [x|a]; [apply settles_raise | apply returns_settles, returns_ret].
Qed.

Lemma settles_global_name (names : list string) (name : string) :
  settles (global_name names name).
Proof.
  unfold global_name. destruct (bool_decide (name ∈ names));
    [apply returns_settles, (returns_ret tt) | apply settles_raise].
Qed.

Lemma settles_bind {A B} (m : M A) (k : A -> M B) :
  settles m -> (forall a, settles (k a)) -> settles (m ≫= k).
Proof.
  intros Hm Hk e w Hcalm. unfold mbind, M_bind, bind.
  destruct (Hm e w Hcalm) as [Hcalm1 Hnh].
  destruct (m e w) as [[a|x|] w1]; cbn [fst snd] in *.
  - apply Hk. exact Hcalm1.
  - split; [exact Hcalm1 | discriminate].
  - contradiction.
Qed.

Lemma settles_try_except {A} (body : M A) (handler : exn -> option (M A)) :
  settles body ->
  (forall x h, handler x = Some h -> settles h) ->
  settles (try_except body handler).
Proof.
  intros Hb Hh e w Hcalm. unfold try_except.
  destruct (Hb e w Hcalm) as [Hcalm1 Hnh].
  destruct (body e w) as [[a|x|] w1]; cbn [fst snd] in *.
  - split; [exact Hcalm1 | discriminate].
  - destruct (handler x) as [h|] eqn:Hx.
    + apply (Hh x h Hx). exact Hcalm1.
    + split; [exact Hcalm1 | discriminate].
  - contradiction.
Qed.

Lemma settles_try_finally {A} (body : M A) (cleanup : M unit) :
  settles body -> settles cleanup -> settles (try_finally body cleanup).
Proof.
  intros Hb Hc e w Hcalm. unfold try_finally.
  destruct (Hb e w Hcalm) as [Hcalm1 Hnh].
  destruct (body e w) as [[a|x|] w1]; cbn [fst snd] in *; try contradiction;
    destruct (Hc e w1 Hcalm1) as [Hcalm2 Hnh2];
    destruct (cleanup e w1) as [[[]|y|] w2]; cbn [fst snd] in *; try contradiction;
    (split; [exact Hcalm2 | discriminate]).
Qed.

Lemma settles_of_quiet {A} (m : M A) : quiet m -> never_hangs m -> settles m.
Proof.
  intros Hq Hn e w Hcalm. split; [| apply Hn].
  destruct (Hq e w) as (evs & Hgrow & _). unfold calm. rewrite Hgrow. exact Hcalm.
Qed.

Ltac settles_step :=
  first
    [ apply returns_settles;
      first [ apply returns_ret | apply returns_tg_call | apply returns_now
            | apply returns_ask | apply returns_get | apply returns_emit
            | apply returns_log
            | apply returns_modify; intros; reflexivity ]
    | apply settles_raise | apply settles_lift | apply settles_global_name
    | apply settles_bind | apply settles_try_except | apply settles_try_finally
    | match goal with
      | |- settles (if ?b then _ else _) => destruct b
      | |- settles (match ?x with _ => _ end) => destruct x
      | |- settles (let _ := _ in _) => cbv zeta
      | |- forall _, _ => intros
      | H : Some _ = Some _ |- _ => injection H as <-
      | H : None = Some _ |- _ => discriminate H
      | H : option_map _ ?o = Some _ |- _ => destruct o eqn:?; cbn [option_map] in H
      | H : (if ?b then _ else _) = Some _ |- _ => destruct b
      | H : match ?x with _ => _ end = Some _ |- _ => destruct x
      end ].

Lemma settles_asyncio_sleep (names : list string) (secs : Z) :
  settles (asyncio_sleep names secs).
Proof. unfold asyncio_sleep. repeat settles_step. Qed.

Lemma settles_progress_callback (current total : Z) (status : string) :
  settles (Helpers.progress_callback current total status).
Proof. unfold Helpers.progress_callback. repeat settles_step. Qed.

Lemma settles_remove_if_exists (path : string) (removed : M unit) :
  settles removed -> settles (Handlers.remove_if_exists path removed).
Proof.
  intros Hr. unfold Handlers.remove_if_exists.
  repeat first [ exact Hr | settles_step ].
Qed.

Lemma settles_write_chunks (path : string) (total : Z) (chunks : list Z) :
  forall current, settles (Handlers.write_chunks path total chunks current).
Proof.
  induction chunks as [|chunk rest IH]; intros current; cbn [Handlers.write_chunks].
  - apply returns_settles, returns_ret.
  - repeat first [ apply settles_progress_callback | apply IH | settles_step ].
Qed.

Lemma settles_stream_to_file (d : Download) (path filename : string) (total : Z) :
  settles (Handlers.stream_to_file d path filename total).
Proof.
  unfold Handlers.stream_to_file, Handlers.edit_text.
  repeat first [ apply settles_progress_callback | apply settles_write_chunks
               | settles_step ].
Qed.

Lemma settles_download_body (url path filename : string) :
  settles (Handlers.download_body url path filename).
Proof.
  unfold Handlers.download_body, Handlers.edit_text.
  repeat first [ apply settles_stream_to_file | settles_step ].
Qed.

Lemma settles_download_failed (x : exn) : settles (Handlers.download_failed x).
Proof. unfold Handlers.download_failed, Handlers.edit_text. repeat settles_step. Qed.

Lemma settles_download_phase (url path filename : string) :
  settles (Handlers.download_phase url path filename).
Proof.
  intros e w Hcalm. unfold Handlers.download_phase.
  pose proof (settles_try_except (Handlers.download_body url path filename)
                (fun x => Some (Handlers.download_failed x))
                (settles_download_body url path filename)) as Hbody.
  specialize (Hbody ltac:(intros x h [= <-]; apply settles_download_failed) e w Hcalm).
  destruct (try_except _ _ e w) as [r w1]. cbn [fst snd] in Hbody.
  destruct Hbody as [Hcalm1 Hnh].
  apply (settles_try_finally (fun _ _ => (r, w1))).
  - intros e' w' _. split; [exact Hcalm1 | exact Hnh].
  - destruct r as [[n|]|x|]; cbn [negb];
      first [ apply returns_settles, returns_ret
            | apply settles_remove_if_exists, returns_settles, returns_log ].
  - exact Hcalm1.
Qed.

Lemma settles_send_then_delete (path filename : string) (uploaded : bool)
    (between : M unit) (h : bool -> exn -> option (M bool)) :
  settles between ->
  (forall b x k, h b x = Some k -> settles k) ->
  settles (Handlers.send_then_delete path filename uploaded between h).
Proof.
  intros Hb Hh. unfold Handlers.send_then_delete.
  repeat first [ exact Hb | eapply Hh; eassumption | settles_step ].
Qed.

Lemma settles_retry_upload (path filename : string) (uploaded : bool) :
  settles (Handlers.retry_upload path filename uploaded).
Proof.
  unfold Handlers.retry_upload, Handlers.edit_text.
  apply settles_send_then_delete; repeat settles_step.
Qed.

Lemma settles_upload_phase (path filename : string) (n : Z) :
  settles (Handlers.upload_phase path filename n).
Proof.
  unfold Handlers.upload_phase, Handlers.edit_text.
  repeat first [ apply settles_send_then_delete | settles_step ].
  unfold Handlers.upload_failed, Handlers.edit_text in *.
  repeat first [ apply settles_retry_upload | apply settles_asyncio_sleep | settles_step ].
Qed.

Lemma settles_forward_phase (uploaded : bool) : settles (Handlers.forward_phase uploaded).
Proof.
  unfold Handlers.forward_phase.
  repeat first [ apply settles_asyncio_sleep | settles_step ].
Qed.

Lemma settles_download_and_upload (user_id : Z) (url filename size_str : string) :
  settles (Handlers.download_and_upload user_id url filename size_str).
Proof.
  unfold Handlers.download_and_upload, Handlers.start_download, Handlers.edit_text.
  repeat first [ apply settles_download_phase | apply settles_upload_phase
               | apply settles_forward_phase
               | apply settles_remove_if_exists, returns_settles, returns_ret
               | settles_step ].
Qed.

(** The body of [message_handler] never raises while the transport
    accepts its calls: whatever the page, the resolver's tuple, the
    download server or the file system do (a tuple of the wrong types, an
    HTTP error, a file past the ceiling), the handler ends by returning,
    the last [except Exception] turning every exception into a status
    text. *)
Theorem link_handler_reports_instead_of_raising
    (e : Env) (w : World) (user_id : Z) (text : string) :
  calm w ->
  exists w', Handlers.link_handler user_id text e w = (Ret tt, w') /\ calm w'.
Proof.
  intros Hcalm. unfold Handlers.link_handler.
  destruct (Terabox.extract_terabox_link text) as [link|].
  - unfold mbind at 1, M_bind at 1, bind at 1. rewrite tg_call_calm by exact Hcalm.
    match goal with
    | |- context [try_except ?body ?handler e ?w0] =>
        assert (Hbody : settles body)
    end.
    { unfold Handlers.as_str, Handlers.edit_text.
      repeat first [ apply settles_download_and_upload
                   | apply settles_of_quiet;
                     [apply quiet_get_terabox_download_link
                     | intros e' w'; destruct (resolver_total link e' w') as (r & w2 & ->);
                       discriminate]
                   | settles_step ]. }
    unfold try_except.
    match goal with
    | |- context [?body e ?w0] =>
        destruct (Hbody e w0 Hcalm) as [Hcalm1 Hnh];
        destruct (body e w0) as [[[]|x|] w1]
    end; cbn [fst snd] in *.
    + exists w1. split; [reflexivity | exact Hcalm1].
    + unfold Handlers.edit_text. unfold_monad.
      rewrite tg_call_calm by exact Hcalm1.
      eexists. split; [reflexivity | exact Hcalm1].
    + contradiction.
  - unfold_monad. rewrite tg_call_calm by exact Hcalm.
    eexists. split; [reflexivity | exact Hcalm].
Qed.

Lemma link_handler_reports_instead_of_raising_witness :
  exists w',
    Handlers.link_handler 42 "see https://terabox.com/s/1abcDEF_x" adult_env token_world
    = (Ret tt, w')
    /\ calm w'.
Proof.
  apply (link_handler_reports_instead_of_raising adult_env token_world 42
           "see https://terabox.com/s/1abcDEF_x").
  reflexivity.
Defined.

(** *** What [int] rejects *)

Fixpoint has_char (p : ascii -> bool) (s : string) : bool :=
  match s with
  | EmptyString => false
  | String a s' => p a || has_char p s'
  end.

Lemma has_char_existsb (p : ascii -> bool) (s : string) :
  has_char p s = existsb p (list_ascii_of_string s).
Proof. induction s as [|a s IH]; cbn; [reflexivity | rewrite IH; reflexivity]. Qed.

Lemma not_in_literal_spec (a : ascii) :
  Json.not_in_literal a = true ->
  Str.is_digit a = false /\ Str.is_space a = false /\ Ascii.eqb a "_" = false
  /\ Ascii.eqb a "+" = false /\ Ascii.eqb a "-" = false.
Proof.
  unfold Json.not_in_literal. intros H. apply andb_true_iff in H as [_ H].
  apply negb_true_iff in H. repeat (apply orb_false_iff in H as [H ?]). auto.
Qed.

Lemma has_char_lstrip (s : string) :
  has_char Json.not_in_literal (Str.lstrip s) = has_char Json.not_in_literal s.
Proof.
  induction s as [|a s IH]; [reflexivity|]. cbn [Str.lstrip].
  destruct (Str.is_space a) eqn:Hsp; [| reflexivity].
  rewrite IH. cbn [has_char].
  destruct (Json.not_in_literal a) eqn:Hbad; [| reflexivity].
  apply not_in_literal_spec in Hbad as (_ & Hsp' & _). congruence.
Qed.

Lemma has_char_rstrip (s : string) :
  has_char Json.not_in_literal (Str.rstrip s) = has_char Json.not_in_literal s.
Proof.
  induction s as [|a s IH]; [reflexivity|]. cbn [Str.rstrip has_char].
  rewrite <- IH. destruct (Str.rstrip s) as [|b r]; [| reflexivity].
  cbn [has_char]. destruct (Str.is_space a) eqn:Hsp; [| reflexivity].
  destruct (Json.not_in_literal a) eqn:Hbad; [| reflexivity].
  apply not_in_literal_spec in Hbad as (_ & Hsp' & _). congruence.
Qed.

Lemma digits_value_rejects (s : string) :
  forall after_digit acc,
    has_char Json.not_in_literal s = true -> Json.digits_value after_digit acc s = None.
Proof.
  induction s as [|a s IH]; intros after_digit acc Hbad; [discriminate Hbad|].
  cbn [has_char] in Hbad. cbn [Json.digits_value].
  destruct (Json.not_in_literal a) eqn:Ha.
  - apply not_in_literal_spec in Ha as (Hd & _ & Hu & _). rewrite Hd, Hu. reflexivity.
  - cbn [orb] in Hbad. destruct (Str.is_digit a); [apply IH; exact Hbad|].
    destruct (Ascii.eqb a "_" && after_digit); [apply IH; exact Hbad | reflexivity].
Qed.

(** [int] rejects every string with a character that no literal has. *)
Lemma int_of_str_rejects (s : string) :
  existsb Json.not_in_literal (list_ascii_of_string s) = true ->
  Json.int_of_str s = inl (ValueError "invalid literal for int() with base 10").
Proof.
  rewrite <- has_char_existsb. intros Hbad. unfold Json.int_of_str.
  assert (Hstrip : has_char Json.not_in_literal (Str.strip s) = true)
    by (unfold Str.strip; rewrite has_char_rstrip, has_char_lstrip; exact Hbad).
  destruct (Str.strip s) as [|c d]; [discriminate Hstrip|].
  cbn [has_char] in Hstrip.
  destruct (Json.not_in_literal c) eqn:Hc.
  - apply not_in_literal_spec in Hc as (Hd & _ & Hu & Hplus & Hminus).
    rewrite Hplus, Hminus. cbn [Json.digits_value]. rewrite Hd, Hu. reflexivity.
  - cbn [orb] in Hstrip.
    destruct (Ascii.eqb c "-"); [rewrite (digits_value_rejects d _ _ Hstrip); reflexivity|].
    destruct (Ascii.eqb c "+"); [rewrite (digits_value_rejects d _ _ Hstrip); reflexivity|].
    rewrite (digits_value_rejects (String c d)); [reflexivity|].
    cbn [has_char]. rewrite Hc. exact Hstrip.
Qed.

(** Failures of the download server are reported, not raised. With a
    transport that accepts the status updates, [download_and_upload]
    returns normally and has opened no file when the server cannot be
    reached ("network error"), when it answers outside 2xx (the status
    code is shown), and when it declares a length that [int] rejects
    because of an ASCII character that no decimal literal contains: that
    [ValueError] is caught by the clause meant for the size ceiling and
    shown as "File Too Large". *)
Theorem download_errors_are_reported
    (e : Env) (w : World) (user_id : Z) (download_url filename file_size_str : string) :
  calm w ->
  remove_permitted e = true ->
  forall t : text,
    (dl_connect (download e download_url) = Some RequestError
     /\ t = TxtDownloadFailedNetwork)
    \/ (dl_connect (download e download_url) = None
        /\ ~ 200 <= dl_status (download e download_url) <= 299
        /\ t = TxtDownloadFailedStatus (dl_status (download e download_url)))
    \/ (dl_connect (download e download_url) = None
        /\ 200 <= dl_status (download e download_url) <= 299
        /\ exists h,
             dl_content_length (download e download_url) = Some h
             /\ existsb Json.not_in_literal (list_ascii_of_string h) = true
             /\ t = TxtFileTooLarge
                      (ValueError "invalid literal for int() with base 10")) ->
    exists w' evs,
      Handlers.download_and_upload user_id download_url filename file_size_str e w
      = (Ret tt, w')
      /\ w_trace w' = (w_trace w ++ evs)%list
      /\ shown evs = [TxtStartingDownload filename file_size_str; t]
      /\ existsb wrote_file evs = false
      /\ existsb is_send_video evs = false
      /\ w_db w' = w_db w.
Proof.
  intros Hcalm Hrm t Hcase.
  set (path := Handlers.download_path_of e user_id filename).
  set (w0 := add_event (Tg (EditText (TxtStartingDownload filename file_size_str)) true)
               (set_reads (S (w_reads w)) w)).
  assert (Hphase : exists w' evs,
    Handlers.download_phase download_url path filename e w0 = (Ret None, w')
    /\ w_trace w' = (w_trace w0 ++ evs)%list
    /\ shown evs = [t]
    /\ existsb wrote_file evs = false
    /\ existsb is_send_video evs = false
    /\ w_db w' = w_db w0).
  { assert (Hearly : forall x l,
      Handlers.download_body download_url path filename e w0
      = (Exn x, add_event (HttpStream download_url) w0) ->
      Handlers.download_failed x = (log l;; Handlers.edit_text t;; mret None) ->
      exists w' evs,
        Handlers.download_phase download_url path filename e w0 = (Ret None, w')
        /\ w_trace w' = (w_trace w0 ++ evs)%list
        /\ shown evs = [t]
        /\ existsb wrote_file evs = false
        /\ existsb is_send_video evs = false
        /\ w_db w' = w_db w0).
    { intros x l Hbody Hfailed.
      pose proof Hbody as Hbody'.
      unfold Handlers.download_phase, try_except. rewrite Hbody, Hfailed.
      unfold Handlers.edit_text. unfold_monad.
      rewrite tg_call_calm by exact Hcalm. cbn [negb]. unfold try_finally.
      unfold Handlers.remove_if_exists. unfold_monad. rewrite Hrm.
      cbn [w_fs add_event].
      destruct (w_fs w0 !! path) as [size|]; unfold_monad;
        eexists; eexists; (split; [reflexivity|]);
        cbn [w_trace w_fs w_db add_event set_fs]; rewrite <- ?app_assoc;
        repeat split. }
    destruct Hcase as [[Hconn ->] | [(Hconn & Hstatus & ->) | (Hconn & Hstatus & Hlen)]].
    - apply (Hearly RequestError LogDownloadNetwork); [| reflexivity].
      unfold Handlers.download_body. unfold_monad. rewrite Hconn. reflexivity.
    - apply (Hearly (HTTPStatusError (dl_status (download e download_url)))
               (LogDownloadHttpStatus (dl_status (download e download_url))));
        [| reflexivity].
      unfold Handlers.download_body. unfold_monad. rewrite Hconn.
      destruct ((200 <=? dl_status (download e download_url))
                && (dl_status (download e download_url) <=? 299)) eqn:Hok; [| reflexivity].
      exfalso. apply Hstatus. apply andb_true_iff in Hok as [H1 H2].
      apply Z.leb_le in H1, H2. lia.
    - destruct Hlen as (h & Hlen & Hbad & ->).
      pose proof (int_of_str_rejects h Hbad) as Hint.
      assert (Htruthy : Str.truthy h = true)
        by (destruct h; [discriminate Hbad | reflexivity]).
      apply (Hearly (ValueError "invalid literal for int() with base 10")
               (LogDownloadStopped (ValueError "invalid literal for int() with base 10")));
        [| reflexivity].
      unfold Handlers.download_body. unfold_monad. rewrite Hconn, Hlen, Htruthy, Hint.
      destruct (Z.leb_spec 200 (dl_status (download e download_url))); [| lia].
      destruct (Z.leb_spec (dl_status (download e download_url)) 299); [| lia].
      reflexivity. }
  destruct Hphase as (w' & evs & Hrun & Htrace & Hshown & Hnowrite & Hnosend & Hdb).
  exists w', ([Tg (EditText (TxtStartingDownload filename file_size_str)) true] ++ evs)%list.
  split.
  { unfold Handlers.download_and_upload, Handlers.start_download, Handlers.edit_text, now.
    unfold_monad. rewrite tg_call_calm by exact Hcalm. fold w0. fold path.
    rewrite Hrun. reflexivity. }
  split; [rewrite Htrace; unfold w0; cbn [w_trace add_event set_reads];
          rewrite <- app_assoc; reflexivity|].
  split; [rewrite shown_app, Hshown; reflexivity|].
  split; [rewrite existsb_app, Hnowrite; reflexivity|].
  split; [rewrite existsb_app, Hnosend; reflexivity|].
  rewrite Hdb. reflexivity.
Qed.

Lemma download_errors_are_reported_witness :
  exists w' evs,
    Handlers.download_and_upload 42 "https://d.terabox.com/f.mp4" "clip.mp4" "Unknown"
      bad_length_env token_world
    = (Ret tt, w')
    /\ w_trace w' = (w_trace token_world ++ evs)%list
    /\ shown evs
       = [TxtStartingDownload "clip.mp4" "Unknown";
          TxtFileTooLarge (ValueError "invalid literal for int() with base 10")]
    /\ existsb wrote_file evs = false
    /\ existsb is_send_video evs = false
    /\ w_db w' = w_db token_world.
Proof.
  apply (download_errors_are_reported bad_length_env token_world 42
           "https://d.terabox.com/f.mp4" "clip.mp4" "Unknown").
  - reflexivity.
  - reflexivity.
  - right. right. split; [reflexivity|]. split; [vm_compute; split; discriminate|].
    exists "12a". split; [reflexivity|]. split; [vm_compute; reflexivity|].
    reflexivity.
Defined.

(** Without a forced-subscription channel ([FSUB_ID] is 0) the wrapper
    is transparent for everybody: it logs that the check is skipped and
    runs the wrapped function, without any call to the transport. *)
Theorem fsub_disabled_is_transparent
    (e : Env) (w : World) (upd : Decorators.update) (user_id : Z) (func : M unit) :
  FSUB_ID (cfg e) = 0 ->
  Decorators.fsub_required upd user_id func e w
  = func e (if Decorators.is_admin e user_id then w
            else add_event (Logged LogFsubSkipped) w).
Proof.
  intros Hoff. unfold Decorators.fsub_required.
  apply guarded_allowed. unfold Decorators.fsub_gate. unfold_monad.
  rewrite Hoff. cbn [Z.eqb]. destruct (Decorators.is_admin e user_id); reflexivity.
Qed.

Lemma fsub_disabled_is_transparent_witness :
  Decorators.fsub_required Decorators.IsMessage 42 (Handlers.link_handler 42 "hello")
    open_env token_world
  = Handlers.link_handler 42 "hello" open_env
      (if Decorators.is_admin open_env 42 then token_world
       else add_event (Logged LogFsubSkipped) token_world).
Proof.
  apply (fsub_disabled_is_transparent open_env token_world Decorators.IsMessage 42
           (Handlers.link_handler 42 "hello")).
  reflexivity.
Defined.
